(** * Stock Data Visualizer: model, view and request handler

    A shallow embedding of [model.py], [view.py] and the [index] handler of
    [app.py], followed by the properties of the natural-language
    specification that they satisfy (or fail to satisfy).

    Conventions of the embedding.
    - A Python [str] is a [string]; a character is a code point below 256
      (Latin-1), which is the range a Rocq [ascii] covers.  In that range
      [\d] of the [re] module is exactly [0-9] and [str.isspace] holds for
      the twelve code points listed in [is_space].
    - A Python [dict] is an insertion-ordered association list ([dict]),
      with [dict_set] replacing in place or appending, as CPython does.
    - A call that can raise returns a [result]; the exception is named by
      its Python class.
    - The network, the contents of [config.py], the float conversions and
      the few library functions whose exact text behaviour is irrelevant
      here are the methods of a [Runtime] class that the definitions take
      as a parameter. *)

From Stdlib Require Import ZArith List String Ascii Bool Lia Permutation.
From stdpp Require Import base tactics decidable list strings sorting pretty.
Import ListNotations.

Local Open Scope Z_scope.
Local Open Scope list_scope.

(** ** Exceptions and fallible calls *)

Inductive exn : Set :=
  | KeyError
  | IndexError
  | ValueError
  | TypeError
  | AttributeError
  | OverflowError.

Inductive result (A : Type) : Type :=
  | Ok (a : A)
  | Raise (e : exn).
Arguments Ok {A} a.
Arguments Raise {A} e.

Global Instance result_ret : MRet result := fun A a => Ok a.
Global Instance result_bind : MBind result := fun A B k r =>
  match r with
  | Ok a => k a
  | Raise e => Raise e
  end.

Definition is_ok {A} (r : result A) : bool :=
  match r with Ok _ => true | Raise _ => false end.

(** ** Python dictionaries: insertion-ordered, unique keys *)

Definition dict (K V : Type) : Type := list (K * V).

Section dict_ops.
Context {K V : Type} `{EqDecision K}.

Fixpoint dict_get (k : K) (d : dict K V) : option V :=
  match d with
  | [] => None
  | (k', v) :: d' => if decide (k = k') then Some v else dict_get k d'
  end.

(** [d[k]]: [KeyError] on a missing key. *)
Definition dict_index (k : K) (d : dict K V) : result V :=
  match dict_get k d with
  | Some v => Ok v
  | None => Raise KeyError
  end.

(** [d.get(k, default)]. *)
Definition dict_get_default (k : K) (default : V) (d : dict K V) : V :=
  match dict_get k d with
  | Some v => v
  | None => default
  end.

(** [k in d]. *)
Definition dict_mem (k : K) (d : dict K V) : bool :=
  match dict_get k d with Some _ => true | None => false end.

(** [d[k] = v]: an existing key keeps its position, a new key goes last. *)
Fixpoint dict_set (k : K) (v : V) (d : dict K V) : dict K V :=
  match d with
  | [] => [(k, v)]
  | (k', v') :: d' =>
      if decide (k = k') then (k, v) :: d' else (k', v') :: dict_set k v d'
  end.

Definition dict_keys (d : dict K V) : list K := map fst d.

(** The invariant of every Python dictionary: no key occurs twice. *)
Definition dict_wf (d : dict K V) : Prop := NoDup (dict_keys d).

End dict_ops.

(** ** Characters and the [str] methods the program calls *)

Definition code (c : ascii) : Z := Z.of_N (N_of_ascii c).

(** [str.isspace] on one character, for code points below 256. *)
Definition is_space (c : ascii) : bool :=
  let n := code c in
  ((9 <=? n) && (n <=? 13)) || ((28 <=? n) && (n <=? 32))
  || (n =? 133) || (n =? 160).

(** [\d] of [re] on code points below 256. *)
Definition is_digit (c : ascii) : bool :=
  let n := code c in (48 <=? n) && (n <=? 57).

(** [int] of a single matched digit. *)
Definition digit_val (c : ascii) : option Z :=
  if is_digit c then Some (code c - 48) else None.

(** [s.split()]: the maximal runs of non-whitespace characters. *)
Fixpoint split_ws (s : string) : list string :=
  match s with
  | EmptyString => []
  | String c s' =>
      if is_space c then split_ws s'
      else match s' with
           | EmptyString => [String c EmptyString]
           | String c' _ =>
               if is_space c' then String c EmptyString :: split_ws s'
               else match split_ws s' with
                    | t :: ts => String c t :: ts
                    | [] => [String c EmptyString]
                    end
           end
  end.

(** [s.split()[0]]: [IndexError] when [s] has no token. *)
Definition first_token (s : string) : result string :=
  match split_ws s with
  | t :: _ => Ok t
  | [] => Raise IndexError
  end.

Fixpoint lstrip (s : string) : string :=
  match s with
  | EmptyString => EmptyString
  | String c s' => if is_space c then lstrip s' else s
  end.

Fixpoint rstrip (s : string) : string :=
  match s with
  | EmptyString => EmptyString
  | String c s' =>
      match rstrip s' with
      | EmptyString => if is_space c then EmptyString else String c EmptyString
      | t => String c t
      end
  end.

(** [s.strip()]. *)
Definition strip (s : string) : string := rstrip (lstrip s).

(** [needle in hay] on two strings. *)
Fixpoint is_substring (needle hay : string) : bool :=
  String.prefix needle hay ||
  match hay with
  | EmptyString => false
  | String _ hay' => is_substring needle hay'
  end.

(** ** [datetime] values *)

(** A naive [datetime.datetime]. *)
Record datetime : Set := mk_datetime {
  year : Z;
  month : Z;
  day : Z;
  hour : Z;
  minute : Z;
  second : Z;
  microsecond : Z
}.

Fixpoint lex_compare (a b : list Z) : comparison :=
  match a, b with
  | [], [] => Eq
  | [], _ :: _ => Lt
  | _ :: _, [] => Gt
  | x :: a', y :: b' =>
      match x ?= y with
      | Eq => lex_compare a' b'
      | c => c
      end
  end.

(** The tuple [datetime] comparison goes through. *)
Definition dt_fields (d : datetime) : list Z :=
  [year d; month d; day d; hour d; minute d; second d; microsecond d].

Definition dt_compare (a b : datetime) : comparison :=
  lex_compare (dt_fields a) (dt_fields b).

(** [a <= b] on two [datetime] objects. *)
Definition dt_le (a b : datetime) : bool :=
  match dt_compare a b with Gt => false | _ => true end.

(** [a < b]. *)
Definition dt_lt (a b : datetime) : bool :=
  match dt_compare a b with Lt => true | _ => false end.

(** [a >= b]. *)
Definition dt_ge (a b : datetime) : bool :=
  match dt_compare a b with Lt => false | _ => true end.

Definition is_leap (y : Z) : bool :=
  (y mod 4 =? 0) && (negb (y mod 100 =? 0) || (y mod 400 =? 0)).

Definition days_in_month (y m : Z) : Z :=
  if m =? 2 then (if is_leap y then 29 else 28)
  else if (m =? 4) || (m =? 6) || (m =? 9) || (m =? 11) then 30
  else 31.

(** The range check of the [datetime] constructor on its date fields. *)
Definition valid_ymd (y m d : Z) : bool :=
  (1 <=? y) && (y <=? 9999) && (1 <=? m) && (m <=? 12)
  && (1 <=? d) && (d <=? days_in_month y m).

(** The [datetime] at midnight of a calendar day. *)
Definition midnight (y m d : Z) : datetime := mk_datetime y m d 0 0 0 0.

(** ** [datetime.strptime(s, '%Y-%m-%d')]

    [_strptime] turns the format into the regular expression
    [(?P<Y>\d\d\d\d)-(?P<m>1[0-2]|0[1-9]|[1-9])-(?P<d>3[0-1]|[1-2]\d|0[1-9]|[1-9]| [1-9])],
    matches it at the start of the string, raises [ValueError] when it
    does not match or when text remains after the match, converts the
    groups with [int] and builds the date, which raises [ValueError] when
    the fields are out of range. *)

(** Group [Y] and the dash after it. *)
Definition parse_year (s : string) : option (Z * string) :=
  match s with
  | String c1 (String c2 (String c3 (String c4 (String "-" rest)))) =>
      match digit_val c1, digit_val c2, digit_val c3, digit_val c4 with
      | Some a, Some b, Some c, Some d =>
          Some (1000 * a + 100 * b + 10 * c + d, rest)
      | _, _, _, _ => None
      end
  | _ => None
  end.

Definition in_range (lo hi : Z) (c : ascii) : option Z :=
  match digit_val c with
  | Some v => if (lo <=? v) && (v <=? hi) then Some v else None
  | None => None
  end.

(** Group [m] and the dash after it; the alternatives are tried in the
    order of the expression, each together with the dash. *)
Definition parse_month (s : string) : option (Z * string) :=
  let alt3 :=
    match s with
    | String c (String "-" rest) =>
        match in_range 1 9 c with
        | Some v => Some (v, rest)
        | None => None
        end
    | _ => None
    end in
  match s with
  | String "1" (String c (String "-" rest)) =>
      match in_range 0 2 c with
      | Some v => Some (10 + v, rest)
      | None => alt3
      end
  | String "0" (String c (String "-" rest)) =>
      match in_range 1 9 c with
      | Some v => Some (v, rest)
      | None => alt3
      end
  | _ => alt3
  end.

(** Group [d], the last of the expression: the first alternative that
    matches is the match, and what follows it is the unconverted rest. *)
Definition parse_day (s : string) : option (Z * string) :=
  let one_digit :=
    match s with
    | String c rest =>
        match in_range 1 9 c with
        | Some v => Some (v, rest)
        | None =>
            match s with
            | String " " (String c' rest') =>
                match in_range 1 9 c' with
                | Some v => Some (v, rest')
                | None => None
                end
            | _ => None
            end
        end
    | EmptyString => None
    end in
  match s with
  | String c1 (String c2 rest) =>
      match in_range 3 3 c1, in_range 0 1 c2 with
      | Some a, Some b => Some (10 * a + b, rest)
      | _, _ =>
          match in_range 1 2 c1, in_range 0 9 c2 with
          | Some a, Some b => Some (10 * a + b, rest)
          | _, _ =>
              match in_range 0 0 c1, in_range 1 9 c2 with
              | Some _, Some b => Some (b, rest)
              | _, _ => one_digit
              end
          end
      end
  | _ => one_digit
  end.

Definition strptime_ymd (s : string) : result datetime :=
  match parse_year s with
  | None => Raise ValueError
  | Some (y, s1) =>
      match parse_month s1 with
      | None => Raise ValueError
      | Some (m, s2) =>
          match parse_day s2 with
          | Some (d, EmptyString) =>
              if valid_ymd y m d then Ok (midnight y m d) else Raise ValueError
          | _ => Raise ValueError
          end
      end
  end.

(** ** JSON values, as [response.json()] returns them *)

(** [F] is the type of Python floats. *)
#[local] Unset Elimination Schemes.
Inductive json (F : Type) : Type :=
  | JNull
  | JBool (b : bool)
  | JInt (n : Z)
  | JFloat (x : F)
  | JStr (s : string)
  | JArr (l : list (json F))
  | JObj (d : list (string * json F)).
Arguments JNull {F}.
Arguments JBool {F} b.
Arguments JInt {F} n.
Arguments JFloat {F} x.
Arguments JStr {F} s.
Arguments JArr {F} l.
Arguments JObj {F} d.
#[local] Set Elimination Schemes.

(** What [requests.get] followed by [response.json()] can produce: an
    exception of the [requests] hierarchy, or a status code with a body
    that is JSON ([Some]) or not ([None]). *)
Inductive http_outcome (F : Type) : Type :=
  | RequestException
  | HttpResponse (status_code : Z) (body : option (json F)).
Arguments RequestException {F}.
Arguments HttpResponse {F} status_code body.

(** ** The environment of the program *)

Class Runtime : Type := mk_runtime {
  (** Python's [float] type, kept abstract *)
  pyfloat : Type;
  (** [float(s)] on a string; [None] is [ValueError] *)
  float_of_str : string -> option pyfloat;
  (** [float(n)] on an integer; [None] is [OverflowError] *)
  float_of_int : Z -> option pyfloat;
  (** [bool(x)] on a float *)
  float_truth : pyfloat -> bool;
  (** [repr(x)] on a float, as an f-string prints a list element *)
  float_repr : pyfloat -> string;
  (** [repr(s)] on a string *)
  str_repr : string -> string;
  (** [s.upper()] *)
  str_upper : string -> string;
  (** [int(s)] on a string; [None] is [ValueError] *)
  int_of_str : string -> option Z;
  (** [API_KEY] of [config.py], which is not part of the sources *)
  API_KEY : string;
  (** the remote endpoint: what a GET of a URL with parameters answers *)
  requests_get : string -> dict string string -> http_outcome pyfloat;
  (** the symbols [load_symbols] reads from [stocks.csv] *)
  load_symbols : list string
}.

(** A sample environment for evaluating the program on concrete inputs:
    floats are kept as the text they were read from, integers are plain
    digit strings, upper-casing covers the ASCII letters, and the endpoint
    answers the symbol [IBM] with a two-day daily series, [EMPTY] with a
    response that lacks the series and [BAD] with a malformed key. *)
Module Sample.

Definition all_digits (s : string) : bool :=
  forallb is_digit (list_ascii_of_string s).

Fixpoint digits_value (acc : Z) (s : string) : Z :=
  match s with
  | EmptyString => acc
  | String c s' => digits_value (10 * acc + (code c - 48)) s'
  end.

Definition sample_int_of_str (s : string) : option Z :=
  match s with
  | EmptyString => None
  | _ => if all_digits s then Some (digits_value 0 s) else None
  end.

Definition sample_float_of_str (s : string) : option string :=
  match s with
  | EmptyString => None
  | _ => if forallb (fun c => is_digit c || Ascii.eqb c ".")
              (list_ascii_of_string s)
         then Some s else None
  end.

Definition upper_char (c : ascii) : ascii :=
  let n := code c in
  if (97 <=? n) && (n <=? 122) then ascii_of_N (Z.to_N (n - 32)) else c.

Fixpoint sample_str_upper (s : string) : string :=
  match s with
  | EmptyString => EmptyString
  | String c s' => String (upper_char c) (sample_str_upper s')
  end.

Definition sample_str_repr (s : string) : string := ("'" ++ s ++ "'")%string.

Definition ohlc (o h l c : string) : json string :=
  JObj [("1. open", JStr o); ("2. high", JStr h);
        ("3. low", JStr l); ("4. close", JStr c)].

Definition daily_series : list (string * json string) :=
  [("2024-01-05", ohlc "3" "4" "2.5" "3.5");
   ("2024-01-02", ohlc "1" "2" "0.5" "1.5")].

Definition intraday_series : list (string * json string) :=
  [("2024-01-05 10:00:00", ohlc "3" "4" "2.5" "3.5");
   ("2024-01-02 10:00:00", ohlc "1" "2" "0.5" "1.5");
   ("2024-01-02 09:00:00", ohlc "1" "1.5" "0.5" "1")].

Definition sample_requests_get (url : string) (params : dict string string)
  : http_outcome string :=
  match dict_get "symbol" params with
  | Some "IBM" =>
      HttpResponse 200 (Some (JObj [("Meta Data", JObj []);
                                    ("Time Series (Daily)", JObj daily_series)]))
  | Some "EMPTY" =>
      HttpResponse 200 (Some (JObj [("Meta Data", JObj [])]))
  | Some "BAD" =>
      HttpResponse 200
        (Some (JObj [("Time Series (Daily)",
                      JObj [("2024-13-40", ohlc "1" "2" "0.5" "1.5")])]))
  | Some "LIMIT" =>
      HttpResponse 200 (Some (JObj [("Note", JStr "rate limit")]))
  | _ => RequestException
  end.

Definition rt : Runtime := {|
  pyfloat := string;
  float_of_str := sample_float_of_str;
  float_of_int := fun n => None;
  float_truth := fun _ => true;
  float_repr := fun x => x;
  str_repr := sample_str_repr;
  str_upper := sample_str_upper;
  int_of_str := sample_int_of_str;
  API_KEY := "demo";
  requests_get := sample_requests_get;
  load_symbols := ["AAPL"; "IBM"]
|}.

End Sample.

(** ** The observable effects of a request

    The handler performs GET requests and flashes messages; both are
    recorded, in order, next to the value a call returns.  Output written
    with [print] is not modelled. *)

Record http_request : Type := mk_request {
  req_url : string;
  req_params : dict string string
}.

Record effects : Type := mk_effects {
  requests_sent : list http_request;
  flashed : list (string * string)
}.

Definition no_effects : effects := mk_effects [] [].

Definition IO (A : Type) : Type := effects -> effects * result A.

Global Instance IO_ret : MRet IO := fun A a st => (st, Ok a).
Global Instance IO_bind : MBind IO := fun A B k m st =>
  match m st with
  | (st', Ok a) => k a st'
  | (st', Raise e) => (st', Raise e)
  end.

(** A pure fallible call inside the handler. *)
Definition lift {A} (r : result A) : IO A := fun st => (st, r).

(** [flash(message, category)]. *)
Definition flash (message category : string) : IO unit := fun st =>
  (mk_effects (requests_sent st) (flashed st ++ [(message, category)]), Ok tt).

Definition run {A} (m : IO A) : effects * result A := m no_effects.

Section Program.
Context `{rt : Runtime}.

Abbreviation value := (json pyfloat).

(** [requests.get(url, params=params)], [raise_for_status()] and
    [response.json()].  Every failure of the three is a
    [RequestException] ([HTTPError] for a 4xx or 5xx status,
    [JSONDecodeError] of [requests] for a body that is not JSON), which
    is what the [except] clause of [fetch_stock_data] catches: [None]
    stands for it. *)
Definition http_get_json (url : string) (params : dict string string)
  : IO (option value) := fun st =>
  let st' := mk_effects (requests_sent st ++ [mk_request url params])
                        (flashed st) in
  match requests_get url params with
  | RequestException => (st', Ok None)
  | HttpResponse status_code body =>
      if (400 <=? status_code) && (status_code <? 600) then (st', Ok None)
      else (st', Ok body)
  end.

(** ** Operators on JSON values *)

(** [bool(v)], the test behind [not v]. *)
Definition truthy (v : value) : bool :=
  match v with
  | JNull => false
  | JBool b => b
  | JInt n => negb (n =? 0)
  | JFloat x => float_truth x
  | JStr s => negb (String.eqb s EmptyString)
  | JArr l => match l with [] => false | _ => true end
  | JObj d => match d with [] => false | _ => true end
  end.

Definition is_str (k : string) (v : value) : bool :=
  match v with
  | JStr s => String.eqb s k
  | _ => false
  end.

(** [k in v] for a string [k]: key test on a dictionary, element test on
    a list, substring test on a string, [TypeError] otherwise. *)
Definition py_in (k : string) (v : value) : result bool :=
  match v with
  | JObj d => Ok (dict_mem k d)
  | JArr l => Ok (existsb (is_str k) l)
  | JStr s => Ok (is_substring k s)
  | _ => Raise TypeError
  end.

(** [v[k]] for a string [k]: only a dictionary can be indexed by one. *)
Definition py_getitem (v : value) (k : string) : result value :=
  match v with
  | JObj d => dict_index k d
  | _ => Raise TypeError
  end.

(** [v.items()]: only a dictionary has the method. *)
Definition py_items (v : value) : result (dict string value) :=
  match v with
  | JObj d => Ok d
  | _ => Raise AttributeError
  end.

(** [float(v)]. *)
Definition py_float (v : value) : result (pyfloat) :=
  match v with
  | JStr s =>
      match float_of_str s with Some x => Ok x | None => Raise ValueError end
  | JInt n =>
      match float_of_int n with Some x => Ok x | None => Raise OverflowError end
  | JBool b =>
      match float_of_int (if b then 1 else 0) with
      | Some x => Ok x
      | None => Raise OverflowError
      end
  | JFloat x => Ok x
  | _ => Raise TypeError
  end.

(** [int(s)] on a string. *)
Definition py_int (s : string) : result Z :=
  match int_of_str s with Some n => Ok n | None => Raise ValueError end.

(** [sorted(keys)] on strings: ascending by code points. *)
Definition sorted (keys : list string) : list string :=
  merge_sort String.le keys.

(** ** model.py: class AlphaVantageAPI *)

Definition BASE_URL : string := "https://www.alphavantage.co/query".

Record AlphaVantageAPI : Type := mk_api { api_key : string }.

(** [AlphaVantageAPI()] *)
Definition AlphaVantageAPI_init : AlphaVantageAPI := mk_api (API_KEY).

Definition function_map : dict Z string :=
  [(1, "TIME_SERIES_INTRADAY"); (2, "TIME_SERIES_DAILY");
   (3, "TIME_SERIES_WEEKLY"); (4, "TIME_SERIES_MONTHLY")].

(** The request parameters of [fetch_stock_data] (lines 38 to 55). *)
Definition request_params (self : AlphaVantageAPI) (symbol : string)
  (time_series : Z) : result (dict string string) :=
  function ← dict_index time_series function_map;
  let params := [("function", function); ("symbol", symbol);
                 ("apikey", api_key self); ("outputsize", "full")] in
  if time_series =? 1 then Ok (dict_set "interval" "60min" params)
  else Ok params.

Definition fetch_stock_data (self : AlphaVantageAPI) (symbol : string)
  (time_series : Z) : IO (option value) :=
  params ← lift (request_params self symbol time_series);
  response ← http_get_json BASE_URL params;
  match response with
  | None => mret None
  | Some data =>
      has_error ← lift (py_in "Error Message" data);
      if has_error : bool then
        (* the message printed is [data['Error Message']] *)
        _ ← lift (py_getitem data "Error Message"); mret None
      else
        has_note ← lift (py_in "Note" data);
        if has_note : bool then
          (* the message printed is [data['Note']] *)
          _ ← lift (py_getitem data "Note"); mret None
        else mret (Some data)
  end.

(** ** model.py: class StockData *)

Record StockData : Type := mk_stock_data {
  symbol : string;
  raw_data : value;
  time_series : Z;
  filtered_data : dict string value
}.

(** [StockData(symbol, raw_data, time_series)] *)
Definition StockData_init (symbol : string) (raw_data : value)
  (time_series : Z) : StockData :=
  mk_stock_data symbol raw_data time_series [].

Definition time_series_key_map : dict Z string :=
  [(1, "Time Series (60min)"); (2, "Time Series (Daily)");
   (3, "Weekly Time Series"); (4, "Monthly Time Series")].

(** [date_obj] of the loop body: the date of one timestamp key. *)
Definition key_date (date_str : string) : result datetime :=
  date_only ← first_token date_str;
  strptime_ymd date_only.

(** The loop of [filter_by_date_range] over [time_series_data.items()],
    [acc] being [self.filtered_data]. *)
Fixpoint filter_loop (start_date end_date : datetime)
  (items : dict string value) (acc : dict string value)
  : result (dict string value) :=
  match items with
  | [] => Ok acc
  | (date_str, values) :: rest =>
      date_obj ← key_date date_str;
      if dt_le start_date date_obj && dt_le date_obj end_date
      then filter_loop start_date end_date rest (dict_set date_str values acc)
      else filter_loop start_date end_date rest acc
  end.

Definition set_filtered_data (self : StockData) (d : dict string value)
  : StockData :=
  mk_stock_data (symbol self) (raw_data self) (time_series self) d.

(** The method returns its value together with the object after the call.
    An exception leaves the handler, so the object is not observed then. *)
Definition filter_by_date_range (self : StockData)
  (start_date end_date : datetime)
  : result (dict string value * StockData) :=
  time_series_key ← dict_index (time_series self) time_series_key_map;
  present ← py_in time_series_key (raw_data self);
  if negb present then Ok ([], self)
  else
    time_series_data ← py_getitem (raw_data self) time_series_key;
    items ← py_items time_series_data;
    filtered ← filter_loop start_date end_date items [];
    Ok (filtered, set_filtered_data self filtered).

(** The dictionary [get_formatted_data] returns. *)
Record formatted : Type := mk_formatted {
  dates : list string;
  open : list (pyfloat);
  high : list (pyfloat);
  low : list (pyfloat);
  close : list (pyfloat)
}.

(** The loop of [get_formatted_data] over [sorted_dates]; [acc] holds the
    five lists. *)
Fixpoint format_loop (filtered : dict string value)
  (sorted_dates : list string) (acc : formatted) : result formatted :=
  match sorted_dates with
  | [] => Ok acc
  | date :: rest =>
      values ← dict_index date filtered;
      date_only ← first_token date;
      o ← py_getitem values "1. open" ≫= py_float;
      h ← py_getitem values "2. high" ≫= py_float;
      l ← py_getitem values "3. low" ≫= py_float;
      c ← py_getitem values "4. close" ≫= py_float;
      format_loop filtered rest
        (mk_formatted (dates acc ++ [date_only]) (open acc ++ [o])
           (high acc ++ [h]) (low acc ++ [l]) (close acc ++ [c]))
  end.

Definition get_formatted_data (self : StockData) : result (option formatted) :=
  match filtered_data self with
  | [] => Ok None
  | _ =>
      let sorted_dates := sorted (dict_keys (filtered_data self)) in
      data ← format_loop (filtered_data self) sorted_dates
                (mk_formatted [] [] [] [] []);
      Ok (Some data)
  end.

(** ** model.py: validation functions *)

(** [strptime] raises nothing but [ValueError] on a string, and the
    [except] clause turns that into [None]. *)
Definition validate_date_format (date_string : string)
  : result (option datetime) :=
  match strptime_ymd date_string with
  | Ok d => Ok (Some d)
  | Raise ValueError => Ok None
  | Raise e => Raise e
  end.

Definition validate_date_range (start_date end_date : datetime) : bool :=
  dt_ge end_date start_date.


(** ** view.py: class ChartGenerator *)

(** The f-string of [create_chart] is a sequence of lines, each made of
    literal text and of replacement fields. *)
Inductive field : Set :=
  | f_symbol
  | f_start_date
  | f_end_date
  | f_chart_type_str
  | f_dates
  | f_open
  | f_high
  | f_low
  | f_close.

Inductive piece : Set :=
  | Text (s : string)
  | Field (f : field).

Definition dq : string := String (ascii_of_N 34) EmptyString.
Definition newline : string := String (ascii_of_N 10) EmptyString.

Definition html_template : list (list piece) :=
  [ [];
    [Text ("        <div class=" ++ dq ++ "chart-container" ++ dq ++ " style=" ++ dq ++ "position: relative; height:600px;" ++ dq ++ ">")];
    [Text "            <h2>Stock Data for "; Field f_symbol; Text ": "; Field f_start_date; Text " to "; Field f_end_date; Text "</h2>"];
    [Text ("            <canvas id=" ++ dq ++ "stockChart" ++ dq ++ "></canvas>")];
    [Text "        </div>"];
    [Text ("        <script src=" ++ dq ++ "https://cdn.jsdelivr.net/npm/chart.js" ++ dq ++ "></script>")];
    [Text "        <script>"];
    [Text "            const ctx = document.getElementById('stockChart').getContext('2d');"];
    [Text "            new Chart(ctx, {"];
    [Text "                type: '"; Field f_chart_type_str; Text "',"];
    [Text "                data: {"];
    [Text "                    labels: "; Field f_dates; Text ","];
    [Text "                    datasets: ["];
    [Text "                        {"];
    [Text "                            label: 'Open',"];
    [Text "                            data: "; Field f_open; Text ","];
    [Text "                            borderColor: 'rgba(255,99,132,1)',"];
    [Text "                            backgroundColor: 'rgba(255,99,132,0.25)',"];
    [Text "                            fill: false"];
    [Text "                        },"];
    [Text "                        {"];
    [Text "                            label: 'High',"];
    [Text "                            data: "; Field f_high; Text ","];
    [Text "                            borderColor: 'rgba(54,162,235,1)',"];
    [Text "                            backgroundColor: 'rgba(54,162,235,0.25)',"];
    [Text "                            fill: false"];
    [Text "                        },"];
    [Text "                        {"];
    [Text "                            label: 'Low',"];
    [Text "                            data: "; Field f_low; Text ","];
    [Text "                            borderColor: 'rgba(75,192,192,1)',"];
    [Text "                            backgroundColor: 'rgba(75,192,192,0.25)',"];
    [Text "                            fill: false"];
    [Text "                        },"];
    [Text "                        {"];
    [Text "                            label: 'Close',"];
    [Text "                            data: "; Field f_close; Text ","];
    [Text "                            borderColor: 'rgba(255,206,86,1)',"];
    [Text "                            backgroundColor: 'rgba(255,206,86,0.25)',"];
    [Text "                            fill: false"];
    [Text "                        }"];
    [Text "                    ]"];
    [Text "                },"];
    [Text "                options: {"];
    [Text "                    responsive: true,"];
    [Text "                    maintainAspectRatio: false,"];
    [Text "                    scales: {"];
    [Text "                        y: {"];
    [Text "                            beginAtZero: false,"];
    [Text "                            title: {"];
    [Text "                                display: true,"];
    [Text "                                text: 'Price ($)'"];
    [Text "                            }"];
    [Text "                        },"];
    [Text "                        x: {"];
    [Text "                            title: {"];
    [Text "                                display: true,"];
    [Text "                                text: 'Date'"];
    [Text "                            },"];
    [Text "                            ticks: {"];
    [Text "                                maxRotation: 45,"];
    [Text "                                minRotation: 45"];
    [Text "                            }"];
    [Text "                        }"];
    [Text "                    },"];
    [Text "                    plugins: {"];
    [Text "                        legend: {"];
    [Text "                            display: true,"];
    [Text "                            position: 'top'"];
    [Text "                        }"];
    [Text "                    }"];
    [Text "                }"];
    [Text "            });"];
    [Text "        </script>"];
    [Text "        "] ]%string.

Definition render_piece (env : field -> string) (p : piece) : string :=
  match p with
  | Text s => s
  | Field f => env f
  end.

Definition render_line (env : field -> string) (l : list piece) : string :=
  fold_right String.append EmptyString (map (render_piece env) l).

Definition render (env : field -> string) (t : list (list piece)) : string :=
  String.concat newline (map (render_line env) t).

(** [str] of a list: the [repr] of its elements between brackets. *)
Definition list_repr {A} (elem_repr : A -> string) (l : list A) : string :=
  ("[" ++ String.concat ", " (map elem_repr l) ++ "]")%string.

(** The values of the replacement fields. *)
Definition chart_env (data : formatted) (symbol chart_type_str
  start_date end_date : string) (f : field) : string :=
  match f with
  | f_symbol => symbol
  | f_start_date => start_date
  | f_end_date => end_date
  | f_chart_type_str => chart_type_str
  | f_dates => list_repr (str_repr) (dates data)
  | f_open => list_repr (float_repr) (open data)
  | f_high => list_repr (float_repr) (high data)
  | f_low => list_repr (float_repr) (low data)
  | f_close => list_repr (float_repr) (close data)
  end.

Definition create_chart (data : option formatted) (symbol : string)
  (chart_type : Z) (start_date end_date : string) : option string :=
  match data with
  | None => None
  | Some d =>
      match dates d with
      | [] => None
      | _ =>
          let chart_type_str :=
            if chart_type =? 1 then "bar"%string else "line"%string in
          Some (render (chart_env d symbol chart_type_str start_date end_date)
                  html_template)
      end
  end.

(** ** app.py: the [index] route *)

Inductive http_method : Set := GET | POST.

Record flask_request : Type := mk_flask_request {
  method : http_method;
  form : dict string string
}.

(** The arguments [render_template] is called with; [index.html] itself is
    not part of the sources. *)
Record rendered : Type := mk_rendered {
  template_name : string;
  symbols : list string;
  chart_html : option string;
  selected_symbol : option string
}.

Definition render_template (template_name : string) (symbols : list string)
  (chart_html : option string) (selected_symbol : option string)
  : IO rendered :=
  mret (mk_rendered template_name symbols chart_html selected_symbol).

Definition is_empty (s : string) : bool := String.eqb s EmptyString.

(** [str(n)] on a length. *)
Definition str_of_len (n : nat) : string := pretty.pretty n.

(** The flashed messages. *)
Definition msg_select_symbol : string := "Please select a stock symbol.".
Definition msg_both_dates : string :=
  "Please provide both start and end dates.".
Definition msg_date_format : string :=
  "Invalid date format. Please use YYYY-MM-DD.".
Definition msg_date_order : string :=
  "End date must be on or after the start date.".
Definition msg_fetch_failed : string :=
  "Failed to fetch stock data. Please check the symbol and try again.".
Definition msg_no_data (selected_symbol start_date_str end_date_str : string)
  : string :=
  ("No data found for " ++ selected_symbol ++ " in the date range "
   ++ start_date_str ++ " to " ++ end_date_str ++ ".")%string.
Definition msg_chart_failed : string := "Failed to generate chart.".
Definition msg_success (selected_symbol : string) (n : nat) : string :=
  ("Successfully generated chart for " ++ selected_symbol ++ " with "
   ++ str_of_len n ++ " data points.")%string.

Definition index (request : flask_request) : IO rendered :=
  let symbols := load_symbols in
  match method request with
  | GET => render_template "index.html" symbols None None
  | POST =>
      let selected_symbol :=
        str_upper (strip (dict_get_default "symbol" EmptyString (form request))) in
      chart_type ← lift (py_int (dict_get_default "chart_type" "2" (form request)));
      time_series ← lift (py_int (dict_get_default "time_series" "2" (form request)));
      let start_date_str :=
        strip (dict_get_default "start_date" EmptyString (form request)) in
      let end_date_str :=
        strip (dict_get_default "end_date" EmptyString (form request)) in
      let abort := render_template "index.html" symbols None (Some selected_symbol) in
      if is_empty selected_symbol then
        flash msg_select_symbol "error";; abort
      else if is_empty start_date_str || is_empty end_date_str then
        flash msg_both_dates "error";; abort
      else
        start_date ← lift (validate_date_format start_date_str);
        end_date ← lift (validate_date_format end_date_str);
        match start_date, end_date with
        | Some start_date, Some end_date =>
            if negb (validate_date_range start_date end_date) then
              flash msg_date_order "error";; abort
            else
              let api := AlphaVantageAPI_init in
              raw_data ← fetch_stock_data api selected_symbol time_series;
              match raw_data with
              | Some raw_data =>
                  if negb (truthy raw_data) then
                    flash msg_fetch_failed "error";; abort
                  else
                    let stock_data :=
                      StockData_init selected_symbol raw_data time_series in
                    '(_, stock_data) ←
                      lift (filter_by_date_range stock_data start_date end_date);
                    formatted_data ← lift (get_formatted_data stock_data);
                    match formatted_data with
                    | Some data =>
                        match dates data with
                        | [] =>
                            flash (msg_no_data selected_symbol start_date_str
                                     end_date_str) "warning";; abort
                        | _ =>
                            let chart_html :=
                              create_chart formatted_data selected_symbol
                                chart_type start_date_str end_date_str in
                            match chart_html with
                            | Some html =>
                                if is_empty html then
                                  flash msg_chart_failed "error";; abort
                                else
                                  flash (msg_success selected_symbol
                                           (length (dates data))) "success";;
                                  render_template "index.html" symbols
                                    chart_html (Some selected_symbol)
                            | None => flash msg_chart_failed "error";; abort
                            end
                        end
                    | None =>
                        flash (msg_no_data selected_symbol start_date_str
                                 end_date_str) "warning";; abort
                    end
              | None => flash msg_fetch_failed "error";; abort
              end
        | _, _ => flash msg_date_format "error";; abort
        end
  end.

End Program.


(** ** Notions the specification uses to describe the program *)

(** Whether the date of a timestamp key lies in the inclusive range. *)
Definition in_date_range (start_date end_date : datetime) (date_str : string)
  : bool :=
  match key_date date_str with
  | Ok date_obj => dt_le start_date date_obj && dt_le date_obj end_date
  | Raise _ => false
  end.

(** Whether the date portion of a timestamp key is a calendar date. *)
Definition key_parses (date_str : string) : bool := is_ok (key_date date_str).

(** The same range test on an entry of a series. *)
Definition keep_item {V} (start_date end_date : datetime) (kv : string * V)
  : bool :=
  in_date_range start_date end_date kv.1.


Section spec_notions.
Context `{rt : Runtime}.

(** Whether an entry of a series has a date token and the four price
    fields, each convertible by [float]. *)
Definition well_formed_row (kv : string * json pyfloat) : bool :=
  is_ok (first_token kv.1)
  && is_ok (py_getitem kv.2 "1. open" ≫= py_float)
  && is_ok (py_getitem kv.2 "2. high" ≫= py_float)
  && is_ok (py_getitem kv.2 "3. low" ≫= py_float)
  && is_ok (py_getitem kv.2 "4. close" ≫= py_float).

(** One price of one retained entry: [float] of a field of the record
    stored under a key. *)
Definition price_of (filtered : dict string (json pyfloat)) (name : string)
  (k : string) (x : pyfloat) : Prop :=
  exists values,
    dict_get k filtered = Some values
    /\ py_getitem values name ≫= py_float = Ok x.

End spec_notions.


(** The text of a calendar date in the [YYYY-MM-DD] format, zero-padded,
    as [date.isoformat()] prints it.  The program has no formatter of its
    own; this is the formatting the specification's round trip refers to. *)
Definition digit_char (n : Z) : ascii := ascii_of_N (Z.to_N (48 + n)).

Definition pad2 (n : Z) : string :=
  String (digit_char (n / 10 mod 10))
    (String (digit_char (n mod 10)) EmptyString).

Definition pad4 (n : Z) : string :=
  String (digit_char (n / 1000 mod 10))
    (String (digit_char (n / 100 mod 10)) (pad2 n)).

Definition format_ymd (y m d : Z) : string :=
  (pad4 y ++ "-" ++ pad2 m ++ "-" ++ pad2 d)%string.


Section form_fields.
Context `{rt : Runtime}.

(** The fields of a submission as [index] reads them. *)
Definition submitted_symbol (request : flask_request) : string :=
  str_upper (strip (dict_get_default "symbol" EmptyString (form request))).

Definition submitted_chart_type (request : flask_request) : result Z :=
  py_int (dict_get_default "chart_type" "2" (form request)).

Definition submitted_time_series (request : flask_request) : result Z :=
  py_int (dict_get_default "time_series" "2" (form request)).

Definition submitted_start (request : flask_request) : string :=
  strip (dict_get_default "start_date" EmptyString (form request)).

Definition submitted_end (request : flask_request) : string :=
  strip (dict_get_default "end_date" EmptyString (form request)).

(** What every aborted submission is answered with. *)
Definition aborted (request : flask_request) : rendered :=
  mk_rendered "index.html" load_symbols None (Some (submitted_symbol request)).

(** The effects of a run with one more flashed message. *)
Definition with_flash (st : effects) (message category : string) : effects :=
  mk_effects (requests_sent st) (flashed st ++ [(message, category)]).

End form_fields.

(** The order of calendar days. *)
Definition ymd_le (y1 m1 d1 y2 m2 d2 : Z) : Prop :=
  y1 < y2 \/ (y1 = y2 /\ (m1 < m2 \/ (m1 = m2 /\ d1 <= d2))).


(** Whether a timestamp key is in the zero-padded [YYYY-MM-DD] format,
    optionally followed by more text: its date portion parses and the key
    begins with the [YYYY-MM-DD] text of that date. *)
Definition is_iso_key (k : string) : bool :=
  match key_date k with
  | Ok dt => String.prefix (format_ymd (year dt) (month dt) (day dt)) k
  | Raise _ => false
  end.

(** Sorting timestamp keys by their parsed date: keys are compared through
    the fields of the [datetime] that [key_date] gives them. *)
Definition date_rank (k : string) : list Z :=
  match key_date k with
  | Ok dt => dt_fields dt
  | Raise _ => []
  end.

Definition key_date_le (k1 k2 : string) : Prop :=
  lex_compare (date_rank k1) (date_rank k2) <> Gt.

Global Instance key_date_le_dec : RelDecision key_date_le.
Proof. intros k1 k2. unfold key_date_le. apply _. Defined.

Definition sort_by_date (keys : list string) : list string :=
  merge_sort key_date_le keys.


(** ** The chart specification inside the template

    The argument of [new Chart(ctx, ...)] in the f-string of
    [create_chart] is a JavaScript object literal.  [chart_config] is that
    literal as a tree, [print_js] lays a tree out the way the template
    does, and [chart_page] is the whole template rebuilt around it. *)

#[local] Unset Elimination Schemes.
Inductive js : Type :=
  | JsString (quoted : list piece)
  | JsExpr (p : piece)
  | JsBool (b : bool)
  | JsNumber (n : Z)
  | JsObject (members : list (string * js))
  | JsArray (elements : list js).
#[local] Set Elimination Schemes.

Fixpoint spaces (n : nat) : string :=
  match n with
  | O => EmptyString
  | S n' => String " " (spaces n')
  end.

Definition prefix_first (p : list piece) (ls : list (list piece))
  : list (list piece) :=
  match ls with
  | [] => [p]
  | l :: ls' => (p ++ l) :: ls'
  end.

Fixpoint suffix_last (p : list piece) (ls : list (list piece))
  : list (list piece) :=
  match ls with
  | [] => [p]
  | [l] => [l ++ p]
  | l :: ls' => l :: suffix_last p ls'
  end.

Definition comma_unless_last {A} (rest : list A) (ls : list (list piece))
  : list (list piece) :=
  match rest with
  | [] => ls
  | _ => suffix_last [Text ","] ls
  end.

(** The lines of a value whose first line continues the current line and
    whose closing bracket is indented by [ind]. *)
Fixpoint print_js (ind : nat) (v : js) : list (list piece) :=
  match v with
  | JsString q => [Text "'" :: q ++ [Text "'"]]
  | JsExpr p => [[p]]
  | JsBool b => [[Text (if b then "true" else "false")]]
  | JsNumber n => [[Text (pretty n)]]
  | JsObject ms =>
      [Text "{"] ::
      (fix members (ms : list (string * js)) : list (list piece) :=
         match ms with
         | [] => []
         | (k, v') :: ms' =>
             comma_unless_last ms'
               (prefix_first [Text (spaces (ind + 4) ++ k ++ ": ")]
                  (print_js (ind + 4) v'))
             ++ members ms'
         end) ms
      ++ [[Text (spaces ind ++ "}")]]
  | JsArray es =>
      [Text "["] ::
      (fix elements (es : list js) : list (list piece) :=
         match es with
         | [] => []
         | v' :: es' =>
             comma_unless_last es'
               (prefix_first [Text (spaces (ind + 4))] (print_js (ind + 4) v'))
             ++ elements es'
         end) es
      ++ [[Text (spaces ind ++ "]")]]
  end.

Definition dataset (label : string) (series : field) (rgb : string) : js :=
  JsObject
    [("label", JsString [Text label]);
     ("data", JsExpr (Field series));
     ("borderColor", JsString [Text ("rgba(" ++ rgb ++ ",1)")]);
     ("backgroundColor", JsString [Text ("rgba(" ++ rgb ++ ",0.25)")]);
     ("fill", JsBool false)].

Definition axis_title (text : string) : js :=
  JsObject [("display", JsBool true); ("text", JsString [Text text])].

Definition chart_config : js :=
  JsObject
    [("type", JsString [Field f_chart_type_str]);
     ("data",
      JsObject
        [("labels", JsExpr (Field f_dates));
         ("datasets",
          JsArray
            [dataset "Open" f_open "255,99,132";
             dataset "High" f_high "54,162,235";
             dataset "Low" f_low "75,192,192";
             dataset "Close" f_close "255,206,86"])]);
     ("options",
      JsObject
        [("responsive", JsBool true);
         ("maintainAspectRatio", JsBool false);
         ("scales",
          JsObject
            [("y",
              JsObject
                [("beginAtZero", JsBool false);
                 ("title", axis_title "Price ($)")]);
             ("x",
              JsObject
                [("title", axis_title "Date");
                 ("ticks",
                  JsObject
                    [("maxRotation", JsNumber 45);
                     ("minRotation", JsNumber 45)])])]);
         ("plugins",
          JsObject
            [("legend",
              JsObject
                [("display", JsBool true);
                 ("position", JsString [Text "top"])])])])].

(** The heading of the page, with the symbol and the two date labels. *)
Definition title_line : list piece :=
  [Text "            <h2>Stock Data for "; Field f_symbol; Text ": ";
   Field f_start_date; Text " to "; Field f_end_date; Text "</h2>"].

Definition chart_page : list (list piece) :=
  [ [];
    [Text ("        <div class=" ++ dq ++ "chart-container" ++ dq ++ " style="
           ++ dq ++ "position: relative; height:600px;" ++ dq ++ ">")];
    title_line;
    [Text ("            <canvas id=" ++ dq ++ "stockChart" ++ dq ++ "></canvas>")];
    [Text "        </div>"];
    [Text ("        <script src=" ++ dq ++ "https://cdn.jsdelivr.net/npm/chart.js"
           ++ dq ++ "></script>")];
    [Text "        <script>"];
    [Text "            const ctx = document.getElementById('stockChart').getContext('2d');"] ]%string
  ++ suffix_last [Text ");"]
       (prefix_first [Text "            new Chart(ctx, "] (print_js 12 chart_config))
  ++ [ [Text "        </script>"];
       [Text "        "] ].

(** Members of an object, by name and by path. *)
Definition js_member (k : string) (v : js) : option js :=
  match v with
  | JsObject ms => dict_get k ms
  | _ => None
  end.

Fixpoint js_path (path : list string) (v : js) : option js :=
  match path with
  | [] => Some v
  | k :: path' =>
      match js_member k v with
      | Some v' => js_path path' v'
      | None => None
      end
  end.

Definition js_elements (v : js) : list js :=
  match v with
  | JsArray es => es
  | _ => []
  end.

(** The text of a string literal without replacement fields. *)
Definition js_literal (v : js) : option string :=
  match v with
  | JsString [Text s] => Some s
  | _ => None
  end.

(** The literal text of a member of each element of a list of objects. *)
Definition member_literals (k : string) (vs : list js) : list (option string) :=
  map (fun v => js_member k v ≫= js_literal) vs.


(** The sample environment with another endpoint. *)
Definition sample_rt_with
  (endpoint : string -> dict string string -> http_outcome string) : Runtime :=
  {| pyfloat := string;
     float_of_str := Sample.sample_float_of_str;
     float_of_int := fun n => None;
     float_truth := fun _ => true;
     float_repr := fun x => x;
     str_repr := Sample.sample_str_repr;
     str_upper := Sample.sample_str_upper;
     int_of_str := Sample.sample_int_of_str;
     API_KEY := "demo";
     requests_get := endpoint;
     load_symbols := ["AAPL"; "IBM"] |}.

(** Whether a string has no whitespace character. *)
Definition no_space (s : string) : bool :=
  forallb (fun c => negb (is_space c)) (list_ascii_of_string s).


(** A month or day number written without a leading zero. *)
Definition unpadded (n : Z) : string :=
  if n <? 10 then String (digit_char n) EmptyString else pad2 n.


(** ** app.py: [load_symbols]

    [load_symbols] opens [stocks.csv] and iterates a [csv.DictReader] over
    it.  What the file system and the reader give is an input here: the
    file is missing, or the reader yields rows (each a dictionary from
    column names to text, a column without a value being absent) and then
    either ends or raises.  An exception other than [FileNotFoundError]
    raised by [open] itself is the reader raising before any row. *)

Inductive csv_file : Type :=
  | NoSuchFile
  | Readable (rows : list (dict string string)) (raises : bool).

Definition fallback_symbols : list string :=
  ["AAPL"; "GOOGL"; "MSFT"; "AMZN"; "TSLA"].

Section app_notions.
Context `{rt : Runtime}.

(** The loop over the rows, [symbols] being the list built so far. *)
Fixpoint collect_symbols (rows : list (dict string string))
  (symbols : list string) : list string :=
  match rows with
  | [] => symbols
  | row :: rest =>
      match dict_get "Symbol" row with
      | Some symbol =>
          if is_empty symbol then collect_symbols rest symbols
          else collect_symbols rest (symbols ++ [str_upper (strip symbol)])
      | None => collect_symbols rest symbols
      end
  end.

(** [load_symbols()] as a function of what reading the file gives;
    [sorted(set(symbols))] is the duplicate-free list in ascending
    order. *)
Definition load_symbols_csv (file : csv_file) : list string :=
  match file with
  | NoSuchFile => fallback_symbols
  | Readable rows true => fallback_symbols
  | Readable rows false => sorted (remove_dups (collect_symbols rows []))
  end.

(** ** The ways a run of [index] ends

    [index_outcome request reqs fl r]: the requests sent, the messages
    flashed and the result of one run, listed by the place of the handler
    where the run stops. *)
Inductive index_outcome (request : flask_request)
  : list http_request -> list (string * string) -> result rendered -> Prop :=
  | outcome_get :
      method request = GET ->
      index_outcome request [] []
        (Ok (mk_rendered "index.html" load_symbols None None))
  | outcome_bad_integer :
      index_outcome request [] [] (Raise ValueError)
  | outcome_invalid message :
      message ∈ [msg_select_symbol; msg_both_dates; msg_date_format;
                 msg_date_order] ->
      index_outcome request [] [(message, "error")] (Ok (aborted request))
  | outcome_unmapped :
      index_outcome request [] [] (Raise KeyError)
  | outcome_raised params ex :
      dict_get "symbol" params = Some (submitted_symbol request) ->
      index_outcome request [mk_request BASE_URL params] [] (Raise ex)
  | outcome_fetch_failed params :
      dict_get "symbol" params = Some (submitted_symbol request) ->
      index_outcome request [mk_request BASE_URL params]
        [(msg_fetch_failed, "error")] (Ok (aborted request))
  | outcome_no_data params :
      dict_get "symbol" params = Some (submitted_symbol request) ->
      index_outcome request [mk_request BASE_URL params]
        [(msg_no_data (submitted_symbol request) (submitted_start request)
            (submitted_end request), "warning")]
        (Ok (aborted request))
  | outcome_success params html n :
      dict_get "symbol" params = Some (submitted_symbol request) ->
      html <> EmptyString ->
      (0 < n)%nat ->
      index_outcome request [mk_request BASE_URL params]
        [(msg_success (submitted_symbol request) n, "success")]
        (Ok (mk_rendered "index.html" load_symbols (Some html)
               (Some (submitted_symbol request)))).

End app_notions.

(** A timestamp key in the format of the API: the zero-padded date of the
    calendar day [y-m-d], alone or followed by a whitespace character and
    more text (the time of day of an intraday key). *)
Definition timestamp_key (k : string) (y m d : Z) : Prop :=
  valid_ymd y m d = true
  /\ exists rest,
       k = (format_ymd y m d ++ rest)%string
       /\ (rest = EmptyString
           \/ exists c r, rest = String c r /\ is_space c = true).


(** The JavaScript source text of a tree: members and elements one per
    line, indented by four more spaces than the bracket that closes them,
    separated by commas, and a replacement field standing for its value. *)
Definition piece_text (values : field -> string) (p : piece) : string :=
  match p with
  | Text s => s
  | Field f => values f
  end.

Fixpoint js_source (values : field -> string) (ind : nat) (v : js) : string :=
  match v with
  | JsString q =>
      ("'" ++ String.concat EmptyString (map (piece_text values) q) ++ "'")%string
  | JsExpr p => piece_text values p
  | JsBool b => if b then "true"%string else "false"%string
  | JsNumber n => pretty n
  | JsObject ms =>
      ("{" ++ newline
       ++ (fix members (ms : list (string * js)) : string :=
             match ms with
             | [] => EmptyString
             | (k, v') :: ms' =>
                 spaces (ind + 4) ++ k ++ ": " ++ js_source values (ind + 4) v'
                 ++ match ms' with [] => EmptyString | _ => "," end
                 ++ newline ++ members ms'
             end) ms
       ++ spaces ind ++ "}")%string
  | JsArray es =>
      ("[" ++ newline
       ++ (fix elements (es : list js) : string :=
             match es with
             | [] => EmptyString
             | v' :: es' =>
                 spaces (ind + 4) ++ js_source values (ind + 4) v'
                 ++ match es' with [] => EmptyString | _ => "," end
                 ++ newline ++ elements es'
             end) es
       ++ spaces ind ++ "]")%string
  end.

(** The text of the page: the heading with the symbol and the two date
    labels, the canvas, and the script that draws the chart described by a
    tree. *)
Definition chart_markup (symbol start_date end_date : string)
  (values : field -> string) (config : js) : string :=
  (newline
   ++ "        <div class=" ++ dq ++ "chart-container" ++ dq ++ " style=" ++ dq
   ++ "position: relative; height:600px;" ++ dq ++ ">" ++ newline
   ++ "            <h2>Stock Data for " ++ symbol ++ ": " ++ start_date
   ++ " to " ++ end_date ++ "</h2>" ++ newline
   ++ "            <canvas id=" ++ dq ++ "stockChart" ++ dq ++ "></canvas>"
   ++ newline
   ++ "        </div>" ++ newline
   ++ "        <script src=" ++ dq ++ "https://cdn.jsdelivr.net/npm/chart.js"
   ++ dq ++ "></script>" ++ newline
   ++ "        <script>" ++ newline
   ++ "            const ctx = document.getElementById('stockChart').getContext('2d');"
   ++ newline
   ++ "            new Chart(ctx, " ++ js_source values 12 config ++ ");"
   ++ newline
   ++ "        </script>" ++ newline
   ++ "        ")%string.

(** ** Texts written as concatenations

    Two texts built from literal strings and field values by [++] are
    compared through their sequences of pieces, adjacent literals merged. *)
Inductive text_expr : Type :=
  | TLit (s : string)
  | TVal (f : field)
  | TApp (a b : text_expr).

Fixpoint text_denote (values : field -> string) (e : text_expr) : string :=
  match e with
  | TLit s => s
  | TVal f => values f
  | TApp a b => (text_denote values a ++ text_denote values b)%string
  end.

Fixpoint text_flat (e : text_expr) (k : list piece) : list piece :=
  match e with
  | TLit s => Text s :: k
  | TVal f => Field f :: k
  | TApp a b => text_flat a (text_flat b k)
  end.

Fixpoint text_merge (ps : list piece) : list piece :=
  match ps with
  | [] => []
  | Field f :: ps' => Field f :: text_merge ps'
  | Text s :: ps' =>
      match text_merge ps' with
      | Text t :: r => Text (s ++ t) :: r
      | r => Text s :: r
      end
  end.

Definition pieces_text (values : field -> string) (ps : list piece) : string :=
  fold_right (fun p acc => (piece_text values p ++ acc)%string) EmptyString ps.


(** * Properties *)

(** ** Dictionaries *)

Section dict_facts.
Context {K V : Type} `{EqDecision K}.
Implicit Types (d : dict K V) (k : K) (v : V).

Lemma dict_get_app d1 d2 k :
  dict_get k (d1 ++ d2) =
  match dict_get k d1 with Some v => Some v | None => dict_get k d2 end.
Proof.
  induction d1 as [|[k' v'] d1 IH]; simpl; [done|].
  destruct (decide (k = k')); auto.
Qed.

Lemma dict_get_None d k : dict_get k d = None <-> k ∉ dict_keys d.
Proof.
  induction d as [|[k' v'] d IH]; simpl.
  - split; [intros _ Hin; inversion Hin | done].
  - destruct (decide (k = k')) as [->|Hne].
    + split; [done|]. intros Hn. exfalso. apply Hn. left.
    + rewrite IH. split.
      * intros Hn Hin. inversion Hin; subst; tauto.
      * intros Hn Hin. apply Hn. by right.
Qed.

Lemma dict_get_Some_In d k v : dict_get k d = Some v -> (k, v) ∈ d.
Proof.
  induction d as [|[k' v'] d IH]; simpl; [done|].
  destruct (decide (k = k')) as [->|Hne].
  - intros [= ->]. left.
  - intros Hg. right. auto.
Qed.

Lemma dict_get_In_wf d k v : dict_wf d -> (k, v) ∈ d -> dict_get k d = Some v.
Proof.
  unfold dict_wf. induction d as [|[k' v'] d IH]; simpl.
  - intros _ Hin. inversion Hin.
  - intros Hnd Hin. apply NoDup_cons in Hnd as [Hk' Hnd].
    destruct (decide (k = k')) as [->|Hne].
    + apply elem_of_cons in Hin as [[= ->]|Hin]; [done|].
      exfalso. apply Hk'. apply list_elem_of_fmap. by exists (k', v).
    + apply elem_of_cons in Hin as [[= -> ->]|Hin]; [done|]. auto.
Qed.

Lemma dict_set_fresh d k v :
  k ∉ dict_keys d -> dict_set k v d = d ++ [(k, v)].
Proof.
  induction d as [|[k' v'] d IH]; simpl; [done|].
  intros Hn. destruct (decide (k = k')) as [->|Hne].
  - exfalso. apply Hn. left.
  - f_equal. apply IH. intros Hin. apply Hn. by right.
Qed.

Lemma dict_get_set d k k' v :
  dict_get k (dict_set k' v d) =
  if decide (k = k') then Some v else dict_get k d.
Proof.
  induction d as [|[k1 v1] d IH]; simpl.
  - destruct (decide (k = k')); done.
  - destruct (decide (k' = k1)) as [->|Hne]; simpl.
    + destruct (decide (k = k1)); done.
    + destruct (decide (k = k1)) as [->|Hne1].
      * destruct (decide (k1 = k')); [congruence|done].
      * apply IH.
Qed.

Lemma dict_keys_filter (f : K * V -> bool) d :
  dict_wf d -> dict_wf (List.filter f d).
Proof.
  unfold dict_wf, dict_keys. induction d as [|[k v] d IH]; simpl; [done|].
  intros Hnd. apply NoDup_cons in Hnd as [Hk Hnd].
  assert (Hsub : forall x, x ∈ map fst (List.filter f d) -> x ∈ map fst d).
  { intros x Hx. apply list_elem_of_fmap in Hx as [[k1 v1] [-> Hin]].
    apply list_elem_of_In, filter_In in Hin as [Hin _].
    apply list_elem_of_fmap. exists (k1, v1). split; [done|].
    by apply list_elem_of_In. }
  destruct (f (k, v)); simpl; auto.
  apply NoDup_cons. split; auto.
Qed.

End dict_facts.

(** ** Filtering by date range *)

Section filter_facts.
Context `{rt : Runtime}.
Implicit Types (items acc : dict string (json pyfloat)) (s e : datetime).

Lemma filter_loop_ok s e items : forall acc,
  Forall (fun k => key_parses k = true) (dict_keys items) ->
  dict_wf (acc ++ items) ->
  filter_loop s e items acc = Ok (acc ++ List.filter (keep_item s e) items).
Proof.
  induction items as [|[k v] items IH]; intros acc Hp Hwf; simpl.
  - by rewrite app_nil_r.
  - apply Forall_cons in Hp as [Hk Hp].
    unfold keep_item, in_date_range, key_parses in *; simpl in *.
    destruct (key_date k) as [d|ex] eqn:Hd; [|done]. simpl.
    assert (Hfresh : k ∉ dict_keys acc).
    { unfold dict_wf, dict_keys in Hwf. rewrite map_app in Hwf.
      apply NoDup_app in Hwf as (_ & Hdis & _).
      intros Hin. apply (Hdis k Hin). left. }
    destruct (dt_le s d && dt_le d e).
    + rewrite IH; [|done|].
      * rewrite dict_set_fresh by done. by rewrite <- app_assoc.
      * rewrite dict_set_fresh by done. by rewrite <- app_assoc.
    + rewrite IH; [done|done|].
      unfold dict_wf, dict_keys in *. rewrite map_app in *. simpl in Hwf.
      apply NoDup_app in Hwf as (Ha & Hdis & Hi).
      apply NoDup_cons in Hi as [_ Hi]. apply NoDup_app. split; [done|].
      split; [|done]. intros x Hx Hx'. apply (Hdis x Hx). by right.
Qed.

Lemma filter_loop_raises s e items : forall acc,
  is_ok (filter_loop s e items acc) = true ->
  Forall (fun k => key_parses k = true) (dict_keys items).
Proof.
  induction items as [|[k v] items IH]; intros acc Hok; simpl in *.
  - constructor.
  - destruct (key_date k) as [d|ex] eqn:Hd; simpl in Hok; [|done].
    constructor.
    + unfold key_parses. by rewrite Hd.
    + destruct (dt_le s d && dt_le d e); eauto.
Qed.

Lemma filter_loop_total s e items : forall acc,
  Forall (fun k => key_parses k = true) (dict_keys items) ->
  is_ok (filter_loop s e items acc) = true.
Proof.
  induction items as [|[k v] items IH]; intros acc Hp; simpl; [done|].
  apply Forall_cons in Hp as [Hk Hp]. unfold key_parses in Hk. simpl in Hk. revert Hk.
  destruct (key_date k) as [d|ex]; intros Hk; simpl in *; [|discriminate Hk].
  destruct (dt_le s d && dt_le d e); auto.
Qed.

End filter_facts.

(** ** Order on [datetime] *)

Lemma lex_compare_refl a : lex_compare a a = Eq.
Proof. induction a as [|x a IH]; simpl; [done|]. by rewrite Z.compare_refl. Qed.

Lemma dt_le_refl d : dt_le d d = true.
Proof. unfold dt_le, dt_compare. by rewrite lex_compare_refl. Qed.

Lemma dt_ge_le a b : dt_ge a b = dt_le b a.
Proof.
  unfold dt_ge, dt_le, dt_compare.
  generalize (dt_fields a) (dt_fields b). clear a b.
  induction l as [|x a IH]; intros [|y b]; simpl; try done.
  rewrite (Z.compare_antisym x y).
  destruct (x ?= y); simpl; auto.
Qed.

Section model_facts.
Context `{rt : Runtime}.
Implicit Types (self : StockData) (s e : datetime).

Lemma dict_get_filter_key {V} (P : string -> bool) (d : dict string V) k :
  dict_get k (List.filter (fun kv => P kv.1) d) =
  if P k then dict_get k d else None.
Proof.
  induction d as [|[k' v'] d IH]; simpl.
  - by destruct (P k).
  - destruct (P k') eqn:HP; simpl.
    + destruct (decide (k = k')) as [->|Hne]; [by rewrite HP|done].
    + rewrite IH. destruct (decide (k = k')) as [->|Hne]; [by rewrite HP|done].
Qed.

Lemma key_date_raises k ex :
  key_date k = Raise ex -> ex = IndexError \/ ex = ValueError.
Proof.
  unfold key_date, first_token. destruct (split_ws k) as [|t ts]; simpl.
  - intros [= <-]. by left.
  - unfold strptime_ymd.
    repeat match goal with
           | |- context [match ?x with _ => _ end] => destruct x
           end; intros [= <-]; by right.
Qed.

Lemma filter_loop_exn s e items : forall acc ex,
  filter_loop s e items acc = Raise ex -> ex = IndexError \/ ex = ValueError.
Proof.
  induction items as [|[k v] items IH]; intros acc ex; simpl; [done|].
  destruct (key_date k) as [d|ex'] eqn:Hd; simpl.
  - destruct (dt_le s d && dt_le d e); eauto.
  - intros [= <-]. eauto using key_date_raises.
Qed.

(** The call on a response that holds the series of the granularity. *)
Lemma filter_by_date_range_unfold self s e key raw tsd :
  dict_get (time_series self) time_series_key_map = Some key ->
  raw_data self = JObj raw ->
  dict_get key raw = Some (JObj tsd) ->
  filter_by_date_range self s e =
  filtered ← filter_loop s e tsd [];
  Ok (filtered, set_filtered_data self filtered).
Proof.
  intros Hkey Hraw Hts. unfold filter_by_date_range, dict_index.
  rewrite Hkey, Hraw. simpl. unfold dict_mem, dict_index. by rewrite Hts.
Qed.

End model_facts.

Section filter_claims.
Context `{rt : Runtime}.
Implicit Types (self : StockData) (s e : datetime).

(** C10. On a response that holds the series of the granularity,
    [filter_by_date_range] returns if and only if the date portion of every
    key of the series parses as a calendar date; a key that does not makes
    the call raise the exception of the unguarded parse ([IndexError] from
    [split()[0]] or [ValueError] from [strptime]) instead of skipping the
    entry, and a series with the key [2024-13-40] raises [ValueError]. *)
Theorem filter_by_date_range_total_iff self s e key raw tsd :
  dict_get (time_series self) time_series_key_map = Some key ->
  raw_data self = JObj raw ->
  dict_get key raw = Some (JObj tsd) ->
  (is_ok (filter_by_date_range self s e) = true <->
   Forall (fun k => key_parses k = true) (dict_keys tsd))
  /\ (forall k, k ∈ dict_keys tsd -> key_parses k = false ->
      exists ex, filter_by_date_range self s e = Raise ex
                 /\ (ex = IndexError \/ ex = ValueError))
  /\ filter_by_date_range
       (StockData_init "IBM"
          (JObj [("Time Series (Daily)", JObj [("2024-13-40", JNull)])]) 2)
       s e = Raise ValueError.
Proof.
  intros Hkey Hraw Hts.
  rewrite (filter_by_date_range_unfold self s e key raw tsd) by done.
  assert (Hiff : is_ok (filtered ← filter_loop s e tsd [];
                        Ok (filtered, set_filtered_data self filtered)) = true
                 <-> Forall (fun k => key_parses k = true) (dict_keys tsd)).
  { split.
    - intros Hok. apply (filter_loop_raises s e tsd []).
      by destruct (filter_loop s e tsd []).
    - intros Hp. apply (filter_loop_total s e tsd []) in Hp.
      by destruct (filter_loop s e tsd []). }
  split; [done|split; [|done]].
  intros k Hin Hbad.
  destruct (filter_loop s e tsd []) as [f|ex] eqn:Hloop; simpl.
  - exfalso. assert (Hall : Forall (fun k => key_parses k = true) (dict_keys tsd)).
    { apply Hiff. done. }
    rewrite Forall_forall in Hall. apply Hall in Hin. congruence.
  - exists ex. split; [done|]. eauto using filter_loop_exn.
Qed.

End filter_claims.

(** The run of C10 on a series whose only key is [2024-13-40]. *)
Lemma filter_by_date_range_total_iff_witness :
  filter_by_date_range
    (StockData_init (rt := Sample.rt) "IBM"
       (JObj [("Time Series (Daily)", JObj [("2024-13-40", JNull)])]) 2)
    (midnight 2024 1 1) (midnight 2024 1 3) = Raise ValueError.
Proof.
  apply (filter_by_date_range_total_iff (rt := Sample.rt)
           (StockData_init (rt := Sample.rt) "BAD"
              (JObj [("Time Series (Daily)",
                      JObj [("2024-13-40", Sample.ohlc "1" "2" "0.5" "1.5")])]) 2)
           (midnight 2024 1 1) (midnight 2024 1 3)
           "Time Series (Daily)"
           [("Time Series (Daily)",
             JObj [("2024-13-40", Sample.ohlc "1" "2" "0.5" "1.5")])]
           [("2024-13-40", Sample.ohlc "1" "2" "0.5" "1.5")]);
    reflexivity.
Defined.

(** ** Decomposition into aligned sequences *)

Section format_facts.
Context `{rt : Runtime}.
Implicit Types (self : StockData) (filtered : dict string (json pyfloat)).

Lemma sorted_length (keys : list string) : length (sorted keys) = length keys.
Proof. unfold sorted. by rewrite merge_sort_Permutation. Qed.

Lemma sorted_elem_of (keys : list string) k : k ∈ sorted keys <-> k ∈ keys.
Proof. unfold sorted. by rewrite merge_sort_Permutation. Qed.

Lemma format_loop_lengths filtered ks : forall acc data,
  format_loop filtered ks acc = Ok data ->
  length (dates data) = (length (dates acc) + length ks)%nat
  /\ length (open data) = (length (open acc) + length ks)%nat
  /\ length (high data) = (length (high acc) + length ks)%nat
  /\ length (low data) = (length (low acc) + length ks)%nat
  /\ length (close data) = (length (close acc) + length ks)%nat.
Proof.
  induction ks as [|k ks IH]; intros acc data; simpl.
  - intros [= <-]. repeat split; lia.
  - destruct (dict_index k filtered) as [values|]; simpl; [|done].
    destruct (first_token k) as [date_only|]; simpl; [|done].
    destruct (py_getitem values "1. open" ≫= py_float) as [o|]; simpl; [|done].
    destruct (py_getitem values "2. high" ≫= py_float) as [h|]; simpl; [|done].
    destruct (py_getitem values "3. low" ≫= py_float) as [l|]; simpl; [|done].
    destruct (py_getitem values "4. close" ≫= py_float) as [c|]; simpl; [|done].
    intros Hloop. apply IH in Hloop. simpl in Hloop.
    rewrite !length_app in Hloop. simpl in Hloop. lia.
Qed.

Lemma format_loop_total filtered ks : forall acc,
  Forall (fun kv => well_formed_row kv = true) filtered ->
  Forall (fun k => k ∈ dict_keys filtered) ks ->
  is_ok (format_loop filtered ks acc) = true.
Proof.
  intros acc Hrows. revert acc.
  induction ks as [|k ks IH]; intros acc Hks; simpl; [done|].
  apply Forall_cons in Hks as [Hk Hks].
  unfold dict_index.
  destruct (dict_get k filtered) as [values|] eqn:Hget; simpl.
  - apply dict_get_Some_In in Hget.
    rewrite Forall_forall in Hrows. apply Hrows in Hget.
    unfold well_formed_row in Hget. simpl in Hget.
    repeat (apply andb_true_iff in Hget as [Hget ?]).
    destruct (first_token k); simpl in *; [|done].
    destruct (py_getitem values "1. open" ≫= py_float); simpl in *; [|done].
    destruct (py_getitem values "2. high" ≫= py_float); simpl in *; [|done].
    destruct (py_getitem values "3. low" ≫= py_float); simpl in *; [|done].
    destruct (py_getitem values "4. close" ≫= py_float); simpl in *; [|done].
    by apply IH.
  - exfalso. by apply dict_get_None in Hget.
Qed.

(** On a fresh object, what [filter_by_date_range] returns is what it
    leaves in [filtered_data]. *)
Lemma filter_by_date_range_fresh sym raw ts s e f self' :
  filter_by_date_range (StockData_init sym raw ts) s e = Ok (f, self') ->
  filtered_data self' = f.
Proof.
  unfold filter_by_date_range. simpl.
  destruct (dict_index ts time_series_key_map) as [key|]; simpl; [|done].
  destruct (py_in key raw) as [[]|]; simpl; [| |done].
  - destruct (py_getitem raw key) as [tsd|]; simpl; [|done].
    destruct (py_items tsd) as [items|]; simpl; [|done].
    destruct (filter_loop s e items []) as [g|]; simpl; [|done].
    by intros [= <- <-].
  - by intros [= <- <-].
Qed.

Lemma get_formatted_data_nonempty self :
  filtered_data self <> [] ->
  get_formatted_data self =
  data ← format_loop (filtered_data self)
            (sorted (dict_keys (filtered_data self)))
            (mk_formatted [] [] [] [] []);
  Ok (Some data).
Proof. unfold get_formatted_data. by destruct (filtered_data self). Qed.

End format_facts.

Section format_claims.
Context `{rt : Runtime}.
Implicit Types (self : StockData).

(** C2. [get_formatted_data] returns [None] exactly when no entry is
    retained in [filtered_data]; whenever it returns a dictionary, its
    [dates], [open], [high], [low] and [close] lists have one common
    length, the number of retained entries; it does return when every
    retained entry has a date token and four convertible price fields; and
    on a fresh object the retained entries are what [filter_by_date_range]
    returned. *)
Theorem get_formatted_data_lengths self :
  (get_formatted_data self = Ok None <-> filtered_data self = [])
  /\ (forall data,
        get_formatted_data self = Ok (Some data) ->
        length (dates data) = length (filtered_data self)
        /\ length (open data) = length (dates data)
        /\ length (high data) = length (dates data)
        /\ length (low data) = length (dates data)
        /\ length (close data) = length (dates data))
  /\ (Forall (fun kv => well_formed_row kv = true) (filtered_data self) ->
      exists r, get_formatted_data self = Ok r)
  /\ (forall sym raw ts s e f,
        filter_by_date_range (StockData_init sym raw ts) s e = Ok (f, self) ->
        filtered_data self = f).
Proof.
  assert (Hfresh : forall sym raw ts s e f,
            filter_by_date_range (StockData_init sym raw ts) s e = Ok (f, self) ->
            filtered_data self = f).
  { intros sym raw ts s e f Hcall. by apply filter_by_date_range_fresh in Hcall. }
  destruct (decide (filtered_data self = [])) as [Hnil|Hne].
  - unfold get_formatted_data. rewrite Hnil.
    split; [done|]. split; [done|]. split; [by exists None|]. by rewrite <- Hnil.
  - rewrite (get_formatted_data_nonempty self Hne).
    pose proof (length_map fst (filtered_data self)) as Hlen.
    fold (dict_keys (filtered_data self)) in Hlen.
    destruct (format_loop (filtered_data self)
                (sorted (dict_keys (filtered_data self)))
                (mk_formatted [] [] [] [] [])) as [data'|ex] eqn:Hloop; simpl.
    + split; [done|]. split; [|split; [by intros _; exists (Some data')|done]].
      intros data [= <-]. apply format_loop_lengths in Hloop. simpl in Hloop.
      rewrite sorted_length, Hlen in Hloop. lia.
    + split; [done|]. split; [done|]. split; [|done].
      intros Hrows. exfalso.
      assert (Hok : is_ok (format_loop (filtered_data self)
                             (sorted (dict_keys (filtered_data self)))
                             (mk_formatted [] [] [] [] [])) = true).
      { apply format_loop_total; [done|].
        apply Forall_forall. intros k Hk. exact (proj1 (sorted_elem_of _ k) Hk). }
      by rewrite Hloop in Hok.
Qed.

End format_claims.

(** A run of C2: the two retained entries of the sample daily series have
    their fields, so the decomposition returns. *)
Lemma get_formatted_data_lengths_witness :
  exists r,
    get_formatted_data
      (mk_stock_data (rt := Sample.rt) "IBM" JNull 2 Sample.daily_series)
    = Ok r.
Proof.
  apply (proj1 (proj2 (proj2 (get_formatted_data_lengths (rt := Sample.rt)
           (mk_stock_data (rt := Sample.rt) "IBM" JNull 2
              Sample.daily_series))))).
  repeat constructor.
Defined.

(** ** The API client *)

Section fetch_facts.
Context `{rt : Runtime}.
Implicit Types (api : AlphaVantageAPI) (st : effects).

Lemma function_map_unmapped ts :
  ~ (1 <= ts <= 4) -> dict_get ts function_map = None.
Proof.
  intros Hts. unfold function_map. simpl.
  repeat (destruct (decide _) as [->|?]; [lia|]). done.
Qed.

Lemma time_series_key_map_unmapped ts :
  ~ (1 <= ts <= 4) -> dict_get ts time_series_key_map = None.
Proof.
  intros Hts. unfold time_series_key_map. simpl.
  repeat (destruct (decide _) as [->|?]; [lia|]). done.
Qed.

(** A call with a mapped granularity sends exactly one request, with the
    parameters of [request_params], and flashes nothing. *)
Lemma fetch_stock_data_effects api sym ts params st :
  request_params api sym ts = Ok params ->
  exists r,
    fetch_stock_data api sym ts st =
    (mk_effects (requests_sent st ++ [mk_request BASE_URL params]) (flashed st), r).
Proof.
  intros Hp. unfold fetch_stock_data, mbind, IO_bind, lift. rewrite Hp.
  unfold http_get_json.
  destruct (requests_get BASE_URL params) as [|status_code body].
  - by eexists.
  - destruct ((400 <=? status_code) && (status_code <? 600)); [by eexists|].
    destruct body as [data|]; [|by eexists].
    destruct (py_in "Error Message" data) as [[]|]; [|..|by eexists].
    + destruct (py_getitem data "Error Message"); by eexists.
    + destruct (py_in "Note" data) as [[]|]; [|by eexists..].
      destruct (py_getitem data "Note"); by eexists.
Qed.

(** A call with an unmapped granularity raises before any request. *)
Lemma fetch_stock_data_unmapped api sym ts st :
  ~ (1 <= ts <= 4) -> fetch_stock_data api sym ts st = (st, Raise KeyError).
Proof.
  intros Hts. unfold fetch_stock_data, mbind, IO_bind, lift, request_params.
  unfold dict_index. by rewrite function_map_unmapped.
Qed.

End fetch_facts.

Section lookup_claims.
Context `{rt : Runtime}.
Implicit Types (api : AlphaVantageAPI) (self : StockData) (st : effects).

(** C3, as the code has it.  When the key of the granularity is absent
    from the raw response, [filter_by_date_range] returns the empty
    dictionary and leaves the object as it was, so that processing a fresh
    object gives [None] and no exception.  A granularity code outside 1
    to 4 has no explicit result: the table lookup of [fetch_stock_data]
    raises [KeyError] before any request is sent, and so does that of
    [filter_by_date_range]. *)
Theorem missing_key_empty_unmapped_raises :
  (forall self s e key,
     dict_get (time_series self) time_series_key_map = Some key ->
     py_in key (raw_data self) = Ok false ->
     filter_by_date_range self s e = Ok ([], self))
  /\ (forall sym raw ts s e key,
        dict_get ts time_series_key_map = Some key ->
        py_in key raw = Ok false ->
        exists self',
          filter_by_date_range (StockData_init sym raw ts) s e = Ok ([], self')
          /\ get_formatted_data self' = Ok None)
  /\ (forall api sym ts st,
        ~ (1 <= ts <= 4) ->
        fetch_stock_data api sym ts st = (st, Raise KeyError))
  /\ (forall self s e,
        ~ (1 <= time_series self <= 4) ->
        filter_by_date_range self s e = Raise KeyError).
Proof.
  assert (Habsent : forall self s e key,
            dict_get (time_series self) time_series_key_map = Some key ->
            py_in key (raw_data self) = Ok false ->
            filter_by_date_range self s e = Ok ([], self)).
  { intros self s e key Hkey Hin. unfold filter_by_date_range, dict_index.
    rewrite Hkey. simpl. by rewrite Hin. }
  split; [done|]. split; [|split].
  - intros sym raw ts s e key Hkey Hin.
    exists (StockData_init sym raw ts). split; [|done].
    by apply (Habsent (StockData_init sym raw ts) s e key).
  - intros api sym ts st Hts. by apply fetch_stock_data_unmapped.
  - intros self s e Hts. unfold filter_by_date_range, dict_index.
    by rewrite time_series_key_map_unmapped.
Qed.

(** C5. For a granularity code from 1 to 4, [fetch_stock_data] sends one
    request to the endpoint whose parameters hold the function name of the
    code, the symbol, the API key and [outputsize=full], and hold
    [interval=60min] if and only if the code is 1. *)
Theorem fetch_stock_data_params api sym g st :
  1 <= g <= 4 ->
  exists params,
    request_params api sym g = Ok params
    /\ dict_get "function" params =
       Some (if g =? 1 then "TIME_SERIES_INTRADAY"
             else if g =? 2 then "TIME_SERIES_DAILY"
             else if g =? 3 then "TIME_SERIES_WEEKLY"
             else "TIME_SERIES_MONTHLY")
    /\ dict_get "symbol" params = Some sym
    /\ dict_get "apikey" params = Some (api_key api)
    /\ dict_get "outputsize" params = Some "full"
    /\ dict_get "interval" params = (if g =? 1 then Some "60min" else None)
    /\ (dict_mem "interval" params = true <-> g = 1)
    /\ requests_sent (fetch_stock_data api sym g st).1 =
       requests_sent st ++ [mk_request BASE_URL params].
Proof.
  intros Hg.
  assert (Hcases : g = 1 \/ g = 2 \/ g = 3 \/ g = 4) by lia.
  destruct Hcases as [-> | [-> | [-> | ->]]];
    (eexists; split; [reflexivity|]);
    (repeat (split; [done|]));
    match goal with
    | |- context [fetch_stock_data ?a ?s ?t ?e] =>
        destruct (fetch_stock_data_effects a s t _ e eq_refl) as [r ->]
    end; done.
Qed.

End lookup_claims.

(** C3 fails as it is stated: with the granularity code 5, neither
    function returns an absent or empty result; both raise [KeyError]. *)
Lemma unmapped_granularity_raises :
  run (fetch_stock_data (rt := Sample.rt) (AlphaVantageAPI_init (rt := Sample.rt)) "IBM" 5)
  = (no_effects, Raise KeyError)
  /\ filter_by_date_range
       (StockData_init (rt := Sample.rt) "IBM" (JObj []) 5)
       (midnight 2024 1 1) (midnight 2024 1 3)
     = Raise KeyError.
Proof. split; reflexivity. Qed.

(** A run of C3's first part: the sample response for [EMPTY] lacks the
    daily series, and processing it gives the empty outcome. *)
Lemma missing_key_empty_unmapped_raises_witness :
  exists self',
    filter_by_date_range
      (StockData_init (rt := Sample.rt) "EMPTY" (JObj [("Meta Data", JObj [])]) 2)
      (midnight 2024 1 1) (midnight 2024 1 3) = Ok ([], self')
    /\ get_formatted_data self' = Ok None.
Proof.
  apply (proj1 (proj2 (missing_key_empty_unmapped_raises (rt := Sample.rt)))
           "EMPTY" (JObj [("Meta Data", JObj [])]) 2
           (midnight 2024 1 1) (midnight 2024 1 3) "Time Series (Daily)");
    reflexivity.
Defined.

(** A run of C5 for the intraday code. *)
Lemma fetch_stock_data_params_witness :
  exists params,
    request_params (AlphaVantageAPI_init (rt := Sample.rt)) "IBM" 1 = Ok params
    /\ dict_get "function" params = Some "TIME_SERIES_INTRADAY"
    /\ dict_get "interval" params = Some "60min".
Proof.
  destruct (fetch_stock_data_params (rt := Sample.rt)
              (AlphaVantageAPI_init (rt := Sample.rt)) "IBM" 1 no_effects)
    as (params & Hp & Hf & _ & _ & _ & Hi & _).
  - lia.
  - exists params. split; [exact Hp|]. split; [exact Hf|exact Hi].
Defined.

(** ** Parsing and formatting dates *)

Ltac small_cases n :=
  destruct n as [|n|n]; try lia;
  do 6 (try (destruct n as [n|n|]; try lia)).

Lemma digit_val_char k : 0 <= k <= 9 -> digit_val (digit_char k) = Some k.
Proof. intros Hk. small_cases k; reflexivity. Qed.

Lemma in_range_char lo hi k :
  0 <= k <= 9 ->
  in_range lo hi (digit_char k) =
  if (lo <=? k) && (k <=? hi) then Some k else None.
Proof. intros Hk. unfold in_range. by rewrite digit_val_char. Qed.

Lemma parse_year_pad4 y rest :
  0 <= y <= 9999 ->
  parse_year (pad4 y ++ String "-" rest) = Some (y, rest).
Proof.
  intros Hy. unfold pad4, pad2. simpl.
  rewrite !digit_val_char
    by (match goal with |- 0 <= ?a mod 10 <= 9 =>
          pose proof (Z.mod_pos_bound a 10); lia end).
  do 2 f_equal. Z.div_mod_to_equations. lia.
Qed.

Lemma parse_month_pad2 m rest :
  1 <= m <= 12 ->
  parse_month (pad2 m ++ String "-" rest) = Some (m, rest).
Proof. intros Hm. small_cases m; reflexivity. Qed.

Lemma parse_day_pad2 d :
  1 <= d <= 31 -> parse_day (pad2 d) = Some (d, EmptyString).
Proof. intros Hd. small_cases d; reflexivity. Qed.

Lemma days_in_month_le y m : days_in_month y m <= 31.
Proof.
  unfold days_in_month.
  repeat match goal with |- context [if ?b then _ else _] => destruct b end; lia.
Qed.

Lemma valid_ymd_bounds y m d :
  valid_ymd y m d = true ->
  1 <= y <= 9999 /\ 1 <= m <= 12 /\ 1 <= d <= days_in_month y m.
Proof.
  unfold valid_ymd. rewrite !andb_true_iff, !Z.leb_le. tauto.
Qed.

Lemma strptime_format_ymd y m d :
  valid_ymd y m d = true ->
  strptime_ymd (format_ymd y m d) = Ok (midnight y m d).
Proof.
  intros Hv. pose proof (valid_ymd_bounds y m d Hv) as (Hy & Hm & Hd).
  pose proof (days_in_month_le y m).
  unfold strptime_ymd, format_ymd.
  change (pad4 y ++ "-" ++ pad2 m ++ "-" ++ pad2 d)%string
    with (pad4 y ++ String "-" (pad2 m ++ String "-" (pad2 d)))%string.
  rewrite parse_year_pad4 by lia.
  rewrite parse_month_pad2 by lia.
  rewrite parse_day_pad2 by lia.
  by rewrite Hv.
Qed.

Lemma strptime_ymd_raises s ex : strptime_ymd s = Raise ex -> ex = ValueError.
Proof.
  unfold strptime_ymd.
  repeat match goal with
         | |- context [match ?x with _ => _ end] => destruct x
         end; by intros [= <-].
Qed.

Lemma strptime_ymd_Ok s dt :
  strptime_ymd s = Ok dt ->
  exists y m d, valid_ymd y m d = true /\ dt = midnight y m d.
Proof.
  unfold strptime_ymd.
  destruct (parse_year s) as [[y s1]|]; [|done].
  destruct (parse_month s1) as [[m s2]|]; [|done].
  destruct (parse_day s2) as [[d [|c s3]]|]; [|done|done].
  destruct (valid_ymd y m d) eqn:Hv; [|done].
  intros [= <-]. by exists y, m, d.
Qed.

(** C6. For every calendar date that a [datetime] can hold, its
    [YYYY-MM-DD] text is validated to that date at midnight; a string that
    [strptime] rejects (such as [2024-13-40]) is validated to [None]; no
    string makes [validate_date_format] raise; and a validated value is
    always a calendar date at midnight. *)
Theorem validate_date_format_roundtrip :
  (forall y m d,
     valid_ymd y m d = true ->
     validate_date_format (format_ymd y m d) = Ok (Some (midnight y m d)))
  /\ (forall s ex,
        strptime_ymd s = Raise ex -> validate_date_format s = Ok None)
  /\ (forall s, exists o, validate_date_format s = Ok o)
  /\ validate_date_format "2024-13-40" = Ok None
  /\ (forall s dt,
        validate_date_format s = Ok (Some dt) ->
        exists y m d, valid_ymd y m d = true /\ dt = midnight y m d).
Proof.
  assert (Hmal : forall s ex,
            strptime_ymd s = Raise ex -> validate_date_format s = Ok None).
  { intros s ex Hs. unfold validate_date_format.
    rewrite Hs. by rewrite (strptime_ymd_raises s ex Hs). }
  split; [|split; [done|split; [|split; [done|]]]].
  - intros y m d Hv. unfold validate_date_format.
    by rewrite strptime_format_ymd.
  - intros s. destruct (strptime_ymd s) as [dt|ex] eqn:Hs.
    + exists (Some dt). unfold validate_date_format. by rewrite Hs.
    + exists None. eauto.
  - intros s dt. unfold validate_date_format.
    destruct (strptime_ymd s) as [dt'|ex] eqn:Hs.
    + intros [= <-]. eauto using strptime_ymd_Ok.
    + by rewrite (strptime_ymd_raises s ex Hs).
Qed.

(** A run of C6 on the leap day of 2024. *)
Lemma validate_date_format_roundtrip_witness :
  format_ymd 2024 2 29 = "2024-02-29"
  /\ validate_date_format "2024-02-29" = Ok (Some (midnight 2024 2 29)).
Proof.
  split; [reflexivity|].
  apply (proj1 validate_date_format_roundtrip 2024 2 29). reflexivity.
Defined.

(** ** The request handler *)

Lemma dt_ge_negb_lt a b : dt_ge a b = negb (dt_lt a b).
Proof. unfold dt_ge, dt_lt. by destruct (dt_compare a b). Qed.

Lemma dt_le_midnight y1 m1 d1 y2 m2 d2 :
  dt_le (midnight y1 m1 d1) (midnight y2 m2 d2) = true <->
  ymd_le y1 m1 d1 y2 m2 d2.
Proof.
  unfold dt_le, dt_compare, ymd_le. simpl.
  destruct (Z.compare_spec y1 y2); [|split; [lia|done]|split; [done|lia]].
  destruct (Z.compare_spec m1 m2); [|split; [lia|done]|split; [done|lia]].
  destruct (Z.compare_spec d1 d2); split; (done || lia).
Qed.

Ltac io_unfold :=
  unfold mbind, IO_bind, mret, IO_ret, lift, flash, render_template in *.

Ltac case_scrutinee :=
  match goal with
  | |- context [match ?x with _ => _ end] => destruct x eqn:?
  end.

Section handler_facts.
Context `{rt : Runtime}.
Implicit Types (request : flask_request) (st : effects).

(** A submission whose dates are both valid and ordered the wrong way
    round: the handler stops at the order check. *)
Lemma index_wrong_order request st ct ts s e :
  method request = POST ->
  submitted_chart_type request = Ok ct ->
  submitted_time_series request = Ok ts ->
  submitted_symbol request <> EmptyString ->
  validate_date_format (submitted_start request) = Ok (Some s) ->
  validate_date_format (submitted_end request) = Ok (Some e) ->
  validate_date_range s e = false ->
  index request st =
  (with_flash st msg_date_order "error", Ok (aborted request)).
Proof.
  unfold submitted_chart_type, submitted_time_series, submitted_symbol,
    submitted_start, submitted_end, aborted, with_flash.
  intros Hm Hct Hts Hsym Hs He Hr. unfold index. rewrite Hm. io_unfold.
  rewrite Hct, Hts.
  destruct (is_empty _) eqn:Hse.
  { apply String.eqb_eq in Hse. done. }
  assert (Hne : forall x dt, validate_date_format x = Ok (Some dt) ->
                  is_empty x = false).
  { intros x dt Hx. destruct x; [|done]. discriminate Hx. }
  rewrite (Hne _ _ Hs), (Hne _ _ He). simpl.
  rewrite Hs, He, Hr. reflexivity.
Qed.

(** Either no request is sent, or both dates validated and the order check
    passed. *)
Lemma index_fetch_guarded request st :
  requests_sent (index request st).1 = requests_sent st
  \/ exists s e,
       validate_date_format (submitted_start request) = Ok (Some s)
       /\ validate_date_format (submitted_end request) = Ok (Some e)
       /\ validate_date_range s e = true.
Proof.
  unfold submitted_start, submitted_end, index. io_unfold.
  destruct (method request); [by left|].
  destruct (py_int _); [|by left].
  destruct (py_int _); [|by left].
  destruct (is_empty (str_upper _)); [by left|].
  destruct (is_empty _ || is_empty _); [by left|].
  destruct (validate_date_format (strip (dict_get_default "start_date" _ _)))
    as [[s|]|] eqn:Hs; [| |by left].
  - destruct (validate_date_format (strip (dict_get_default "end_date" _ _)))
      as [[e|]|] eqn:He; [|by left|by left].
    destruct (validate_date_range s e) eqn:Hr; [|by left].
    right. by exists s, e.
  - left.
    by destruct (validate_date_format (strip (dict_get_default "end_date" _ _))).
Qed.

End handler_facts.

Section validation_claims.
Context `{rt : Runtime}.
Implicit Types (request : flask_request) (st : effects).

(** C8. [validate_date_range] is true exactly when the end is not before
    the start, which on calendar days is the order of (year, month, day).
    A submission whose end date is strictly before its start date never
    reaches the network: no request is sent, and when the symbol is
    present and the two integer fields parse, the answer is the form with
    the single message [msg_date_order].  Conversely a request is sent
    only after both dates validated and the order check passed.  The
    validation messages and the fetch-failure message are pairwise
    distinct. *)
Theorem end_before_start_rejected :
  (forall s e, validate_date_range s e = true <-> dt_lt e s = false)
  /\ (forall y1 m1 d1 y2 m2 d2,
        validate_date_range (midnight y1 m1 d1) (midnight y2 m2 d2) = true
        <-> ymd_le y1 m1 d1 y2 m2 d2)
  /\ (forall request st s e,
        validate_date_format (submitted_start request) = Ok (Some s) ->
        validate_date_format (submitted_end request) = Ok (Some e) ->
        dt_lt e s = true ->
        requests_sent (index request st).1 = requests_sent st
        /\ (forall ct ts,
              method request = POST ->
              submitted_chart_type request = Ok ct ->
              submitted_time_series request = Ok ts ->
              submitted_symbol request <> EmptyString ->
              index request st =
              (with_flash st msg_date_order "error", Ok (aborted request))))
  /\ (forall request st,
        requests_sent (index request st).1 <> requests_sent st ->
        exists s e,
          validate_date_format (submitted_start request) = Ok (Some s)
          /\ validate_date_format (submitted_end request) = Ok (Some e)
          /\ validate_date_range s e = true)
  /\ NoDup [msg_select_symbol; msg_both_dates; msg_date_format;
            msg_date_order; msg_fetch_failed].
Proof.
  assert (Hrange : forall s e,
            validate_date_range s e = true <-> dt_lt e s = false).
  { intros s e. unfold validate_date_range. rewrite dt_ge_negb_lt.
    by destruct (dt_lt e s). }
  split; [done|]. split; [|split; [|split]].
  - intros y1 m1 d1 y2 m2 d2. unfold validate_date_range.
    rewrite dt_ge_le. apply dt_le_midnight.
  - intros request st s e Hs He Hlt.
    assert (Hr : validate_date_range s e = false).
    { destruct (validate_date_range s e) eqn:Hr; [|done].
      apply Hrange in Hr. congruence. }
    split.
    + destruct (index_fetch_guarded request st) as [Hno|(s' & e' & Hs' & He' & Hr')];
        [done|].
      congruence.
    + intros ct ts Hm Hct Hts Hsym.
      by apply (index_wrong_order request st ct ts s e).
  - intros request st Hsent.
    by destruct (index_fetch_guarded request st).
  - apply (bool_decide_unpack _). vm_compute. reflexivity.
Qed.

End validation_claims.

(** A run of C8: start 2024-02-01, end 2024-01-01. *)
Lemma end_before_start_rejected_witness :
  run (index (rt := Sample.rt)
         (mk_flask_request POST
            [("symbol", "ibm"); ("start_date", "2024-02-01");
             ("end_date", "2024-01-01")]))
  = (mk_effects [] [(msg_date_order, "error")],
     Ok (mk_rendered "index.html" ["AAPL"; "IBM"] None (Some "IBM"))).
Proof.
  apply (proj2 (proj1 (proj2 (proj2 (end_before_start_rejected (rt := Sample.rt))))
                  (mk_flask_request POST
                     [("symbol", "ibm"); ("start_date", "2024-02-01");
                      ("end_date", "2024-01-01")])
                  no_effects (midnight 2024 2 1) (midnight 2024 1 1)
                  eq_refl eq_refl eq_refl) 2 2); try reflexivity.
  vm_compute. discriminate.
Defined.

(** ** Substrings of a message *)

Lemma string_app_assoc (a b c : string) :
  ((a ++ b) ++ c = a ++ b ++ c)%string.
Proof.
  induction a as [|x a IH]; [done|].
  change ((String x a ++ b) ++ c)%string with (String x ((a ++ b) ++ c)).
  by rewrite IH.
Qed.

Lemma prefix_app x q : String.prefix x (x ++ q) = true.
Proof.
  induction x as [|c x IH]; simpl; [by destruct q|].
  by destruct (ascii_dec c c).
Qed.

Lemma is_substring_app x p q : is_substring x (p ++ x ++ q) = true.
Proof.
  induction p as [|c p IH].
  - change (EmptyString ++ x ++ q)%string with (x ++ q)%string.
    pose proof (prefix_app x q) as Hp.
    destruct (x ++ q)%string; unfold is_substring; by rewrite Hp.
  - change (String c p ++ x ++ q)%string with (String c (p ++ x ++ q)).
    simpl. rewrite IH. apply orb_true_r.
Qed.

Section outcome_claims.
Context `{rt : Runtime}.
Implicit Types (request : flask_request) (st : effects).

(** C7. A submission that passes validation, whose fetch returns a
    response that is not empty and whose filtering retains no entry, is
    answered with the form and the single flashed message [msg_no_data] of
    category [warning], which contains the symbol and the two submitted
    dates; the processing result is [None].  A failed fetch is answered
    with [msg_fetch_failed] of category [error] instead, so the two
    outcomes are told apart.  A fetch that returns an empty response, such
    as the empty object, is answered like a failed fetch: the handler
    tests the response with [not raw_data] and never filters it. *)
Theorem empty_result_warning request st ct ts s e :
  method request = POST ->
  submitted_chart_type request = Ok ct ->
  submitted_time_series request = Ok ts ->
  submitted_symbol request <> EmptyString ->
  validate_date_format (submitted_start request) = Ok (Some s) ->
  validate_date_format (submitted_end request) = Ok (Some e) ->
  validate_date_range s e = true ->
  let sym := submitted_symbol request in
  let warning :=
    (msg_no_data sym (submitted_start request) (submitted_end request),
     "warning") in
  (forall st1 raw self',
     fetch_stock_data AlphaVantageAPI_init sym ts st = (st1, Ok (Some raw)) ->
     truthy raw = true ->
     filter_by_date_range (StockData_init sym raw ts) s e = Ok ([], self') ->
     get_formatted_data self' = Ok None
     /\ index request st =
        (with_flash st1 warning.1 warning.2, Ok (aborted request)))
  /\ (forall st1,
        fetch_stock_data AlphaVantageAPI_init sym ts st = (st1, Ok None) ->
        index request st =
        (with_flash st1 msg_fetch_failed "error", Ok (aborted request)))
  /\ (forall st1 raw,
        fetch_stock_data AlphaVantageAPI_init sym ts st = (st1, Ok (Some raw)) ->
        truthy raw = false ->
        index request st =
        (with_flash st1 msg_fetch_failed "error", Ok (aborted request)))
  /\ warning <> (msg_fetch_failed, "error")
  /\ is_substring sym warning.1 = true
  /\ is_substring (submitted_start request) warning.1 = true
  /\ is_substring (submitted_end request) warning.1 = true.
Proof.
  intros Hm Hct Hts Hsym Hs He Hr sym warning.
  assert (Hne : forall x dt, validate_date_format x = Ok (Some dt) ->
                  is_empty x = false).
  { intros x dt Hx. destruct x; [|done]. discriminate Hx. }
  unfold submitted_chart_type, submitted_time_series, submitted_start,
    submitted_end in *.
  split; [|split; [|split; [|split; [|split; [|split]]]]].
  - intros st1 raw self' Hfetch Htruthy Hfilter.
    assert (Hnone : get_formatted_data self' = Ok None).
    { apply filter_by_date_range_fresh in Hfilter.
      unfold get_formatted_data. by rewrite Hfilter. }
    split; [done|].
    unfold index. rewrite Hm. io_unfold. rewrite Hct, Hts.
    fold (submitted_symbol request). fold sym.
    destruct (is_empty sym) eqn:Hse.
    { apply String.eqb_eq in Hse. done. }
    rewrite (Hne _ _ Hs), (Hne _ _ He). simpl.
    rewrite Hs, He, Hr. simpl. rewrite Hfetch, Htruthy. simpl.
    rewrite Hfilter, Hnone. reflexivity.
  - intros st1 Hfetch.
    unfold index. rewrite Hm. io_unfold. rewrite Hct, Hts.
    fold (submitted_symbol request). fold sym.
    destruct (is_empty sym) eqn:Hse.
    { apply String.eqb_eq in Hse. done. }
    rewrite (Hne _ _ Hs), (Hne _ _ He). simpl.
    rewrite Hs, He, Hr. simpl. rewrite Hfetch. reflexivity.
  - intros st1 raw Hfetch Htruthy.
    unfold index. rewrite Hm. io_unfold. rewrite Hct, Hts.
    fold (submitted_symbol request). fold sym.
    destruct (is_empty sym) eqn:Hse.
    { apply String.eqb_eq in Hse. done. }
    rewrite (Hne _ _ Hs), (Hne _ _ He). simpl.
    rewrite Hs, He, Hr. simpl. rewrite Hfetch, Htruthy. reflexivity.
  - unfold warning. intros [= _ Hcat].
  - unfold warning, msg_no_data.
    apply (is_substring_app sym "No data found for ").
  - unfold warning, msg_no_data. simpl fst.
    set (a := strip (dict_get_default "start_date" EmptyString (form request))).
    set (b := strip (dict_get_default "end_date" EmptyString (form request))).
    replace ("No data found for " ++ sym ++ " in the date range "
             ++ a ++ " to " ++ b ++ ".")%string
      with (("No data found for " ++ sym ++ " in the date range ")
            ++ a ++ " to " ++ b ++ ".")%string
      by (by rewrite !string_app_assoc).
    apply is_substring_app.
  - unfold warning, msg_no_data. simpl fst.
    set (a := strip (dict_get_default "start_date" EmptyString (form request))).
    set (b := strip (dict_get_default "end_date" EmptyString (form request))).
    replace ("No data found for " ++ sym ++ " in the date range "
             ++ a ++ " to " ++ b ++ ".")%string
      with (("No data found for " ++ sym ++ " in the date range "
             ++ a ++ " to ") ++ b ++ ".")%string
      by (by rewrite !string_app_assoc).
    apply is_substring_app.
Qed.

End outcome_claims.

(** C7 fails as it is stated: when the endpoint answers with the empty
    object, the fetch succeeds and returns it, filtering it retains no
    entry, and yet the handler flashes the fetch-failure error and not the
    warning. *)
Lemma empty_response_reported_as_failure :
  run (fetch_stock_data
         (rt := sample_rt_with (fun _ _ => HttpResponse 200 (Some (JObj []))))
         (AlphaVantageAPI_init
            (rt := sample_rt_with
                     (fun _ _ => HttpResponse 200 (Some (JObj [])))))
         "IBM" 2)
  = (mk_effects
       [mk_request BASE_URL
          [("function", "TIME_SERIES_DAILY"); ("symbol", "IBM");
           ("apikey", "demo"); ("outputsize", "full")]] [],
     Ok (Some (JObj [])))
  /\ filter_by_date_range
       (StockData_init
          (rt := sample_rt_with
                   (fun _ _ => HttpResponse 200 (Some (JObj []))))
          "IBM" (JObj []) 2)
       (midnight 2024 2 1) (midnight 2024 2 3)
     = Ok ([],
           StockData_init
             (rt := sample_rt_with
                      (fun _ _ => HttpResponse 200 (Some (JObj []))))
             "IBM" (JObj []) 2)
  /\ run (index
            (rt := sample_rt_with
                     (fun _ _ => HttpResponse 200 (Some (JObj []))))
            (mk_flask_request POST
               [("symbol", "ibm"); ("start_date", "2024-02-01");
                ("end_date", "2024-02-03")]))
     = (mk_effects
          [mk_request BASE_URL
             [("function", "TIME_SERIES_DAILY"); ("symbol", "IBM");
              ("apikey", "demo"); ("outputsize", "full")]]
          [("Failed to fetch stock data. Please check the symbol and try again.",
            "error")],
        Ok (mk_rendered "index.html" ["AAPL"; "IBM"] None (Some "IBM"))).
Proof. repeat split; reflexivity. Qed.

(** A run of C7: the sample series has no entry in February 2024. *)
Lemma empty_result_warning_witness :
  run (index (rt := Sample.rt)
         (mk_flask_request POST
            [("symbol", " ibm "); ("start_date", "2024-02-01");
             ("end_date", "2024-02-03")]))
  = (mk_effects
       [mk_request BASE_URL
          [("function", "TIME_SERIES_DAILY"); ("symbol", "IBM");
           ("apikey", "demo"); ("outputsize", "full")]]
       [("No data found for IBM in the date range 2024-02-01 to 2024-02-03.",
         "warning")],
     Ok (mk_rendered "index.html" ["AAPL"; "IBM"] None (Some "IBM"))).
Proof.
  destruct (empty_result_warning (rt := Sample.rt)
              (mk_flask_request POST
                 [("symbol", " ibm "); ("start_date", "2024-02-01");
                  ("end_date", "2024-02-03")])
              no_effects 2 2 (midnight 2024 2 1) (midnight 2024 2 3)
              eq_refl eq_refl eq_refl) as [Hempty _];
    [vm_compute; discriminate|reflexivity|reflexivity|reflexivity|].
  edestruct Hempty as [_ Hindex]; [reflexivity|reflexivity|reflexivity|].
  exact Hindex.
Defined.

(** ** Lexicographic order of keys and order of dates *)

Lemma lex_compare_antisym a : forall b,
  lex_compare b a = CompOpp (lex_compare a b).
Proof.
  induction a as [|x a IH]; intros [|y b]; simpl; try done.
  rewrite (Z.compare_antisym x y). destruct (x ?= y); simpl; auto.
Qed.

Lemma lex_compare_trans a : forall b c,
  lex_compare a b <> Gt -> lex_compare b c <> Gt -> lex_compare a c <> Gt.
Proof.
  induction a as [|x a IH]; intros [|y b] [|z c]; simpl; try done.
  destruct (Z.compare_spec x y); [subst| |done].
  - destruct (Z.compare_spec y z); [subst|done|done]. apply IH.
  - destruct (Z.compare_spec y z); [subst| |done]; intros _ _.
    + by destruct (Z.compare_spec x z); [lia| |lia].
    + by destruct (Z.compare_spec x z); [lia| |lia].
Qed.

Global Instance key_date_le_trans : Transitive key_date_le.
Proof. intros a b c. apply lex_compare_trans. Qed.

Global Instance key_date_le_total : Total key_date_le.
Proof.
  intros a b. unfold key_date_le.
  rewrite (lex_compare_antisym (date_rank a) (date_rank b)).
  destruct (lex_compare (date_rank a) (date_rank b)); simpl; auto.
Qed.

Lemma string_app_cons c (s t : string) :
  (String c s ++ t)%string = String c (s ++ t).
Proof. reflexivity. Qed.

Lemma string_app_nil (s : string) : (EmptyString ++ s)%string = s.
Proof. reflexivity. Qed.

Lemma compare_digit_char a b :
  0 <= a <= 9 -> 0 <= b <= 9 ->
  Ascii.compare (digit_char a) (digit_char b) = (a ?= b).
Proof. intros Ha Hb. small_cases a; small_cases b; reflexivity. Qed.

Lemma compare_pad2 a b s t :
  0 <= a -> 0 <= b ->
  String.compare (pad2 a ++ s) (pad2 b ++ t) =
  match a mod 100 ?= b mod 100 with
  | Eq => String.compare s t
  | c => c
  end.
Proof.
  intros Ha Hb. unfold pad2. rewrite !string_app_cons, !string_app_nil.
  cbn [String.compare].
  rewrite !compare_digit_char
    by (match goal with |- 0 <= ?x mod 10 <= 9 =>
          pose proof (Z.mod_pos_bound x 10); lia end).
  destruct (Z.compare_spec (a / 10 mod 10) (b / 10 mod 10)) as [H1|H1|H1];
    [destruct (Z.compare_spec (a mod 10) (b mod 10)) as [H2|H2|H2]| |];
    destruct (Z.compare_spec (a mod 100) (b mod 100)) as [H3|H3|H3];
    try reflexivity; exfalso; Z.div_mod_to_equations; lia.
Qed.

Lemma compare_pad4 a b s t :
  0 <= a <= 9999 -> 0 <= b <= 9999 ->
  String.compare (pad4 a ++ s) (pad4 b ++ t) =
  match a ?= b with
  | Eq => String.compare s t
  | c => c
  end.
Proof.
  intros Ha Hb. unfold pad4. rewrite !string_app_cons.
  cbn [String.compare].
  rewrite !compare_digit_char
    by (match goal with |- 0 <= ?x mod 10 <= 9 =>
          pose proof (Z.mod_pos_bound x 10); lia end).
  rewrite compare_pad2 by lia.
  destruct (Z.compare_spec (a / 1000 mod 10) (b / 1000 mod 10)) as [H1|H1|H1];
    [destruct (Z.compare_spec (a / 100 mod 10) (b / 100 mod 10)) as [H2|H2|H2];
     [destruct (Z.compare_spec (a mod 100) (b mod 100)) as [H3|H3|H3]| |]| |];
    destruct (Z.compare_spec a b) as [H4|H4|H4];
    try reflexivity; exfalso; Z.div_mod_to_equations; lia.
Qed.

Lemma compare_format_ymd y1 m1 d1 r1 y2 m2 d2 r2 :
  0 <= y1 <= 9999 -> 0 <= m1 <= 99 -> 0 <= d1 <= 99 ->
  0 <= y2 <= 9999 -> 0 <= m2 <= 99 -> 0 <= d2 <= 99 ->
  String.compare (format_ymd y1 m1 d1 ++ r1) (format_ymd y2 m2 d2 ++ r2) =
  match dt_compare (midnight y1 m1 d1) (midnight y2 m2 d2) with
  | Eq => String.compare r1 r2
  | c => c
  end.
Proof.
  intros Hy1 Hm1 Hd1 Hy2 Hm2 Hd2. unfold format_ymd.
  rewrite !string_app_assoc, compare_pad4 by lia.
  unfold dt_compare. cbn [dt_fields midnight lex_compare year month day
    hour minute second microsecond].
  destruct (y1 ?= y2); [|done|done].
  rewrite !string_app_cons, !string_app_nil. cbn [String.compare].
  change (Ascii.compare "-" "-") with Eq. cbn match.
  rewrite compare_pad2 by lia.
  rewrite !Z.mod_small by lia.
  destruct (m1 ?= m2); [|done|done].
  cbn [String.compare].
  change (Ascii.compare "-" "-") with Eq. cbn match.
  rewrite compare_pad2 by lia.
  rewrite !Z.mod_small by lia.
  destruct (d1 ?= d2); reflexivity.
Qed.

Lemma prefix_split a : forall b,
  String.prefix a b = true -> exists r, b = (a ++ r)%string.
Proof.
  induction a as [|c a IH]; intros b.
  - intros _. by exists b.
  - destruct b as [|c' b]; simpl; [done|].
    destruct (ascii_dec c c') as [->|]; [|done].
    intros Hp. destruct (IH b Hp) as [r ->]. exists r. reflexivity.
Qed.

(** The shape of a key in the padded format. *)
Lemma is_iso_key_shape k :
  is_iso_key k = true ->
  exists y m d r,
    valid_ymd y m d = true
    /\ key_date k = Ok (midnight y m d)
    /\ k = (format_ymd y m d ++ r)%string.
Proof.
  unfold is_iso_key, key_date.
  destruct (first_token k ≫= strptime_ymd) as [dt|] eqn:Hk; [|done].
  intros Hp. destruct (first_token k) as [t|]; simpl in Hk; [|done].
  apply strptime_ymd_Ok in Hk as (y & m & d & Hv & ->).
  apply prefix_split in Hp as [r Hr]. by exists y, m, d, r.
Qed.

Lemma valid_ymd_ranges y m d :
  valid_ymd y m d = true -> 0 <= y <= 9999 /\ 0 <= m <= 99 /\ 0 <= d <= 99.
Proof.
  intros Hv. apply valid_ymd_bounds in Hv.
  pose proof (days_in_month_le y m). lia.
Qed.

(** On keys in the padded format, the order of the strings refines the
    order of the dates. *)
Lemma iso_key_compare k1 k2 :
  is_iso_key k1 = true -> is_iso_key k2 = true ->
  match lex_compare (date_rank k1) (date_rank k2) with
  | Eq => True
  | c => String.compare k1 k2 = c
  end.
Proof.
  intros H1 H2.
  apply is_iso_key_shape in H1 as (y1 & m1 & d1 & r1 & Hv1 & Hk1 & E1).
  apply is_iso_key_shape in H2 as (y2 & m2 & d2 & r2 & Hv2 & Hk2 & E2).
  unfold date_rank. rewrite Hk1, Hk2.
  apply valid_ymd_ranges in Hv1, Hv2.
  pose proof (compare_format_ymd y1 m1 d1 r1 y2 m2 d2 r2) as Hc.
  rewrite <- E1, <- E2 in Hc. unfold dt_compare in Hc.
  destruct (lex_compare _ _); [done| |]; apply Hc; lia.
Qed.

Lemma iso_key_le_date_le k1 k2 :
  is_iso_key k1 = true -> is_iso_key k2 = true ->
  String.le k1 k2 -> key_date_le k1 k2.
Proof.
  intros H1 H2 Hle. unfold key_date_le. intros Hgt.
  pose proof (iso_key_compare k1 k2 H1 H2) as Hc. rewrite Hgt in Hc.
  unfold String.le, String.leb in Hle. by rewrite Hc in Hle.
Qed.

Lemma StronglySorted_weaken {A} (R R' : relation A) (l : list A) :
  (forall x y, x ∈ l -> y ∈ l -> R x y -> R' x y) ->
  StronglySorted R l -> StronglySorted R' l.
Proof.
  intros Himp Hs. induction Hs as [|x l Hs IH Hall]; constructor.
  - apply IH. intros a b Ha Hb. apply Himp; by right.
  - rewrite Forall_forall in *. intros y Hy.
    apply Himp; [left|by right|by apply Hall].
Qed.

Lemma lex_compare_Eq a : forall b, lex_compare a b = Eq -> a = b.
Proof.
  induction a as [|x a IH]; intros [|y b]; simpl; try done.
  destruct (Z.compare_spec x y); [subst|done|done].
  intros Hc. f_equal. by apply IH.
Qed.

Lemma dt_fields_inj a b : dt_fields a = dt_fields b -> a = b.
Proof. destruct a, b. unfold dt_fields. simpl. by intros [= -> -> -> -> -> -> ->]. Qed.

Lemma key_date_le_dt_le k1 k2 a b :
  key_date k1 = Ok a -> key_date k2 = Ok b ->
  key_date_le k1 k2 <-> dt_le a b = true.
Proof.
  intros Ha Hb. unfold key_date_le, date_rank, dt_le, dt_compare.
  rewrite Ha, Hb. by destruct (lex_compare _ _).
Qed.

Lemma is_iso_key_parses k : is_iso_key k = true -> exists dt, key_date k = Ok dt.
Proof. unfold is_iso_key. destruct (key_date k); [eauto|done]. Qed.

(** C4. On timestamp keys in the zero-padded [YYYY-MM-DD] format, with or
    without text after the date, the order of the strings agrees with the
    order of the parsed dates: a key with an earlier date is the smaller
    string, and a smaller string never has a later date.  Hence
    [sorted(keys)] is a rearrangement of the keys in chronological order
    of their dates, and it is the very list that sorting by parsed date
    gives whenever no two keys share a date. *)
Theorem sorted_keys_chronological (keys : list string) :
  Forall (fun k => is_iso_key k = true) keys ->
  (forall k1 k2 a b,
     k1 ∈ keys -> k2 ∈ keys -> key_date k1 = Ok a -> key_date k2 = Ok b ->
     (dt_lt a b = true -> String.ltb k1 k2 = true)
     /\ (String.leb k1 k2 = true -> dt_le a b = true))
  /\ sorted keys ≡ₚ keys
  /\ StronglySorted key_date_le (sorted keys)
  /\ (forall k1 k2 a b,
        key_date k1 = Ok a -> key_date k2 = Ok b ->
        key_date_le k1 k2 <-> dt_le a b = true)
  /\ ((forall k1 k2,
         k1 ∈ keys -> k2 ∈ keys -> key_date k1 = key_date k2 -> k1 = k2) ->
      sorted keys = sort_by_date keys).
Proof.
  intros Hiso. rewrite Forall_forall in Hiso.
  assert (Hperm : sorted keys ≡ₚ keys) by apply merge_sort_Permutation.
  assert (Hsorted : StronglySorted key_date_le (sorted keys)).
  { apply (StronglySorted_weaken String.le).
    - intros x y Hx Hy. rewrite Hperm in Hx, Hy.
      apply iso_key_le_date_le; auto.
    - apply StronglySorted_merge_sort; apply _. }
  split; [|split; [done|split; [done|split]]].
  - intros k1 k2 a b H1 H2 Ha Hb.
    pose proof (iso_key_compare k1 k2 (Hiso _ H1) (Hiso _ H2)) as Hc.
    unfold date_rank in Hc. rewrite Ha, Hb in Hc.
    unfold dt_lt, dt_le, dt_compare, String.ltb, String.leb.
    destruct (lex_compare (dt_fields a) (dt_fields b)); split; try done.
    + by rewrite Hc.
    + by rewrite Hc.
  - intros k1 k2 a b. apply key_date_le_dt_le.
  - intros Hinj. apply (StronglySorted_unique_strong key_date_le).
    + intros x1 x2 Hx1 Hx2 H12 H21. rewrite Hperm in Hx1.
      unfold sort_by_date in Hx2. rewrite merge_sort_Permutation in Hx2.
      apply Hinj; [done|done|].
      destruct (is_iso_key_parses x1 (Hiso _ Hx1)) as [a Ha].
      destruct (is_iso_key_parses x2 (Hiso _ Hx2)) as [b Hb].
      rewrite Ha, Hb. f_equal. apply dt_fields_inj, lex_compare_Eq.
      unfold key_date_le, date_rank in H12, H21. rewrite Ha, Hb in H12, H21.
      rewrite (lex_compare_antisym (dt_fields a) (dt_fields b)) in H21.
      by destruct (lex_compare (dt_fields a) (dt_fields b)).
    + done.
    + apply StronglySorted_merge_sort; apply _.
    + rewrite Hperm. symmetry. apply merge_sort_Permutation.
Qed.

(** A run of C4 on three keys given newest first. *)
Lemma sorted_keys_chronological_witness :
  sorted ["2024-01-05"; "2024-01-03 16:00:00"; "2023-12-29"] ≡ₚ
    ["2024-01-05"; "2024-01-03 16:00:00"; "2023-12-29"]
  /\ StronglySorted key_date_le
       (sorted ["2024-01-05"; "2024-01-03 16:00:00"; "2023-12-29"]).
Proof.
  destruct (sorted_keys_chronological
              ["2024-01-05"; "2024-01-03 16:00:00"; "2023-12-29"])
    as (_ & Hperm & Hsorted & _).
  - repeat constructor.
  - split; [exact Hperm|exact Hsorted].
Defined.

(** Without the zero padding the agreement is lost: both keys below are
    accepted by [strptime], and the October key is the smaller string. *)
Remark unpadded_keys_disagree :
  key_date "2024-10-01" = Ok (midnight 2024 10 1)
  /\ key_date "2024-2-01" = Ok (midnight 2024 2 1)
  /\ sorted ["2024-2-01"; "2024-10-01"] = ["2024-10-01"; "2024-2-01"].
Proof. repeat split; reflexivity. Qed.

(** ** The date portion of a timestamp key *)

Lemma split_ws_token t : forall c r,
  t <> EmptyString -> no_space t = true -> is_space c = true ->
  split_ws (t ++ String c r) = t :: split_ws r.
Proof.
  induction t as [|a t IH]; intros c r Hne Hns Hc; [done|].
  unfold no_space in Hns. simpl in Hns.
  apply andb_true_iff in Hns as [Ha Hns]. apply negb_true_iff in Ha.
  rewrite string_app_cons. cbn [split_ws]. rewrite Ha.
  destruct t as [|b t].
  - rewrite string_app_nil, Hc. cbn [split_ws]. by rewrite Hc.
  - rewrite string_app_cons.
    assert (Hb : is_space b = false).
    { simpl in Hns. apply andb_true_iff in Hns as [Hb _].
      by apply negb_true_iff in Hb. }
    rewrite Hb. rewrite <- string_app_cons.
    by rewrite (IH c r).
Qed.

Lemma split_ws_single t :
  t <> EmptyString -> no_space t = true -> split_ws t = [t].
Proof.
  induction t as [|a t IH]; intros Hne Hns; [done|].
  unfold no_space in Hns. simpl in Hns.
  apply andb_true_iff in Hns as [Ha Hns]. apply negb_true_iff in Ha.
  cbn [split_ws]. rewrite Ha. destruct t as [|b t]; [done|].
  assert (Hb : is_space b = false).
  { simpl in Hns. apply andb_true_iff in Hns as [Hb _].
    by apply negb_true_iff in Hb. }
  rewrite Hb. by rewrite IH.
Qed.

Lemma string_app_nil_r (s : string) : (s ++ EmptyString)%string = s.
Proof.
  induction s as [|a s IH]; [done|]. rewrite string_app_cons. by rewrite IH.
Qed.

Lemma no_space_app a b :
  no_space a = true -> no_space b = true -> no_space (a ++ b) = true.
Proof.
  unfold no_space. induction a as [|c a IH]; [done|].
  rewrite string_app_cons. simpl.
  intros [Hc Ha]%andb_true_iff Hb. rewrite Hc. simpl. auto.
Qed.

Lemma no_space_format_ymd y m d :
  0 <= y <= 9999 -> 0 <= m <= 99 -> 0 <= d <= 99 ->
  no_space (format_ymd y m d) = true.
Proof.
  intros Hy Hm Hd. unfold format_ymd, pad4, pad2, no_space.
  rewrite !string_app_cons, !string_app_nil. simpl.
  assert (Hdig : forall k, 0 <= k <= 9 -> is_space (digit_char k) = false).
  { intros k Hk. small_cases k; reflexivity. }
  rewrite !Hdig
    by (match goal with |- 0 <= ?x mod 10 <= 9 =>
          pose proof (Z.mod_pos_bound x 10); lia end).
  reflexivity.
Qed.

Lemma timestamp_key_date k y m d :
  timestamp_key k y m d -> key_date k = Ok (midnight y m d).
Proof.
  intros (Hv & rest & -> & Hrest).
  pose proof (valid_ymd_ranges y m d Hv) as (Hy & Hm & Hd).
  pose proof (no_space_format_ymd y m d Hy Hm Hd) as Hns.
  assert (Hne : format_ymd y m d <> EmptyString) by done.
  unfold key_date, first_token.
  destruct Hrest as [-> | (c & r & -> & Hc)].
  - rewrite string_app_nil_r, split_ws_single by done. simpl.
    by apply strptime_format_ymd.
  - rewrite split_ws_token by done. simpl. by apply strptime_format_ymd.
Qed.

Section filter_exact.
Context `{rt : Runtime}.
Implicit Types (self : StockData) (s e : datetime).

(** C1. On a response that holds the series of the granularity,
    [filter_by_date_range] returns and stores exactly the entries whose
    date is in the inclusive range, in the order they had.

    First part, for keys whose date portion parses: an entry is retained
    if and only if it is in the series and its date [d] satisfies
    [s <= d <= e], an entry with a date outside the range is absent, and
    with [s <= e] an entry dated [s] or [e] is retained.

    Second part, for keys in the format of the API, the padded date of a
    calendar day [y-m-d] alone or followed by a blank and a time of day:
    the call returns, and an entry is retained if and only if the day
    itself satisfies [s <= y-m-d <= e], whatever follows the date in the
    key; so two keys of the same day are kept or dropped together. *)
Theorem filter_by_date_range_exact self s e key raw tsd :
  dict_get (time_series self) time_series_key_map = Some key ->
  raw_data self = JObj raw ->
  dict_get key raw = Some (JObj tsd) ->
  dict_wf tsd ->
  (Forall (fun k => key_parses k = true) (dict_keys tsd) ->
   exists f,
     filter_by_date_range self s e = Ok (f, set_filtered_data self f)
     /\ f = List.filter (keep_item s e) tsd
     /\ (forall k v,
           dict_get k f = Some v <->
           dict_get k tsd = Some v /\
           exists d, key_date k = Ok d /\ dt_le s d = true /\ dt_le d e = true)
     /\ (forall k d,
           key_date k = Ok d -> dt_le s d && dt_le d e = false ->
           dict_get k f = None)
     /\ (dt_le s e = true ->
         forall k v,
           dict_get k tsd = Some v ->
           key_date k = Ok s \/ key_date k = Ok e ->
           dict_get k f = Some v))
  /\ (Forall (fun k => exists y m d, timestamp_key k y m d) (dict_keys tsd) ->
      exists f,
        filter_by_date_range self s e = Ok (f, set_filtered_data self f)
        /\ (forall k y m d v,
              timestamp_key k y m d ->
              (dict_get k f = Some v <->
               dict_get k tsd = Some v
               /\ dt_le s (midnight y m d) = true
               /\ dt_le (midnight y m d) e = true))
        /\ (forall k1 k2 y m d v1 v2,
              timestamp_key k1 y m d -> timestamp_key k2 y m d ->
              dict_get k1 tsd = Some v1 -> dict_get k2 tsd = Some v2 ->
              (dict_get k1 f = Some v1 <-> dict_get k2 f = Some v2))).
Proof.
  intros Hkey Hraw Hts Hwf.
  assert (Hget : forall k, dict_get k (List.filter (keep_item s e) tsd) =
                   if in_date_range s e k then dict_get k tsd else None).
  { intros k. apply (dict_get_filter_key (in_date_range s e)). }
  assert (Hcall : Forall (fun k => key_parses k = true) (dict_keys tsd) ->
            filter_by_date_range self s e
            = Ok (List.filter (keep_item s e) tsd,
                  set_filtered_data self (List.filter (keep_item s e) tsd))).
  { intros Hparse.
    rewrite (filter_by_date_range_unfold self s e key raw tsd) by done.
    by rewrite filter_loop_ok. }
  assert (Hday : forall k y m d v,
            timestamp_key k y m d ->
            (dict_get k (List.filter (keep_item s e) tsd) = Some v <->
             dict_get k tsd = Some v
             /\ dt_le s (midnight y m d) = true
             /\ dt_le (midnight y m d) e = true)).
  { intros k y m d v Hk. rewrite Hget. unfold in_date_range.
    rewrite (timestamp_key_date k y m d Hk).
    destruct (dt_le s (midnight y m d)), (dt_le (midnight y m d) e); simpl;
      split; try done; try tauto; by intros (_ & ? & ?). }
  split.
  - intros Hparse. exists (List.filter (keep_item s e) tsd).
    split; [by apply Hcall|]. split; [done|]. split; [|split].
    + intros k v. rewrite Hget. unfold in_date_range.
      destruct (key_date k) as [d|ex] eqn:Hd.
      * destruct (dt_le s d && dt_le d e) eqn:Hr.
        -- apply andb_true_iff in Hr as [Hs He]. split; [|tauto].
           intros Hv. split; [done|]. by exists d.
        -- split; [done|]. intros (_ & d' & [= <-] & Hs & He).
           rewrite Hs, He in Hr. discriminate.
      * split; [done|]. by intros (_ & d' & [=] & _).
    + intros k d Hd Hr. rewrite Hget. unfold in_date_range. by rewrite Hd, Hr.
    + intros Hse k v Hv Hb. rewrite Hget. unfold in_date_range.
      destruct Hb as [-> | ->]; by rewrite dt_le_refl, Hse.
  - intros Hstamps. exists (List.filter (keep_item s e) tsd).
    split; [|split; [done|]].
    + apply Hcall. eapply Forall_impl; [exact Hstamps|].
      intros k (y & m & d & Hk). unfold key_parses.
      by rewrite (timestamp_key_date k y m d Hk).
    + intros k1 k2 y m d v1 v2 H1 H2 Hv1 Hv2.
      rewrite (Hday k1 y m d v1 H1), (Hday k2 y m d v2 H2). tauto.
Qed.

End filter_exact.

(** A run of C1 on an intraday series and the range
    [2024-01-01, 2024-01-03]: the two entries of 2024-01-02 are retained,
    whatever their time of day, and the entry of 2024-01-05 is not. *)
Lemma filter_by_date_range_exact_witness :
  (exists f,
     filter_by_date_range
       (StockData_init (rt := Sample.rt) "IBM"
          (JObj [("Time Series (60min)", JObj Sample.intraday_series)]) 1)
       (midnight 2024 1 1) (midnight 2024 1 3)
     = Ok (f, set_filtered_data
                (StockData_init (rt := Sample.rt) "IBM"
                   (JObj [("Time Series (60min)",
                           JObj Sample.intraday_series)]) 1) f)
     /\ f = [("2024-01-02 10:00:00", Sample.ohlc "1" "2" "0.5" "1.5");
             ("2024-01-02 09:00:00", Sample.ohlc "1" "1.5" "0.5" "1")])
  /\ (exists f,
        filter_by_date_range
          (StockData_init (rt := Sample.rt) "IBM"
             (JObj [("Time Series (60min)", JObj Sample.intraday_series)]) 1)
          (midnight 2024 1 1) (midnight 2024 1 3)
        = Ok (f, set_filtered_data
                   (StockData_init (rt := Sample.rt) "IBM"
                      (JObj [("Time Series (60min)",
                              JObj Sample.intraday_series)]) 1) f)
        /\ dict_get "2024-01-02 09:00:00" f
           = Some (Sample.ohlc "1" "1.5" "0.5" "1")).
Proof.
  destruct (filter_by_date_range_exact (rt := Sample.rt)
              (StockData_init (rt := Sample.rt) "IBM"
                 (JObj [("Time Series (60min)", JObj Sample.intraday_series)]) 1)
              (midnight 2024 1 1) (midnight 2024 1 3)
              "Time Series (60min)"
              [("Time Series (60min)", JObj Sample.intraday_series)]
              Sample.intraday_series eq_refl eq_refl eq_refl)
    as [Hparsed Hstamped].
  - unfold dict_wf. apply (bool_decide_unpack _). reflexivity.
  - split.
    + destruct Hparsed as (f & Hcall & Hf & _); [repeat constructor|].
      exists f. split; [exact Hcall|exact Hf].
    + destruct Hstamped as (f & Hcall & Hday & _).
      * repeat constructor.
        -- exists 2024, 1, 5. split; [reflexivity|].
           exists " 10:00:00"%string. split; [reflexivity|].
           right. eexists _, _. split; reflexivity.
        -- exists 2024, 1, 2. split; [reflexivity|].
           exists " 10:00:00"%string. split; [reflexivity|].
           right. eexists _, _. split; reflexivity.
        -- exists 2024, 1, 2. split; [reflexivity|].
           exists " 09:00:00"%string. split; [reflexivity|].
           right. eexists _, _. split; reflexivity.
      * exists f. split; [exact Hcall|].
        apply (Hday "2024-01-02 09:00:00"%string 2024 1 2).
        -- split; [reflexivity|].
           exists " 09:00:00"%string. split; [reflexivity|].
           right. eexists _, _. split; reflexivity.
        -- split; [reflexivity|]. split; reflexivity.
Defined.

(** ** The chart *)

(** The page rebuilt around the tree is the template of the source: the
    two differ only in how literal text is cut into pieces. *)
Lemma render_chart_page env : render env chart_page = render env html_template.
Proof. reflexivity. Qed.

(** ** The text of the page and the tree it prints *)

Lemma text_flat_denote values e : forall k,
  pieces_text values (text_flat e k)
  = (text_denote values e ++ pieces_text values k)%string.
Proof.
  induction e as [s|f|a IHa b IHb]; intros k; simpl; [done|done|].
  by rewrite IHa, IHb, string_app_assoc.
Qed.

Lemma text_merge_denote values ps :
  pieces_text values (text_merge ps) = pieces_text values ps.
Proof.
  induction ps as [|[s|f] ps IH]; simpl; [done| |by rewrite IH].
  rewrite <- IH. destruct (text_merge ps) as [|[t|g] r]; simpl; [done| |done].
  by rewrite string_app_assoc.
Qed.

Lemma text_expr_eq values a b :
  text_merge (text_flat a []) = text_merge (text_flat b []) ->
  text_denote values a = text_denote values b.
Proof.
  intros Heq.
  rewrite <- (string_app_nil_r (text_denote values a)).
  rewrite <- (string_app_nil_r (text_denote values b)).
  change EmptyString with (pieces_text values []).
  rewrite <- !text_flat_denote, <- (text_merge_denote values (text_flat a [])).
  rewrite Heq. apply text_merge_denote.
Qed.

Ltac reify_text t :=
  match t with
  | String.append ?a ?b =>
      let ra := reify_text a in
      let rb := reify_text b in
      constr:(TApp ra rb)
  | ?v ?f =>
      match type of f with
      | field => constr:(TVal f)
      end
  | _ => constr:(TLit t)
  end.

Ltac text_eq values :=
  match goal with
  | |- ?l = ?r =>
      let a := reify_text l in
      let b := reify_text r in
      change (text_denote values a = text_denote values b);
      apply text_expr_eq; vm_compute; reflexivity
  end.

(** The text of the template is the markup around the printed tree. *)
Lemma render_chart_markup values :
  render values html_template
  = chart_markup (values f_symbol) (values f_start_date) (values f_end_date)
      values chart_config.
Proof. unfold chart_markup. cbn. text_eq values. Qed.

Section chart_claims.
Context `{rt : Runtime}.


End chart_claims.


(** * Further properties of the code *)

(** ** The API client: how a response is classified *)

Section fetch_classification.
Context `{rt : Runtime}.
Implicit Types (api : AlphaVantageAPI) (st : effects).

(** [fetch_stock_data] on a mapped granularity sends its one request and
    then: a transport failure, a 4xx or 5xx status and a body that is not
    JSON all give [None]; a JSON object is returned unchanged unless it has
    the key [Error Message] or the key [Note], in which case the result is
    [None]; the call raises in none of these cases. *)
Theorem fetch_stock_data_classification api sym ts st params :
  request_params api sym ts = Ok params ->
  let st' := mk_effects (requests_sent st ++ [mk_request BASE_URL params])
                        (flashed st) in
  (requests_get BASE_URL params = RequestException ->
   fetch_stock_data api sym ts st = (st', Ok None))
  /\ (forall status_code body,
        requests_get BASE_URL params = HttpResponse status_code body ->
        400 <= status_code < 600 ->
        fetch_stock_data api sym ts st = (st', Ok None))
  /\ (forall status_code,
        requests_get BASE_URL params = HttpResponse status_code None ->
        fetch_stock_data api sym ts st = (st', Ok None))
  /\ (forall status_code d,
        requests_get BASE_URL params = HttpResponse status_code (Some (JObj d)) ->
        ~ (400 <= status_code < 600) ->
        fetch_stock_data api sym ts st =
        (st', Ok (if dict_mem "Error Message" d || dict_mem "Note" d
                  then None else Some (JObj d)))).
Proof.
  intros Hp st'.
  unfold fetch_stock_data, mbind, IO_bind, lift. rewrite Hp.
  unfold http_get_json. fold st'.
  split; [|split; [|split]].
  - by intros ->.
  - intros status_code body -> Hs.
    assert ((400 <=? status_code) && (status_code <? 600) = true) as ->; [|done].
    apply andb_true_iff. split; [apply Z.leb_le|apply Z.ltb_lt]; lia.
  - intros status_code ->.
    by destruct ((400 <=? status_code) && (status_code <? 600)).
  - intros status_code d -> Hs.
    assert ((400 <=? status_code) && (status_code <? 600) = false) as ->.
    { apply andb_false_iff.
      destruct (Z.leb_spec 400 status_code); [right|by left].
      apply Z.ltb_ge. lia. }
    simpl. unfold dict_mem, dict_index.
    destruct (dict_get "Error Message" d); simpl; [done|].
    by destruct (dict_get "Note" d).
Qed.

(** A JSON body that is not an object is never turned into [None]: a
    number, a boolean or [null] makes the membership test raise
    [TypeError], which the [except] clause does not catch; a list or a
    string is returned as it is when it mentions neither marker, and
    otherwise the subscript inside the printed message raises
    [TypeError]. *)
Theorem fetch_stock_data_non_object api sym ts st params status_code v :
  request_params api sym ts = Ok params ->
  requests_get BASE_URL params = HttpResponse status_code (Some v) ->
  ~ (400 <= status_code < 600) ->
  (forall d, v <> JObj d) ->
  fetch_stock_data api sym ts st =
  (mk_effects (requests_sent st ++ [mk_request BASE_URL params]) (flashed st),
   match py_in "Error Message" v, py_in "Note" v with
   | Ok false, Ok false => Ok (Some v)
   | _, _ => Raise TypeError
   end).
Proof.
  intros Hp Hget Hs Hv.
  unfold fetch_stock_data, mbind, IO_bind, lift. rewrite Hp.
  unfold http_get_json. rewrite Hget.
  assert ((400 <=? status_code) && (status_code <? 600) = false) as ->.
  { apply andb_false_iff.
    destruct (Z.leb_spec 400 status_code); [right|by left].
    apply Z.ltb_ge. lia. }
  destruct v as [| | | | s | l | d]; simpl; try done.
  - destruct (is_substring "Error Message" s); [done|].
    by destruct (is_substring "Note" s).
  - destruct (existsb (is_str "Error Message") l); [done|].
    by destruct (existsb (is_str "Note") l).
  - by destruct (Hv d).
Qed.

End fetch_classification.

(** The sample endpoint answers [LIMIT] with a rate-limit note. *)
Lemma fetch_stock_data_classification_witness :
  run (fetch_stock_data (rt := Sample.rt)
         (AlphaVantageAPI_init (rt := Sample.rt)) "LIMIT" 2)
  = (mk_effects
       [mk_request BASE_URL
          [("function", "TIME_SERIES_DAILY"); ("symbol", "LIMIT");
           ("apikey", "demo"); ("outputsize", "full")]] [],
     Ok None).
Proof.
  apply (proj2 (proj2 (proj2
           (fetch_stock_data_classification (rt := Sample.rt)
              (AlphaVantageAPI_init (rt := Sample.rt)) "LIMIT" 2 no_effects
              _ eq_refl))) 200 [("Note", JStr "rate limit")]).
  - reflexivity.
  - lia.
Defined.

(** An endpoint that answers with the JSON number 7. *)
Lemma fetch_stock_data_non_object_witness :
  run (fetch_stock_data
         (rt := sample_rt_with (fun _ _ => HttpResponse 200 (Some (JInt 7))))
         (mk_api "demo") "IBM" 2)
  = (mk_effects
       [mk_request BASE_URL
          [("function", "TIME_SERIES_DAILY"); ("symbol", "IBM");
           ("apikey", "demo"); ("outputsize", "full")]] [],
     Raise TypeError).
Proof.
  apply (fetch_stock_data_non_object
           (rt := sample_rt_with (fun _ _ => HttpResponse 200 (Some (JInt 7))))
           (mk_api "demo") "IBM" 2 no_effects _ 200 (JInt 7) eq_refl eq_refl).
  - lia.
  - discriminate.
Defined.

(** ** Filtering: ranges, repeated calls, time of day *)

Lemma dt_le_trans a b c : dt_le a b = true -> dt_le b c = true -> dt_le a c = true.
Proof.
  unfold dt_le, dt_compare. intros Hab Hbc.
  pose proof (lex_compare_trans (dt_fields a) (dt_fields b) (dt_fields c)) as Ht.
  destruct (lex_compare (dt_fields a) (dt_fields b)),
           (lex_compare (dt_fields b) (dt_fields c)),
           (lex_compare (dt_fields a) (dt_fields c)); try done;
    exfalso; by apply Ht.
Qed.

Lemma dt_le_total a b : dt_le a b = true \/ dt_le b a = true.
Proof.
  unfold dt_le, dt_compare.
  rewrite (lex_compare_antisym (dt_fields a) (dt_fields b)).
  destruct (lex_compare (dt_fields a) (dt_fields b)); simpl; auto.
Qed.

Lemma dt_le_antisym a b : dt_le a b = true -> dt_le b a = true -> a = b.
Proof.
  unfold dt_le, dt_compare.
  rewrite (lex_compare_antisym (dt_fields a) (dt_fields b)).
  destruct (lex_compare (dt_fields a) (dt_fields b)) eqn:Hc; simpl; try done.
  intros _ _. by apply dt_fields_inj, lex_compare_Eq.
Qed.

Lemma dt_lt_not_le a b : dt_lt a b = true -> dt_le b a = false.
Proof.
  unfold dt_lt, dt_le, dt_compare.
  rewrite (lex_compare_antisym (dt_fields a) (dt_fields b)).
  by destruct (lex_compare (dt_fields a) (dt_fields b)).
Qed.

Lemma in_date_range_inverted s e k :
  dt_lt e s = true -> in_date_range s e k = false.
Proof.
  intros Hlt. unfold in_date_range. destruct (key_date k) as [d|]; [|done].
  destruct (dt_le s d) eqn:Hs; [|done]. destruct (dt_le d e) eqn:He; [|done].
  pose proof (dt_le_trans s d e Hs He) as Hse.
  apply dt_lt_not_le in Hlt. congruence.
Qed.

Lemma in_date_range_widen s e s' e' k :
  dt_le s' s = true -> dt_le e e' = true ->
  in_date_range s e k = true -> in_date_range s' e' k = true.
Proof.
  intros Hs He. unfold in_date_range. destruct (key_date k) as [d|]; [|done].
  intros [H1 H2]%andb_true_iff.
  by rewrite (dt_le_trans s' s d Hs H1), (dt_le_trans d e e' H2 He).
Qed.

Section filter_loop_get.
Context `{rt : Runtime}.
Implicit Types (items acc : dict string (json pyfloat)) (s e : datetime).

(** Lookup in the result of the loop, with no assumption on the items: a
    key in range has the value of its last item, a key out of range has
    what the accumulator had. *)
Lemma filter_loop_get s e items : forall acc f k,
  filter_loop s e items acc = Ok f ->
  dict_get k f =
  if in_date_range s e k
  then match dict_get k (rev items) with
       | Some v => Some v
       | None => dict_get k acc
       end
  else dict_get k acc.
Proof.
  induction items as [|[k0 v0] items IH]; intros acc f k; simpl.
  - intros [= <-]. by destruct (in_date_range s e k).
  - destruct (key_date k0) as [d|] eqn:Hd; simpl; [|done].
    assert (Hk0 : in_date_range s e k0 = dt_le s d && dt_le d e).
    { unfold in_date_range. by rewrite Hd. }
    rewrite dict_get_app. simpl.
    destruct (dt_le s d && dt_le d e) eqn:Hr; intros Hloop;
      rewrite (IH _ _ k Hloop).
    + rewrite dict_get_set.
      destruct (in_date_range s e k) eqn:Hk.
      * destruct (dict_get k (rev items)); [done|].
        by destruct (decide (k = k0)).
      * destruct (decide (k = k0)) as [->|]; [congruence|done].
    + destruct (in_date_range s e k) eqn:Hk; [|done].
      destruct (dict_get k (rev items)); [done|].
      destruct (decide (k = k0)) as [->|]; [congruence|done].
Qed.

End filter_loop_get.

Section filter_extras.
Context `{rt : Runtime}.
Implicit Types (self : StockData) (s e : datetime).

(** The two ways [filter_by_date_range] returns. *)
Lemma filter_by_date_range_cases self s e f self' :
  filter_by_date_range self s e = Ok (f, self') ->
  exists key,
    dict_get (time_series self) time_series_key_map = Some key
    /\ ((py_in key (raw_data self) = Ok false /\ f = [] /\ self' = self)
        \/ (exists tsd items,
              py_in key (raw_data self) = Ok true
              /\ py_getitem (raw_data self) key = Ok tsd
              /\ py_items tsd = Ok items
              /\ filter_loop s e items [] = Ok f
              /\ self' = set_filtered_data self f)).
Proof.
  unfold filter_by_date_range, dict_index.
  destruct (dict_get (time_series self) time_series_key_map) as [key|] eqn:Hkey;
    simpl; [|done].
  destruct (py_in key (raw_data self)) as [[]|] eqn:Hin; simpl; [| |done].
  - destruct (py_getitem (raw_data self) key) as [tsd|] eqn:Hg; simpl; [|done].
    destruct (py_items tsd) as [items|] eqn:Hi; simpl; [|done].
    destruct (filter_loop s e items []) as [g|] eqn:Hl; simpl; [|done].
    intros [= <- <-]. exists key. split; [done|]. right. by exists tsd, items.
  - intros [= <- <-]. exists key. split; [done|]. by left.
Qed.

(** A range whose end is before its start retains nothing. *)
Theorem filter_by_date_range_inverted self s e f self' :
  filter_by_date_range self s e = Ok (f, self') ->
  dt_lt e s = true ->
  f = [].
Proof.
  intros Hcall Hlt.
  apply filter_by_date_range_cases in Hcall
    as (key & _ & [(_ & -> & _)|(tsd & items & _ & _ & _ & Hloop & _)]); [done|].
  destruct f as [|[k v] f]; [done|]. exfalso.
  pose proof (filter_loop_get s e items [] _ k Hloop) as Hget.
  rewrite (in_date_range_inverted s e k Hlt) in Hget. simpl in Hget.
  by destruct (decide (k = k)).
Qed.

(** Widening the range never loses an entry: whatever a range retains, a
    range that starts no later and ends no earlier retains with the same
    value. *)
Theorem filter_by_date_range_monotone self s e s' e' f f' self1 self2 :
  filter_by_date_range self s e = Ok (f, self1) ->
  filter_by_date_range self s' e' = Ok (f', self2) ->
  dt_le s' s = true -> dt_le e e' = true ->
  forall k v, dict_get k f = Some v -> dict_get k f' = Some v.
Proof.
  intros H1 H2 Hs He k v Hk.
  apply filter_by_date_range_cases in H1
    as (key & Hkey & [(_ & -> & _)|(tsd & items & Hin & Hg & Hi & Hloop & _)]);
    [done|].
  apply filter_by_date_range_cases in H2
    as (key' & Hkey' & [(Hin' & _)|(tsd' & items' & _ & Hg' & Hi' & Hloop' & _)]).
  - congruence.
  - assert (key' = key) as -> by congruence.
    assert (tsd' = tsd) as -> by congruence.
    assert (items' = items) as -> by congruence.
    rewrite (filter_loop_get s e items [] f k Hloop) in Hk.
    rewrite (filter_loop_get s' e' items [] f' k Hloop').
    destruct (in_date_range s e k) eqn:Hr; [|done].
    by rewrite (in_date_range_widen s e s' e' k Hs He Hr).
Qed.

(** Repeated calls do not accumulate.  When the response holds the key of
    the granularity, a call that returns stores exactly what it returns,
    whatever an earlier call had stored and also when nothing is in range,
    and calling it again on the resulting object changes nothing.  When
    the response does not hold the key, the call returns the empty
    dictionary and leaves the stored result as it was. *)
Theorem filter_by_date_range_overwrites self s e key :
  dict_get (time_series self) time_series_key_map = Some key ->
  (py_in key (raw_data self) = Ok true ->
   forall f self',
     filter_by_date_range self s e = Ok (f, self') ->
     filtered_data self' = f
     /\ self' = set_filtered_data self f
     /\ (forall stale,
           filter_by_date_range (set_filtered_data self stale) s e
           = Ok (f, self'))
     /\ filter_by_date_range self' s e = Ok (f, self'))
  /\ (py_in key (raw_data self) = Ok false ->
      forall stale,
        filter_by_date_range (set_filtered_data self stale) s e
        = Ok ([], set_filtered_data self stale)).
Proof.
  intros Hkey. split.
  - intros Hin f self' Hcall.
    apply filter_by_date_range_cases in Hcall
      as (key' & Hkey' & [(Hin' & _)|(tsd & items & _ & Hg & Hi & Hloop & ->)]).
    { congruence. }
    assert (key' = key) as -> by congruence.
    assert (Hany : forall stale,
              filter_by_date_range (set_filtered_data self stale) s e
              = Ok (f, set_filtered_data self f)).
    { intros stale. unfold filter_by_date_range, dict_index.
      change (time_series (set_filtered_data self stale)) with (time_series self).
      change (raw_data (set_filtered_data self stale)) with (raw_data self).
      rewrite Hkey. simpl. rewrite Hin. simpl. rewrite Hg. simpl.
      rewrite Hi. simpl. by rewrite Hloop. }
    split; [done|]. split; [done|]. split; [done|]. apply Hany.
  - intros Hin stale. unfold filter_by_date_range, dict_index.
    change (time_series (set_filtered_data self stale)) with (time_series self).
    change (raw_data (set_filtered_data self stale)) with (raw_data self).
    rewrite Hkey. simpl. by rewrite Hin.
Qed.

(** The time of day plays no part: a key made of a date token, a
    whitespace character and anything after it has the date of the token
    alone, and is kept or dropped as the token would be. *)
Theorem key_date_ignores_time t c r :
  t <> EmptyString -> no_space t = true -> is_space c = true ->
  key_date (t ++ String c r) = key_date t
  /\ forall s e, in_date_range s e (t ++ String c r) = in_date_range s e t.
Proof.
  intros Hne Hns Hc.
  assert (Hk : key_date (t ++ String c r) = key_date t).
  { unfold key_date, first_token.
    by rewrite split_ws_token, split_ws_single. }
  split; [done|]. intros s e. unfold in_date_range. by rewrite Hk.
Qed.

End filter_extras.

(** The sample series filtered with start 2024-02-01 and end 2024-01-01. *)
Lemma filter_by_date_range_inverted_witness :
  exists self',
    filter_by_date_range
      (StockData_init (rt := Sample.rt) "IBM"
         (JObj [("Time Series (Daily)", JObj Sample.daily_series)]) 2)
      (midnight 2024 2 1) (midnight 2024 1 1) = Ok ([], self').
Proof.
  eexists.
  assert (Hcall : exists f self',
            filter_by_date_range
              (StockData_init (rt := Sample.rt) "IBM"
                 (JObj [("Time Series (Daily)", JObj Sample.daily_series)]) 2)
              (midnight 2024 2 1) (midnight 2024 1 1) = Ok (f, self')
            /\ self' = set_filtered_data
                         (StockData_init (rt := Sample.rt) "IBM"
                            (JObj [("Time Series (Daily)",
                                    JObj Sample.daily_series)]) 2) f).
  { eexists _, _. split; reflexivity. }
  destruct Hcall as (f & self' & Hcall & ->).
  pose proof (filter_by_date_range_inverted _ _ _ _ _ Hcall eq_refl) as ->.
  exact Hcall.
Defined.

(** The sample series: the entry that the first three days of January
    retain is retained by the whole month. *)
Lemma filter_by_date_range_monotone_witness :
  dict_get "2024-01-02"
    [("2024-01-05", Sample.ohlc "3" "4" "2.5" "3.5");
     ("2024-01-02", Sample.ohlc "1" "2" "0.5" "1.5")]
  = Some (Sample.ohlc "1" "2" "0.5" "1.5").
Proof.
  apply (filter_by_date_range_monotone (rt := Sample.rt)
           (StockData_init (rt := Sample.rt) "IBM"
              (JObj [("Time Series (Daily)", JObj Sample.daily_series)]) 2)
           (midnight 2024 1 1) (midnight 2024 1 3)
           (midnight 2024 1 1) (midnight 2024 1 31)
           [("2024-01-02", Sample.ohlc "1" "2" "0.5" "1.5")] _ _ _
           eq_refl eq_refl eq_refl eq_refl "2024-01-02").
  reflexivity.
Defined.

(** The sample series with both entries stored by an earlier call,
    filtered for February 2024: nothing is in range and nothing stays. *)
Lemma filter_by_date_range_overwrites_witness :
  filter_by_date_range
    (mk_stock_data (rt := Sample.rt) "IBM"
       (JObj [("Time Series (Daily)", JObj Sample.daily_series)]) 2
       Sample.daily_series)
    (midnight 2024 2 1) (midnight 2024 2 3)
  = Ok ([],
        mk_stock_data (rt := Sample.rt) "IBM"
          (JObj [("Time Series (Daily)", JObj Sample.daily_series)]) 2 []).
Proof.
  apply (proj1 (filter_by_date_range_overwrites (rt := Sample.rt)
                  (StockData_init (rt := Sample.rt) "IBM"
                     (JObj [("Time Series (Daily)",
                             JObj Sample.daily_series)]) 2)
                  (midnight 2024 2 1) (midnight 2024 2 3)
                  "Time Series (Daily)" eq_refl)
           eq_refl [] _ eq_refl).
Defined.

(** An intraday key and its date. *)
Lemma key_date_ignores_time_witness :
  key_date "2024-01-02 10:00:00" = key_date "2024-01-02".
Proof.
  apply (key_date_ignores_time "2024-01-02" " " "10:00:00");
    [discriminate|reflexivity|reflexivity].
Defined.

(** ** Decomposition: alignment, failure, order *)

Section format_extras.
Context `{rt : Runtime}.
Implicit Types (self : StockData) (filtered : dict string (json pyfloat)).

Lemma format_loop_rows filtered ks : forall acc data,
  format_loop filtered ks acc = Ok data ->
  exists ds os hs ls cs,
    dates data = dates acc ++ ds /\ open data = open acc ++ os
    /\ high data = high acc ++ hs /\ low data = low acc ++ ls
    /\ close data = close acc ++ cs
    /\ Forall2 (fun k d => first_token k = Ok d) ks ds
    /\ Forall2 (price_of filtered "1. open") ks os
    /\ Forall2 (price_of filtered "2. high") ks hs
    /\ Forall2 (price_of filtered "3. low") ks ls
    /\ Forall2 (price_of filtered "4. close") ks cs.
Proof.
  induction ks as [|k ks IH]; intros acc data; simpl.
  - intros [= <-]. exists [], [], [], [], [].
    rewrite !app_nil_r. repeat split; constructor.
  - unfold dict_index.
    destruct (dict_get k filtered) as [values|] eqn:Hv; simpl; [|done].
    destruct (first_token k) as [date_only|] eqn:Ht; simpl; [|done].
    destruct (py_getitem values "1. open" ≫= py_float) as [o|] eqn:Ho;
      simpl; [|done].
    destruct (py_getitem values "2. high" ≫= py_float) as [h|] eqn:Hh;
      simpl; [|done].
    destruct (py_getitem values "3. low" ≫= py_float) as [l|] eqn:Hl;
      simpl; [|done].
    destruct (py_getitem values "4. close" ≫= py_float) as [c|] eqn:Hc;
      simpl; [|done].
    intros Hloop.
    apply IH in Hloop
      as (ds & os & hs & ls & cs & -> & -> & -> & -> & -> & Hd & H1 & H2 & H3 & H4).
    simpl. exists (date_only :: ds), (o :: os), (h :: hs), (l :: ls), (c :: cs).
    rewrite <- !app_assoc. simpl.
    repeat split; try done; constructor; try done; by exists values.
Qed.

(** The five lists of [get_formatted_data] are aligned with the sorted
    keys: position by position, the date is the first token of the key
    and each price is [float] of the field of that key's record. *)
Theorem get_formatted_data_aligned self data :
  get_formatted_data self = Ok (Some data) ->
  let keys := sorted (dict_keys (filtered_data self)) in
  Forall2 (fun k d => first_token k = Ok d) keys (dates data)
  /\ Forall2 (price_of (filtered_data self) "1. open") keys (open data)
  /\ Forall2 (price_of (filtered_data self) "2. high") keys (high data)
  /\ Forall2 (price_of (filtered_data self) "3. low") keys (low data)
  /\ Forall2 (price_of (filtered_data self) "4. close") keys (close data).
Proof.
  intros Hcall keys.
  destruct (decide (filtered_data self = [])) as [Hnil|Hne].
  { unfold get_formatted_data in Hcall. by rewrite Hnil in Hcall. }
  rewrite (get_formatted_data_nonempty self Hne) in Hcall.
  destruct (format_loop _ _ _) as [data'|] eqn:Hloop; simpl in Hcall; [|done].
  injection Hcall as <-.
  apply format_loop_rows in Hloop
    as (ds & os & hs & ls & cs & Hd & Ho & Hh & Hl & Hc & H).
  simpl in *. by rewrite Hd, Ho, Hh, Hl, Hc.
Qed.

Lemma format_loop_ok_rows filtered ks : forall acc,
  is_ok (format_loop filtered ks acc) = true ->
  Forall (fun k => exists values, dict_get k filtered = Some values
                     /\ well_formed_row (k, values) = true) ks.
Proof.
  induction ks as [|k ks IH]; intros acc; simpl; [constructor|].
  unfold dict_index.
  destruct (dict_get k filtered) as [values|] eqn:Hv; simpl; [|done].
  destruct (first_token k) as [date_only|] eqn:Ht; simpl; [|done].
  destruct (py_getitem values "1. open" ≫= py_float) as [o|] eqn:Ho;
    simpl; [|done].
  destruct (py_getitem values "2. high" ≫= py_float) as [h|] eqn:Hh;
    simpl; [|done].
  destruct (py_getitem values "3. low" ≫= py_float) as [l|] eqn:Hl;
    simpl; [|done].
  destruct (py_getitem values "4. close" ≫= py_float) as [c|] eqn:Hc;
    simpl; [|done].
  intros Hloop. constructor; [|by apply IH in Hloop].
  exists values. split; [done|]. unfold well_formed_row. simpl.
  by rewrite Ht, Ho, Hh, Hl, Hc.
Qed.

(** [get_formatted_data] returns exactly when every retained entry has a
    date token and four price fields that [float] accepts; one entry
    without them makes the whole call raise. *)
Theorem get_formatted_data_returns_iff self :
  dict_wf (filtered_data self) ->
  is_ok (get_formatted_data self) = true
  <-> Forall (fun kv => well_formed_row kv = true) (filtered_data self).
Proof.
  intros Hwf.
  destruct (decide (filtered_data self = [])) as [Hnil|Hne].
  { unfold get_formatted_data. rewrite Hnil. split; [constructor|done]. }
  rewrite (get_formatted_data_nonempty self Hne).
  split.
  - intros Hok.
    assert (Hloop : is_ok (format_loop (filtered_data self)
                             (sorted (dict_keys (filtered_data self)))
                             (mk_formatted [] [] [] [] [])) = true).
    { by destruct (format_loop _ _ _). }
    apply format_loop_ok_rows in Hloop. rewrite Forall_forall in Hloop.
    apply Forall_forall. intros [k v] Hin.
    destruct (Hloop k) as (values & Hget & Hrow).
    { apply sorted_elem_of, list_elem_of_fmap. by exists (k, v). }
    rewrite (dict_get_In_wf _ k v Hwf Hin) in Hget. by injection Hget as <-.
  - intros Hrows.
    assert (Hloop : is_ok (format_loop (filtered_data self)
                             (sorted (dict_keys (filtered_data self)))
                             (mk_formatted [] [] [] [] [])) = true).
    { apply format_loop_total; [done|].
      apply Forall_forall. intros k Hk. exact (proj1 (sorted_elem_of _ k) Hk). }
    by destruct (format_loop _ _ _).
Qed.

End format_extras.

(** The two entries of the sample series, decomposed. *)
Lemma get_formatted_data_aligned_witness :
  Forall2 (fun k d => first_token k = Ok d)
    (sorted (dict_keys Sample.daily_series)) ["2024-01-02"; "2024-01-05"].
Proof.
  apply (get_formatted_data_aligned (rt := Sample.rt)
           (mk_stock_data (rt := Sample.rt) "IBM" JNull 2 Sample.daily_series)
           (mk_formatted (rt := Sample.rt) ["2024-01-02"; "2024-01-05"]
              ["1"; "3"] ["2"; "4"] ["0.5"; "2.5"] ["1.5"; "3.5"])
           eq_refl).
Defined.

(** A retained entry without its closing price. *)
Lemma get_formatted_data_returns_iff_witness :
  is_ok (get_formatted_data
           (mk_stock_data (rt := Sample.rt) "IBM" JNull 2
              [("2024-01-02", JObj [("1. open", JStr "1"); ("2. high", JStr "2");
                                    ("3. low", JStr "0.5")])])) = true
  <-> Forall (fun kv => well_formed_row (rt := Sample.rt) kv = true)
        [("2024-01-02", JObj [("1. open", JStr "1"); ("2. high", JStr "2");
                              ("3. low", JStr "0.5")])].
Proof.
  apply (get_formatted_data_returns_iff (rt := Sample.rt)
           (mk_stock_data (rt := Sample.rt) "IBM" JNull 2
              [("2024-01-02", JObj [("1. open", JStr "1"); ("2. high", JStr "2");
                                    ("3. low", JStr "0.5")])])).
  unfold dict_wf. apply (bool_decide_unpack _). reflexivity.
Defined.

(** ** Validation: what [validate_date_format] accepts *)

Lemma parse_day_pad2_rest d w :
  1 <= d <= 31 -> parse_day (pad2 d ++ w) = Some (d, w).
Proof. intros Hd. small_cases d; reflexivity. Qed.

Lemma strptime_format_trailing y m d w :
  valid_ymd y m d = true -> w <> EmptyString ->
  strptime_ymd (format_ymd y m d ++ w) = Raise ValueError.
Proof.
  intros Hv Hw. pose proof (valid_ymd_bounds y m d Hv) as (Hy & Hm & Hd).
  pose proof (days_in_month_le y m).
  unfold strptime_ymd, format_ymd.
  rewrite !string_app_assoc, !string_app_cons, !string_app_nil.
  rewrite parse_year_pad4 by lia.
  rewrite parse_month_pad2 by lia.
  rewrite parse_day_pad2_rest by lia.
  by destruct w.
Qed.

Lemma parse_month_unpadded m rest :
  1 <= m <= 12 ->
  parse_month (unpadded m ++ String "-" rest) = Some (m, rest).
Proof.
  intros Hm. small_cases m; try reflexivity.
  destruct rest as [|c rest]; [reflexivity|].
  destruct c as [[] [] [] [] [] [] [] []]; reflexivity.
Qed.

Lemma parse_day_unpadded d :
  1 <= d <= 31 -> parse_day (unpadded d) = Some (d, EmptyString).
Proof. intros Hd. small_cases d; reflexivity. Qed.

Lemma parse_year_length s y s1 :
  parse_year s = Some (y, s1) -> String.length s = (5 + String.length s1)%nat.
Proof.
  unfold parse_year.
  destruct s as [|c1 [|c2 [|c3 [|c4 [|c5 s']]]]]; try done.
  destruct (ascii_dec c5 "-") as [->|Hne].
  - destruct (digit_val c1), (digit_val c2), (digit_val c3), (digit_val c4);
      try done.
    by intros [= _ <-].
  - destruct c5 as [[] [] [] [] [] [] [] []]; try done.
Qed.

Lemma parse_month_length s m s2 :
  parse_month s = Some (m, s2) ->
  String.length s = (2 + String.length s2)%nat
  \/ String.length s = (3 + String.length s2)%nat.
Proof.
  unfold parse_month.
  repeat match goal with
         | |- context [match ?x with _ => _ end] => destruct x
         end; try done; intros [= _ <-]; simpl; auto.
Qed.

Lemma parse_day_length s d :
  parse_day s = Some (d, EmptyString) ->
  String.length s = 1%nat \/ String.length s = 2%nat.
Proof.
  unfold parse_day.
  repeat match goal with
         | |- context [match ?x with _ => _ end] => destruct x
         end; try done; intros H; simplify_eq; simpl; auto.
Qed.

(** Zero padding of the month and of the day is optional: with either
    written in full or without its leading zero, a calendar date validates
    to the same value. *)
Theorem validate_date_format_padding_optional y m d ms ds :
  valid_ymd y m d = true ->
  ms = pad2 m \/ ms = unpadded m ->
  ds = pad2 d \/ ds = unpadded d ->
  validate_date_format (pad4 y ++ "-" ++ ms ++ "-" ++ ds)
  = Ok (Some (midnight y m d)).
Proof.
  intros Hv Hms Hds. pose proof (valid_ymd_bounds y m d Hv) as (Hy & Hm & Hd).
  pose proof (days_in_month_le y m).
  unfold validate_date_format, strptime_ymd.
  rewrite !string_app_cons, !string_app_nil.
  rewrite parse_year_pad4 by lia.
  assert (parse_month (ms ++ String "-" ds) = Some (m, ds)) as ->.
  { destruct Hms as [-> | ->];
      [apply parse_month_pad2|apply parse_month_unpadded]; lia. }
  assert (parse_day ds = Some (d, EmptyString)) as ->.
  { destruct Hds as [-> | ->];
      [apply parse_day_pad2|apply parse_day_unpadded]; lia. }
  by rewrite Hv.
Qed.

(** What is rejected: text after a zero-padded date (a time of day, a
    trailing blank), and every string shorter than 8 or longer than 10
    characters. *)
Theorem validate_date_format_rejects :
  (forall y m d w,
     valid_ymd y m d = true -> w <> EmptyString ->
     validate_date_format (format_ymd y m d ++ w) = Ok None)
  /\ (forall s dt,
        validate_date_format s = Ok (Some dt) ->
        (8 <= String.length s <= 10)%nat).
Proof.
  split.
  - intros y m d w Hv Hw. unfold validate_date_format.
    by rewrite strptime_format_trailing.
  - intros s dt. unfold validate_date_format.
    destruct (strptime_ymd s) as [dt'|ex] eqn:Hs;
      [|by rewrite (strptime_ymd_raises s ex Hs)].
    intros _. unfold strptime_ymd in Hs.
    destruct (parse_year s) as [[y s1]|] eqn:Hy; [|done].
    destruct (parse_month s1) as [[m s2]|] eqn:Hm; [|done].
    destruct (parse_day s2) as [[d [|c s3]]|] eqn:Hd; [|done|done].
    apply parse_year_length in Hy. apply parse_month_length in Hm.
    apply parse_day_length in Hd. lia.
Qed.

(** [validate_date_range] is a total order on [datetime] values: a range
    of a single day is accepted, of two values at least one order is
    accepted, acceptance is transitive, and two values accepted in both
    orders are equal. *)
Theorem validate_date_range_order :
  (forall a, validate_date_range a a = true)
  /\ (forall a b, validate_date_range a b = true \/ validate_date_range b a = true)
  /\ (forall a b c,
        validate_date_range a b = true -> validate_date_range b c = true ->
        validate_date_range a c = true)
  /\ (forall a b,
        validate_date_range a b = true -> validate_date_range b a = true ->
        a = b).
Proof.
  unfold validate_date_range. setoid_rewrite dt_ge_le.
  split; [apply dt_le_refl|]. split; [apply dt_le_total|].
  split; [apply dt_le_trans|apply dt_le_antisym].
Qed.

(** The unpadded text of 5 January 2024. *)
Lemma validate_date_format_padding_optional_witness :
  validate_date_format "2024-1-5" = Ok (Some (midnight 2024 1 5)).
Proof.
  apply (validate_date_format_padding_optional 2024 1 5 "1" "5");
    [reflexivity|by right|by right].
Defined.

(** A timestamp with a time of day is not a valid form date. *)
Lemma validate_date_format_rejects_witness :
  validate_date_format "2024-01-05 10:00:00" = Ok None.
Proof.
  apply (proj1 validate_date_format_rejects 2024 1 5 " 10:00:00");
    [reflexivity|discriminate].
Defined.

(** Two days of January 2024 in both orders. *)
Lemma validate_date_range_order_witness :
  validate_date_range (midnight 2024 1 1) (midnight 2024 1 31) = true.
Proof.
  apply (proj1 (proj2 (proj2 validate_date_range_order))
           (midnight 2024 1 1) (midnight 2024 1 15) (midnight 2024 1 31));
    reflexivity.
Defined.

(** ** Filtering followed by decomposition *)

Lemma span_token r :
  exists w rest,
    r = (w ++ rest)%string /\ no_space w = true
    /\ (rest = EmptyString
        \/ exists c r', rest = String c r' /\ is_space c = true).
Proof.
  induction r as [|c r (w & rest & -> & Hw & Hrest)].
  - exists EmptyString, EmptyString. auto.
  - destruct (is_space c) eqn:Hc.
    + exists EmptyString, (String c (w ++ rest)). split; [done|].
      split; [done|]. right. by exists c, (w ++ rest)%string.
    + exists (String c w), rest. split; [done|]. split; [|done].
      unfold no_space in *. simpl. by rewrite Hc.
Qed.

(** The first token of a key in the padded format is its padded date. *)
Lemma is_iso_key_token k :
  is_iso_key k = true ->
  exists y m d,
    valid_ymd y m d = true
    /\ key_date k = Ok (midnight y m d)
    /\ first_token k = Ok (format_ymd y m d).
Proof.
  intros Hiso.
  destruct (is_iso_key_shape k Hiso) as (y & m & d & r & Hv & Hk & ->).
  exists y, m, d. split; [done|]. split; [done|].
  destruct (span_token r) as (w & rest & -> & Hw & Hrest).
  pose proof (valid_ymd_ranges y m d Hv) as (Hy & Hm & Hd).
  pose proof (no_space_format_ymd y m d Hy Hm Hd) as Hns.
  assert (Hne : (format_ymd y m d ++ w)%string <> EmptyString) by done.
  assert (Htok : first_token (format_ymd y m d ++ w ++ rest)
                 = Ok (format_ymd y m d ++ w)%string).
  { unfold first_token. rewrite <- string_app_assoc.
    destruct Hrest as [-> | (c & r' & -> & Hc)].
    - rewrite string_app_nil_r.
      by rewrite split_ws_single; [|done|by apply no_space_app].
    - rewrite split_ws_token; [done|done|by apply no_space_app|done]. }
  unfold key_date in Hk. rewrite Htok in Hk. simpl in Hk.
  destruct w as [|c w].
  - rewrite Htok. by rewrite string_app_nil_r.
  - by rewrite strptime_format_trailing in Hk.
Qed.

Lemma compare_format_ymd_alone y1 m1 d1 y2 m2 d2 :
  0 <= y1 <= 9999 -> 0 <= m1 <= 99 -> 0 <= d1 <= 99 ->
  0 <= y2 <= 9999 -> 0 <= m2 <= 99 -> 0 <= d2 <= 99 ->
  String.compare (format_ymd y1 m1 d1) (format_ymd y2 m2 d2) =
  dt_compare (midnight y1 m1 d1) (midnight y2 m2 d2).
Proof.
  intros.
  rewrite <- (string_app_nil_r (format_ymd y1 m1 d1)),
          <- (string_app_nil_r (format_ymd y2 m2 d2)).
  rewrite compare_format_ymd by done.
  by destruct (dt_compare _ _).
Qed.

Lemma StronglySorted_Forall2 {A B} (P : A -> B -> Prop)
  (R : relation A) (R' : relation B) (l : list A) (l' : list B) :
  (forall a a' b b',
     a ∈ l -> a' ∈ l -> P a b -> P a' b' -> R a a' -> R' b b') ->
  Forall2 P l l' -> StronglySorted R l -> StronglySorted R' l'.
Proof.
  intros Himp HF. induction HF as [|a b l l' Hab HF IH]; intros Hs.
  - constructor.
  - apply StronglySorted_inv in Hs as [Hs Hall]. constructor.
    + apply IH; [|done]. intros a1 a2 b1 b2 H1 H2. apply Himp; by right.
    + rewrite Forall_forall in Hall. apply Forall_forall. intros b' Hb'.
      apply list_elem_of_lookup in Hb' as [i Hi].
      destruct (Forall2_lookup_r _ _ _ i b' HF Hi) as (a' & Ha' & HP).
      apply (Himp a a' b b'); [left| |done|done|].
      * right. by apply list_elem_of_lookup_2 in Ha'.
      * apply Hall. by apply list_elem_of_lookup_2 in Ha'.
Qed.

Lemma Forall2_weaken_in {A B} (P Q : A -> B -> Prop) (l : list A) (l' : list B) :
  Forall2 P l l' ->
  (forall a b, a ∈ l -> P a b -> Q a b) ->
  Forall2 Q l l'.
Proof.
  intros HF. induction HF as [|a b l l' Hab HF IH]; intros Himp; constructor.
  - apply Himp; [left|done].
  - apply IH. intros a' b' Ha'. apply Himp. by right.
Qed.

Section pipeline_extras.
Context `{rt : Runtime}.
Implicit Types (self : StockData) (s e : datetime).

(** Every key that a call retains has its date in the range. *)
Lemma filter_by_date_range_keys self s e f self' :
  filter_by_date_range self s e = Ok (f, self') ->
  forall k, k ∈ dict_keys f -> in_date_range s e k = true.
Proof.
  intros Hcall k Hk.
  apply filter_by_date_range_cases in Hcall
    as (key & _ & [(_ & -> & _)|(tsd & items & _ & _ & _ & Hloop & _)]).
  - inversion Hk.
  - destruct (in_date_range s e k) eqn:Hr; [done|]. exfalso.
    pose proof (filter_loop_get s e items [] f k Hloop) as Hget.
    rewrite Hr in Hget. simpl in Hget. by apply dict_get_None in Hget.
Qed.

(** Filtering a fresh object and decomposing the result shows only dates
    of the requested range: every element of [dates] parses to a day
    between the start and the end. *)
Theorem pipeline_dates_in_range sym raw ts s e f self' data :
  filter_by_date_range (StockData_init sym raw ts) s e = Ok (f, self') ->
  get_formatted_data self' = Ok (Some data) ->
  Forall (fun d => exists dt, strptime_ymd d = Ok dt
                     /\ dt_le s dt = true /\ dt_le dt e = true)
    (dates data).
Proof.
  intros Hfilter Hformat.
  pose proof (filter_by_date_range_keys _ _ _ _ _ Hfilter) as Hkeys.
  apply filter_by_date_range_fresh in Hfilter.
  apply get_formatted_data_aligned in Hformat as [Hdates _].
  rewrite Hfilter in Hdates.
  apply Forall_forall. intros d Hd.
  apply list_elem_of_lookup in Hd as [i Hi].
  destruct (Forall2_lookup_r _ _ _ i d Hdates Hi) as (k & Hk & Htok).
  apply list_elem_of_lookup_2, sorted_elem_of, Hkeys in Hk.
  unfold in_date_range, key_date in Hk. rewrite Htok in Hk. simpl in Hk.
  destruct (strptime_ymd d) as [dt|]; [|done].
  apply andb_true_iff in Hk. by exists dt.
Qed.

(** On keys in the zero-padded format, [dates] is the list of the padded
    dates of the keys in ascending order, so the labels of the chart run
    from the earliest day to the latest. *)
Theorem get_formatted_data_dates_sorted self data :
  Forall (fun k => is_iso_key k = true) (dict_keys (filtered_data self)) ->
  get_formatted_data self = Ok (Some data) ->
  StronglySorted String.le (dates data)
  /\ Forall2 (fun k d => exists y m dd,
                key_date k = Ok (midnight y m dd) /\ d = format_ymd y m dd)
       (sorted (dict_keys (filtered_data self))) (dates data).
Proof.
  intros Hiso Hformat. rewrite Forall_forall in Hiso.
  apply get_formatted_data_aligned in Hformat as [Hdates _].
  assert (Hshape : Forall2 (fun k d => exists y m dd,
                     valid_ymd y m dd = true
                     /\ key_date k = Ok (midnight y m dd)
                     /\ d = format_ymd y m dd)
                     (sorted (dict_keys (filtered_data self))) (dates data)).
  { apply (Forall2_weaken_in _ _ _ _ Hdates).
    intros k d Hk Htok. apply sorted_elem_of, Hiso in Hk.
    destruct (is_iso_key_token k Hk) as (y & m & dd & Hv & Hkd & Hft).
    exists y, m, dd. split; [done|]. split; [done|]. congruence. }
  split.
  - refine (StronglySorted_Forall2 _ String.le String.le _ _ _ Hshape _).
    + intros k k' d d' Hk Hk'
        (y & m & dd & Hv & Hkd & ->) (y' & m' & dd' & Hv' & Hkd' & ->) Hle.
      apply sorted_elem_of, Hiso in Hk. apply sorted_elem_of, Hiso in Hk'.
      pose proof (iso_key_le_date_le k k' Hk Hk' Hle) as Hdate.
      unfold key_date_le, date_rank in Hdate. rewrite Hkd, Hkd' in Hdate.
      apply valid_ymd_ranges in Hv, Hv'.
      unfold String.le, String.leb.
      rewrite compare_format_ymd_alone by lia. unfold dt_compare.
      by destruct (lex_compare _ _).
    + apply StronglySorted_merge_sort; apply _.
  - eapply Forall2_impl; [exact Hshape|].
    intros k d (y & m & dd & _ & Hkd & ->). by exists y, m, dd.
Qed.

End pipeline_extras.

(** The sample series in January 2024. *)
Lemma pipeline_dates_in_range_witness :
  Forall (fun d => exists dt, strptime_ymd d = Ok dt
                     /\ dt_le (midnight 2024 1 1) dt = true
                     /\ dt_le dt (midnight 2024 1 31) = true)
    ["2024-01-02"; "2024-01-05"].
Proof.
  apply (pipeline_dates_in_range (rt := Sample.rt) "IBM"
           (JObj [("Time Series (Daily)", JObj Sample.daily_series)]) 2
           (midnight 2024 1 1) (midnight 2024 1 31)
           Sample.daily_series
           (mk_stock_data (rt := Sample.rt) "IBM"
              (JObj [("Time Series (Daily)", JObj Sample.daily_series)]) 2
              Sample.daily_series)
           (mk_formatted (rt := Sample.rt) ["2024-01-02"; "2024-01-05"]
              ["1"; "3"] ["2"; "4"] ["0.5"; "2.5"] ["1.5"; "3.5"]));
    reflexivity.
Defined.

(** The sample series, which the endpoint gives newest first. *)
Lemma get_formatted_data_dates_sorted_witness :
  StronglySorted String.le ["2024-01-02"; "2024-01-05"].
Proof.
  apply (get_formatted_data_dates_sorted (rt := Sample.rt)
           (mk_stock_data (rt := Sample.rt) "IBM" JNull 2 Sample.daily_series)
           (mk_formatted (rt := Sample.rt) ["2024-01-02"; "2024-01-05"]
              ["1"; "3"] ["2"; "4"] ["0.5"; "2.5"] ["1.5"; "3.5"])).
  - repeat constructor.
  - reflexivity.
Defined.

(** ** The symbol list *)

Section load_symbols_extras.
Context `{rt : Runtime}.

Lemma collect_symbols_elem_of rows : forall symbols x,
  x ∈ collect_symbols rows symbols <->
  x ∈ symbols
  \/ exists row symbol,
       row ∈ rows /\ dict_get "Symbol" row = Some symbol
       /\ symbol <> EmptyString /\ x = str_upper (strip symbol).
Proof.
  induction rows as [|row rows IH]; intros symbols x; simpl.
  - split; [by left|]. intros [H|(row & symbol & Hin & _)]; [done|].
    inversion Hin.
  - destruct (dict_get "Symbol" row) as [symbol|] eqn:Hrow.
    + destruct (is_empty symbol) eqn:He; rewrite IH.
      * apply String.eqb_eq in He. split.
        -- intros [H|(r & sy & Hin & H)]; [by left|].
           right. exists r, sy. split; [by right|done].
        -- intros [H|(r & sy & Hin & Hr & Hne & Hx)]; [by left|].
           right. apply elem_of_cons in Hin as [->|Hin].
           ++ congruence.
           ++ by exists r, sy.
      * apply String.eqb_neq in He. rewrite elem_of_app, list_elem_of_singleton.
        split.
        -- intros [[H| ->]|(r & sy & Hin & H)]; [by left| |].
           ++ right. exists row, symbol. split; [left|done].
           ++ right. exists r, sy. split; [by right|done].
        -- intros [H|(r & sy & Hin & Hr & Hne & Hx)]; [by left; left|].
           apply elem_of_cons in Hin as [->|Hin].
           ++ left. right. congruence.
           ++ right. by exists r, sy.
    + rewrite IH. split.
      * intros [H|(r & sy & Hin & H)]; [by left|].
        right. exists r, sy. split; [by right|done].
      * intros [H|(r & sy & Hin & Hr & Hne & Hx)]; [by left|].
        right. apply elem_of_cons in Hin as [->|Hin]; [congruence|].
        by exists r, sy.
Qed.

(** When the file is read to its end, [load_symbols] returns a list in
    ascending order without duplicates whose elements are exactly the
    stripped, upper-cased [Symbol] values of the rows that have a
    non-empty one.  When the file is missing, or the reading raises at any
    point, it returns the five fallback symbols, whatever rows had been
    read. *)
Theorem load_symbols_csv_spec :
  (forall rows,
     let symbols := load_symbols_csv (Readable rows false) in
     NoDup symbols
     /\ StronglySorted String.le symbols
     /\ forall x,
          x ∈ symbols <->
          exists row symbol,
            row ∈ rows /\ dict_get "Symbol" row = Some symbol
            /\ symbol <> EmptyString /\ x = str_upper (strip symbol))
  /\ load_symbols_csv NoSuchFile = fallback_symbols
  /\ (forall rows, load_symbols_csv (Readable rows true) = fallback_symbols).
Proof.
  split; [|done]. intros rows symbols. unfold symbols, load_symbols_csv, sorted.
  split; [|split].
  - rewrite merge_sort_Permutation. apply NoDup_remove_dups.
  - apply StronglySorted_merge_sort; apply _.
  - intros x. rewrite merge_sort_Permutation, elem_of_remove_dups.
    rewrite collect_symbols_elem_of. split; [|by right].
    intros [H|H]; [inversion H|done].
Qed.

End load_symbols_extras.

(** Two rows naming the same symbol and one row without a symbol. *)
Lemma load_symbols_csv_spec_witness :
  "IBM" ∈ load_symbols_csv (rt := Sample.rt)
            (Readable [[("Symbol", " ibm "); ("Name", "I.B.M.")];
                       [("Name", "nameless")];
                       [("Symbol", "IBM")]] false).
Proof.
  apply (proj1 (load_symbols_csv_spec (rt := Sample.rt))).
  exists [("Symbol", " ibm "); ("Name", "I.B.M.")], " ibm ".
  split; [left|]. split; [reflexivity|]. split; [discriminate|reflexivity].
Defined.

(** ** The request handler: every way a run ends *)

Ltac elem_here := solve [repeat (first [left | right])].

Section handler_extras.
Context `{rt : Runtime}.
Implicit Types (request : flask_request) (st : effects).

Lemma request_params_symbol api sym ts params :
  request_params api sym ts = Ok params -> dict_get "symbol" params = Some sym.
Proof.
  unfold request_params, dict_index.
  destruct (dict_get ts function_map) as [fn|]; simpl; [|done].
  destruct (ts =? 1); by intros [= <-].
Qed.

(** A call of [fetch_stock_data] either raises [KeyError] at once or
    sends its one request. *)
Lemma fetch_stock_data_shape api sym ts st :
  fetch_stock_data api sym ts st = (st, Raise KeyError)
  \/ exists params r,
       dict_get "symbol" params = Some sym
       /\ fetch_stock_data api sym ts st =
          (mk_effects (requests_sent st ++ [mk_request BASE_URL params])
             (flashed st), r).
Proof.
  destruct (request_params api sym ts) as [params|ex] eqn:Hp.
  - right. destruct (fetch_stock_data_effects api sym ts params st Hp) as [r Hr].
    exists params, r. eauto using request_params_symbol.
  - left. unfold fetch_stock_data, mbind, IO_bind, lift. rewrite Hp.
    unfold request_params, dict_index in Hp.
    destruct (dict_get ts function_map); simpl in Hp; [|by injection Hp as <-].
    by destruct (ts =? 1).
Qed.

Lemma py_int_raises v ex : py_int v = Raise ex -> ex = ValueError.
Proof. unfold py_int. destruct (int_of_str v); by intros [= <-]. Qed.

Lemma validate_date_format_Ok x : exists o, validate_date_format x = Ok o.
Proof.
  unfold validate_date_format.
  destruct (strptime_ymd x) as [dt|ex] eqn:Hx; [by eexists|].
  rewrite (strptime_ymd_raises x ex Hx). by eexists.
Qed.

(** A series with a date is always rendered, and to a text that is not
    empty. *)
Lemma create_chart_nonempty (data : formatted) sym chart_type a b :
  dates data <> [] ->
  exists html,
    create_chart (Some data) sym chart_type a b = Some html
    /\ is_empty html = false.
Proof.
  intros Hd. unfold create_chart. destruct (dates data); [done|].
  eexists. split; reflexivity.
Qed.

(** Every run of [index] is one of the outcomes of [index_outcome], and it
    adds its requests and messages after those already recorded. *)
Lemma index_outcomes request st :
  exists reqs fl r,
    index request st =
    (mk_effects (requests_sent st ++ reqs) (flashed st ++ fl), r)
    /\ index_outcome request reqs fl r.
Proof.
  assert (Hst : st = mk_effects (requests_sent st ++ []) (flashed st ++ [])).
  { destruct st. simpl. by rewrite !app_nil_r. }
  assert (Hsent : forall l : list http_request, l = l ++ []).
  { intros l. by rewrite app_nil_r. }
  assert (Hmsg : forall m c,
            m ∈ [msg_select_symbol; msg_both_dates; msg_date_format;
                 msg_date_order] ->
            exists reqs fl r,
              (mk_effects (requests_sent st) (flashed st ++ [(m, c)]),
               Ok (aborted request)) =
              (mk_effects (requests_sent st ++ reqs) (flashed st ++ fl), r)
              /\ (c = "error"%string -> index_outcome request reqs fl r)).
  { intros m c Hm. exists [], [(m, c)], (Ok (aborted request)).
    rewrite app_nil_r. split; [done|]. intros ->. by constructor. }
  unfold index. io_unfold.
  fold (submitted_symbol request) (submitted_start request)
    (submitted_end request) (aborted request).
  destruct (method request) eqn:Hmethod.
  { exists [], [], (Ok (mk_rendered "index.html" load_symbols None None)).
    split; [by rewrite <- Hst|by constructor]. }
  destruct (py_int _) as [ct|ex] eqn:Hct.
  2:{ apply py_int_raises in Hct as ->. exists [], [], (Raise ValueError).
      split; [by rewrite <- Hst|constructor]. }
  destruct (py_int (dict_get_default "time_series" _ _)) as [ts|ex] eqn:Hts.
  2:{ apply py_int_raises in Hts as ->. exists [], [], (Raise ValueError).
      split; [by rewrite <- Hst|constructor]. }
  destruct (is_empty (submitted_symbol request)).
  { destruct (Hmsg msg_select_symbol "error"%string) as (q & fl & r & E & Ho);
      [elem_here|]. exists q, fl, r. split; [exact E|by apply Ho]. }
  destruct (is_empty (submitted_start request)
            || is_empty (submitted_end request)).
  { destruct (Hmsg msg_both_dates "error"%string) as (q & fl & r & E & Ho);
      [elem_here|]. exists q, fl, r. split; [exact E|by apply Ho]. }
  destruct (validate_date_format_Ok (submitted_start request)) as [sa ->].
  destruct (validate_date_format_Ok (submitted_end request)) as [sb ->].
  destruct sa as [s|], sb as [e|];
    try (destruct (Hmsg msg_date_format "error"%string)
           as (q & fl & r & E & Ho); [elem_here|];
         exists q, fl, r; split; [exact E|by apply Ho]).
  destruct (validate_date_range s e); simpl.
  2:{ destruct (Hmsg msg_date_order "error"%string) as (q & fl & r & E & Ho);
        [elem_here|]. exists q, fl, r. split; [exact E|by apply Ho]. }
  destruct (fetch_stock_data_shape AlphaVantageAPI_init
              (submitted_symbol request) ts st)
    as [-> | (params & r & Hsym & ->)].
  { exists [], [], (Raise KeyError). split; [by rewrite <- Hst|constructor]. }
  set (st1 := mk_effects (requests_sent st ++ [mk_request BASE_URL params])
                (flashed st)).
  assert (Hraise : forall ex,
            exists reqs fl r',
              (st1, Raise ex) =
              (mk_effects (requests_sent st ++ reqs) (flashed st ++ fl), r')
              /\ index_outcome request reqs fl r').
  { intros ex. exists [mk_request BASE_URL params], [], (Raise ex).
    unfold st1. rewrite app_nil_r. split; [done|by constructor]. }
  assert (Hfail :
            exists reqs fl r',
              (mk_effects (requests_sent st1)
                 (flashed st1 ++ [(msg_fetch_failed, "error"%string)]),
               Ok (aborted request)) =
              (mk_effects (requests_sent st ++ reqs) (flashed st ++ fl), r')
              /\ index_outcome request reqs fl r').
  { exists [mk_request BASE_URL params], [(msg_fetch_failed, "error"%string)],
      (Ok (aborted request)). split; [done|by constructor]. }
  assert (Hnone :
            exists reqs fl r',
              (mk_effects (requests_sent st1)
                 (flashed st1
                  ++ [(msg_no_data (submitted_symbol request)
                         (submitted_start request) (submitted_end request),
                       "warning"%string)]),
               Ok (aborted request)) =
              (mk_effects (requests_sent st ++ reqs) (flashed st ++ fl), r')
              /\ index_outcome request reqs fl r').
  { eexists [mk_request BASE_URL params], [_], (Ok (aborted request)).
    split; [done|by constructor]. }
  destruct r as [[raw|]|ex]; [| |by apply Hraise].
  2:{ exact Hfail. }
  destruct (truthy raw); simpl; [|exact Hfail].
  destruct (filter_by_date_range _ s e) as [[f self']|ex]; [|by apply Hraise].
  destruct (get_formatted_data self') as [[data|]|ex] eqn:Hformat;
    [| |by apply Hraise].
  2:{ exact Hnone. }
  destruct (dates data) as [|d ds] eqn:Hdates; [exact Hnone|].
  destruct (create_chart_nonempty data (submitted_symbol request) ct
              (submitted_start request) (submitted_end request))
    as (html & Hchart & Hne); [by rewrite Hdates|].
  rewrite Hchart, Hne.
  eexists [mk_request BASE_URL params], [_], _. split; [reflexivity|].
  apply outcome_success; [done| |simpl; lia].
  intros ->. discriminate Hne.
Qed.

End handler_extras.

Lemma validated_not_empty x dt :
  validate_date_format x = Ok (Some dt) -> is_empty x = false.
Proof. intros Hx. destruct x; [|done]. discriminate Hx. Qed.

(** The run of [index] on a submission that passes every check, up to the
    call of [fetch_stock_data]. *)
Ltac index_validated request Hm Hct Hts Hsym Hs He Hr :=
  unfold submitted_chart_type, submitted_time_series, submitted_start,
    submitted_end in *;
  unfold index; rewrite Hm; io_unfold; rewrite Hct, Hts;
  fold (submitted_symbol request);
  destruct (is_empty (submitted_symbol request)) eqn:?Hse;
    [match goal with H : is_empty _ = true |- _ =>
       apply String.eqb_eq in H; done end|];
  rewrite (validated_not_empty _ _ Hs), (validated_not_empty _ _ He);
  simpl; rewrite Hs, He, Hr; simpl.

Section handler_paths.
Context `{rt : Runtime}.
Implicit Types (request : flask_request) (st : effects).

Lemma get_formatted_data_Some self data :
  get_formatted_data self = Ok (Some data) ->
  filtered_data self <> []
  /\ length (dates data) = length (filtered_data self).
Proof.
  intros Hcall.
  destruct (decide (filtered_data self = [])) as [Hnil|Hne].
  { unfold get_formatted_data in Hcall. by rewrite Hnil in Hcall. }
  split; [done|].
  rewrite (get_formatted_data_nonempty self Hne) in Hcall.
  destruct (format_loop _ _ _) as [data'|] eqn:Hloop; simpl in Hcall; [|done].
  injection Hcall as <-. apply format_loop_lengths in Hloop as [Hd _].
  simpl in Hd. rewrite sorted_length in Hd. unfold dict_keys in Hd.
  by rewrite length_map in Hd.
Qed.

(** The checks of a submission come in a fixed order, each with its own
    message and none reaching the network: an empty symbol is reported
    whatever the dates are; then a missing date; then a date that does not
    validate. *)
Theorem index_validation_precedence request st ct ts :
  method request = POST ->
  submitted_chart_type request = Ok ct ->
  submitted_time_series request = Ok ts ->
  (submitted_symbol request = EmptyString ->
   index request st =
   (with_flash st msg_select_symbol "error", Ok (aborted request)))
  /\ (submitted_symbol request <> EmptyString ->
      submitted_start request = EmptyString
      \/ submitted_end request = EmptyString ->
      index request st =
      (with_flash st msg_both_dates "error", Ok (aborted request)))
  /\ (submitted_symbol request <> EmptyString ->
      submitted_start request <> EmptyString ->
      submitted_end request <> EmptyString ->
      validate_date_format (submitted_start request) = Ok None
      \/ validate_date_format (submitted_end request) = Ok None ->
      index request st =
      (with_flash st msg_date_format "error", Ok (aborted request))).
Proof.
  intros Hm Hct Hts.
  unfold submitted_chart_type, submitted_time_series in *.
  unfold index. rewrite Hm. io_unfold. rewrite Hct, Hts.
  fold (submitted_symbol request) (submitted_start request)
    (submitted_end request) (aborted request).
  unfold with_flash.
  split; [|split].
  - intros ->. reflexivity.
  - intros Hsym Hdates.
    destruct (is_empty (submitted_symbol request)) eqn:Hse.
    { by apply String.eqb_eq in Hse. }
    assert (is_empty (submitted_start request)
            || is_empty (submitted_end request) = true) as ->; [|done].
    apply orb_true_iff. destruct Hdates as [-> | ->]; auto.
  - intros Hsym Ha Hb Hbad.
    destruct (is_empty (submitted_symbol request)) eqn:Hse.
    { by apply String.eqb_eq in Hse. }
    apply String.eqb_neq in Ha, Hb. unfold is_empty. rewrite Ha, Hb. simpl.
    destruct (validate_date_format_Ok (submitted_start request)) as [sa Hsa].
    destruct (validate_date_format_Ok (submitted_end request)) as [sb Hsb].
    rewrite Hsa, Hsb.
    destruct Hbad as [Hbad|Hbad].
    + assert (sa = None) as -> by congruence. by destruct sb.
    + assert (sb = None) as -> by congruence. by destruct sa.
Qed.

(** A [chart_type] or [time_series] field that [int] rejects makes the
    handler raise [ValueError] before it checks or reports anything. *)
Theorem index_bad_integer request st ex :
  method request = POST ->
  submitted_chart_type request = Raise ex
  \/ submitted_time_series request = Raise ex ->
  index request st = (st, Raise ValueError).
Proof.
  intros Hm Hbad.
  unfold submitted_chart_type, submitted_time_series in *.
  unfold index. rewrite Hm. io_unfold.
  destruct Hbad as [Hbad|Hbad].
  - rewrite Hbad. by rewrite (py_int_raises _ _ Hbad).
  - destruct (py_int (dict_get_default "chart_type" _ _)) as [ct|ex'] eqn:Hct.
    + rewrite Hbad. by rewrite (py_int_raises _ _ Hbad).
    + by rewrite (py_int_raises _ _ Hct).
Qed.

(** A submission that passes every check with a granularity code outside
    1 to 4 makes the handler raise [KeyError]: no request is sent and no
    message is flashed. *)
Theorem index_unmapped_granularity request st ct ts s e :
  method request = POST ->
  submitted_chart_type request = Ok ct ->
  submitted_time_series request = Ok ts ->
  submitted_symbol request <> EmptyString ->
  validate_date_format (submitted_start request) = Ok (Some s) ->
  validate_date_format (submitted_end request) = Ok (Some e) ->
  validate_date_range s e = true ->
  ~ (1 <= ts <= 4) ->
  index request st = (st, Raise KeyError).
Proof.
  intros Hm Hct Hts Hsym Hs He Hr Hunmapped.
  index_validated request Hm Hct Hts Hsym Hs He Hr.
  by rewrite fetch_stock_data_unmapped.
Qed.

(** After a usable response, a non-empty result is charted: the page
    carries the chart of the decomposed series and the single message
    [msg_success], whose count is the number of retained entries.  A
    response that is empty (such as an empty object) is reported like a
    failed fetch. *)
Theorem index_success request st ct ts s e st1 raw :
  method request = POST ->
  submitted_chart_type request = Ok ct ->
  submitted_time_series request = Ok ts ->
  submitted_symbol request <> EmptyString ->
  validate_date_format (submitted_start request) = Ok (Some s) ->
  validate_date_format (submitted_end request) = Ok (Some e) ->
  validate_date_range s e = true ->
  fetch_stock_data AlphaVantageAPI_init (submitted_symbol request) ts st
  = (st1, Ok (Some raw)) ->
  (truthy raw = false ->
   index request st =
   (with_flash st1 msg_fetch_failed "error", Ok (aborted request)))
  /\ (forall f self' data,
        truthy raw = true ->
        filter_by_date_range
          (StockData_init (submitted_symbol request) raw ts) s e
        = Ok (f, self') ->
        get_formatted_data self' = Ok (Some data) ->
        exists html,
          create_chart (Some data) (submitted_symbol request) ct
            (submitted_start request) (submitted_end request) = Some html
          /\ (0 < length f)%nat
          /\ index request st =
             (with_flash st1 (msg_success (submitted_symbol request) (length f))
                "success",
              Ok (mk_rendered "index.html" load_symbols (Some html)
                    (Some (submitted_symbol request))))).
Proof.
  intros Hm Hct Hts Hsym Hs He Hr Hfetch. split.
  - intros Htruthy.
    index_validated request Hm Hct Hts Hsym Hs He Hr.
    by rewrite Hfetch, Htruthy.
  - intros f self' data Htruthy Hfilter Hformat.
    destruct (get_formatted_data_Some self' data Hformat) as [Hne Hlen].
    rewrite (filter_by_date_range_fresh _ _ _ _ _ _ _ Hfilter) in Hne, Hlen.
    assert (Hdates : dates data <> []).
    { intros Hnil. rewrite Hnil in Hlen. destruct f; [done|discriminate]. }
    destruct (create_chart_nonempty data (submitted_symbol request) ct
                (strip (dict_get_default "start_date" EmptyString (form request)))
                (strip (dict_get_default "end_date" EmptyString (form request)))
                Hdates) as (html & Hchart & Hhtml).
    exists html. split; [exact Hchart|]. split; [destruct f; [done|simpl; lia]|].
    index_validated request Hm Hct Hts Hsym Hs He Hr.
    rewrite Hfetch, Htruthy. simpl. rewrite Hfilter, Hformat.
    destruct (dates data) as [|d ds] eqn:Hd; [done|].
    rewrite Hchart, Hhtml. simpl. unfold with_flash. by rewrite <- Hlen.
Qed.

(** An exception raised while filtering or decomposing escapes the
    handler after the request has been sent: nothing is flashed and no
    page is produced. *)
Theorem index_processing_error request st ct ts s e st1 raw ex :
  method request = POST ->
  submitted_chart_type request = Ok ct ->
  submitted_time_series request = Ok ts ->
  submitted_symbol request <> EmptyString ->
  validate_date_format (submitted_start request) = Ok (Some s) ->
  validate_date_format (submitted_end request) = Ok (Some e) ->
  validate_date_range s e = true ->
  fetch_stock_data AlphaVantageAPI_init (submitted_symbol request) ts st
  = (st1, Ok (Some raw)) ->
  truthy raw = true ->
  (filter_by_date_range (StockData_init (submitted_symbol request) raw ts) s e
   = Raise ex ->
   index request st = (st1, Raise ex))
  /\ (forall f self',
        filter_by_date_range
          (StockData_init (submitted_symbol request) raw ts) s e
        = Ok (f, self') ->
        get_formatted_data self' = Raise ex ->
        index request st = (st1, Raise ex)).
Proof.
  intros Hm Hct Hts Hsym Hs He Hr Hfetch Htruthy. split.
  - intros Hfilter. index_validated request Hm Hct Hts Hsym Hs He Hr.
    rewrite Hfetch, Htruthy. simpl. by rewrite Hfilter.
  - intros f self' Hfilter Hformat.
    index_validated request Hm Hct Hts Hsym Hs He Hr.
    rewrite Hfetch, Htruthy. simpl. by rewrite Hfilter, Hformat.
Qed.

End handler_paths.

Section handler_invariants.
Context `{rt : Runtime}.
Implicit Types (request : flask_request) (st : effects).

(** One submission costs at most one request: a run of [index] keeps the
    requests already recorded and adds none or one, which goes to
    [BASE_URL] and asks for the symbol as normalised from the form. *)
Theorem index_at_most_one_request request st :
  exists reqs,
    requests_sent (index request st).1 = requests_sent st ++ reqs
    /\ (length reqs <= 1)%nat
    /\ Forall (fun q => req_url q = BASE_URL
                 /\ dict_get "symbol" (req_params q)
                    = Some (submitted_symbol request)) reqs.
Proof.
  destruct (index_outcomes request st) as (reqs & fl & r & -> & Hout).
  exists reqs. split; [done|].
  destruct Hout; simpl; (split; [lia|]); repeat constructor; done.
Qed.

(** A run of [index] that returns a page for a submission has flashed
    exactly one message, of category [error], [warning] or [success], and
    the page carries a chart exactly when the category is [success]; a run
    that raises has flashed nothing; a [GET] flashes nothing and shows no
    chart.  Messages flashed earlier are kept. *)
Theorem index_one_message request st :
  exists fl,
    flashed (index request st).1 = flashed st ++ fl
    /\ match (index request st).2 with
       | Raise _ => fl = []
       | Ok page =>
           template_name page = "index.html"%string
           /\ symbols page = load_symbols
           /\ match method request with
              | GET =>
                  fl = [] /\ chart_html page = None
                  /\ selected_symbol page = None
              | POST =>
                  selected_symbol page = Some (submitted_symbol request)
                  /\ exists message category,
                       fl = [(message, category)]
                       /\ category ∈ ["error"; "warning"; "success"]%string
                       /\ (category = "success"%string
                           <-> chart_html page <> None)
              end
       end.
Proof.
  destruct (method request) eqn:Hm.
  - exists []. unfold index. rewrite Hm. simpl. by rewrite app_nil_r.
  - destruct (index_outcomes request st) as (reqs & fl & r & -> & Hout).
    exists fl. split; [done|]. simpl.
    destruct Hout; try done; try congruence;
      (split; [done|]); (split; [done|]); (split; [done|]);
      eexists _, _; (split; [reflexivity|]); (split; [elem_here|]);
      split; try done; by intros [].
Qed.

(** The message [msg_chart_failed] is never flashed: when the handler
    calls [create_chart] the series has a date, so a page text is
    produced and it is not empty. *)
Theorem index_never_chart_failed request st category :
  (msg_chart_failed, category) ∉ flashed st ->
  (msg_chart_failed, category) ∉ flashed (index request st).1.
Proof.
  intros Hst.
  destruct (index_outcomes request st) as (reqs & fl & r & -> & Hout).
  simpl. rewrite elem_of_app. intros [H|H]; [done|].
  destruct Hout as [| |m Hm| | | | |];
    try (by inversion H);
    apply list_elem_of_singleton in H; try discriminate H.
  injection H as <- _.
  repeat (apply elem_of_cons in Hm as [Hm|Hm]; [discriminate Hm|]).
  inversion Hm.
Qed.

(** The page text holds the symbol and the two date labels exactly as
    they are given, with no escaping. *)
Theorem create_chart_verbatim (data : formatted) sym chart_type a b html :
  create_chart (Some data) sym chart_type a b = Some html ->
  is_substring sym html = true
  /\ is_substring a html = true
  /\ is_substring b html = true.
Proof.
  unfold create_chart. destruct (dates data); [done|]. intros [= <-].
  set (env := chart_env data sym _ a b).
  assert (Hpage : exists pre post,
            render env html_template
            = (pre ++ sym ++ ": " ++ a ++ " to " ++ b ++ post)%string).
  { assert (Hsplit : exists rest,
              render env html_template
              = (render env (firstn 2 html_template) ++ newline
                 ++ render_line env title_line ++ rest)%string).
    { eexists. reflexivity. }
    destruct Hsplit as [rest ->].
    exists (render env (firstn 2 html_template) ++ newline
            ++ "            <h2>Stock Data for ")%string,
           ("</h2>" ++ rest)%string.
    change (render_line env title_line)
      with ("            <h2>Stock Data for " ++ sym ++ ": " ++ a ++ " to "
            ++ b ++ "</h2>")%string.
    by rewrite !string_app_assoc. }
  destruct Hpage as (pre & post & ->).
  split; [apply is_substring_app|]. split.
  - replace (pre ++ sym ++ ": " ++ a ++ " to " ++ b ++ post)%string
      with ((pre ++ sym ++ ": ") ++ a ++ " to " ++ b ++ post)%string
      by (by rewrite !string_app_assoc).
    apply is_substring_app.
  - replace (pre ++ sym ++ ": " ++ a ++ " to " ++ b ++ post)%string
      with ((pre ++ sym ++ ": " ++ a ++ " to ") ++ b ++ post)%string
      by (by rewrite !string_app_assoc).
    apply is_substring_app.
Qed.

End handler_invariants.

(** A submission without a symbol and with dates in the wrong order: the
    symbol is what is reported. *)
Lemma index_validation_precedence_witness :
  run (index (rt := Sample.rt)
         (mk_flask_request POST
            [("symbol", "  "); ("start_date", "2024-02-01");
             ("end_date", "2024-01-01")]))
  = (mk_effects [] [(msg_select_symbol, "error")],
     Ok (mk_rendered "index.html" ["AAPL"; "IBM"] None (Some EmptyString))).
Proof.
  apply (proj1 (index_validation_precedence (rt := Sample.rt)
                  (mk_flask_request POST
                     [("symbol", "  "); ("start_date", "2024-02-01");
                      ("end_date", "2024-01-01")])
                  no_effects 2 2 eq_refl eq_refl eq_refl)).
  reflexivity.
Defined.

(** A chart type that is not a number. *)
Lemma index_bad_integer_witness :
  run (index (rt := Sample.rt)
         (mk_flask_request POST [("symbol", "ibm"); ("chart_type", "bar")]))
  = (no_effects, Raise ValueError).
Proof.
  apply (index_bad_integer (rt := Sample.rt)
           (mk_flask_request POST [("symbol", "ibm"); ("chart_type", "bar")])
           no_effects ValueError eq_refl).
  left. reflexivity.
Defined.

(** The granularity code 5 on an otherwise valid submission. *)
Lemma index_unmapped_granularity_witness :
  run (index (rt := Sample.rt)
         (mk_flask_request POST
            [("symbol", "ibm"); ("time_series", "5");
             ("start_date", "2024-01-01"); ("end_date", "2024-01-03")]))
  = (no_effects, Raise KeyError).
Proof.
  apply (index_unmapped_granularity (rt := Sample.rt)
           (mk_flask_request POST
              [("symbol", "ibm"); ("time_series", "5");
               ("start_date", "2024-01-01"); ("end_date", "2024-01-03")])
           no_effects 2 5 (midnight 2024 1 1) (midnight 2024 1 3)
           eq_refl eq_refl eq_refl);
    [discriminate|reflexivity|reflexivity|reflexivity|lia].
Defined.

(** The sample series charted for the first days of January 2024. *)
Lemma index_success_witness :
  exists html,
    run (index (rt := Sample.rt)
           (mk_flask_request POST
              [("symbol", "ibm"); ("start_date", "2024-01-01");
               ("end_date", "2024-01-03")]))
    = (mk_effects
         [mk_request BASE_URL
            [("function", "TIME_SERIES_DAILY"); ("symbol", "IBM");
             ("apikey", "demo"); ("outputsize", "full")]]
         [("Successfully generated chart for IBM with 1 data points.",
           "success")],
       Ok (mk_rendered "index.html" ["AAPL"; "IBM"] (Some html) (Some "IBM"))).
Proof.
  destruct (index_success (rt := Sample.rt)
              (mk_flask_request POST
                 [("symbol", "ibm"); ("start_date", "2024-01-01");
                  ("end_date", "2024-01-03")])
              no_effects 2 2 (midnight 2024 1 1) (midnight 2024 1 3)
              (mk_effects
                 [mk_request BASE_URL
                    [("function", "TIME_SERIES_DAILY"); ("symbol", "IBM");
                     ("apikey", "demo"); ("outputsize", "full")]] [])
              (JObj [("Meta Data", JObj []);
                     ("Time Series (Daily)", JObj Sample.daily_series)])
              eq_refl eq_refl eq_refl) as [_ Hcharted];
    [discriminate|reflexivity|reflexivity|reflexivity|reflexivity|].
  edestruct Hcharted as (html & _ & _ & Hindex);
    [reflexivity|reflexivity|reflexivity|].
  exists html. exact Hindex.
Defined.

(** The sample response for [BAD] has the key [2024-13-40]. *)
Lemma index_processing_error_witness :
  run (index (rt := Sample.rt)
         (mk_flask_request POST
            [("symbol", "bad"); ("start_date", "2024-01-01");
             ("end_date", "2024-01-03")]))
  = (mk_effects
       [mk_request BASE_URL
          [("function", "TIME_SERIES_DAILY"); ("symbol", "BAD");
           ("apikey", "demo"); ("outputsize", "full")]] [],
     Raise ValueError).
Proof.
  apply (proj1 (index_processing_error (rt := Sample.rt)
                  (mk_flask_request POST
                     [("symbol", "bad"); ("start_date", "2024-01-01");
                      ("end_date", "2024-01-03")])
                  no_effects 2 2 (midnight 2024 1 1) (midnight 2024 1 3)
                  _ (JObj [("Time Series (Daily)",
                            JObj [("2024-13-40",
                                   Sample.ohlc "1" "2" "0.5" "1.5")])])
                  ValueError eq_refl eq_refl eq_refl
                  ltac:(discriminate) eq_refl eq_refl eq_refl eq_refl eq_refl)).
  reflexivity.
Defined.

(** The chart message is absent from a run that starts with no message. *)
Lemma index_never_chart_failed_witness :
  (msg_chart_failed, "error"%string)
  ∉ flashed (run (index (rt := Sample.rt)
                    (mk_flask_request POST
                       [("symbol", "ibm"); ("start_date", "2024-01-01");
                        ("end_date", "2024-01-03")]))).1.
Proof.
  apply (index_never_chart_failed (rt := Sample.rt)).
  intros H. inversion H.
Defined.

(** The page of a one-row series names the symbol it was asked for. *)
Lemma create_chart_verbatim_witness :
  is_substring "IBM"
    (render
       (chart_env (rt := Sample.rt)
          (mk_formatted (rt := Sample.rt) ["2024-01-02"] ["1"] ["2"] ["0.5"] ["1.5"])
          "IBM" "bar" "2024-01-01" "2024-01-03")
       html_template) = true.
Proof.
  apply (create_chart_verbatim (rt := Sample.rt)
           (mk_formatted (rt := Sample.rt) ["2024-01-02"] ["1"] ["2"] ["0.5"] ["1.5"])
           "IBM" 1 "2024-01-01" "2024-01-03" _ eq_refl).
Defined.
